(** * Netrunner: the HTTP/1.x engine of marpit19/Netrunner, embedded in Rocq

    The Go sources are embedded shallowly: byte slices and Go strings are
    [string]s (sequences of 8-bit characters), [map[string]string] is a
    [gmap string string], fallible functions return a [result], handlers run
    in a small state monad over an explicit world, and the connection pool is
    a record updated by atomic steps (every method body runs under the pool's
    mutex).

    The repository carries several revisions of the same files.  Each
    revision that a property talks about lives in a module of its own:

    - [SplitParser]  : [ParseRequest] of src/unnamed/part_005
    - [LineParser]   : [ParseRequest] of src/pkg/http/request.go
    - [Resp]         : [Response] and its methods, src/unnamed/part_003 and
                       src/unnamed/part_004
    - [PlainRouter]  : [Router] of src/pkg/http/router.go
    - [TLSRouter]    : [Router] of src/unnamed/part_006
    - [Pool]         : [ConnPool] of src/pkg/http/connpool.go *)

From Stdlib Require Import Ascii String List Arith Lia ZArith DecimalString.
From stdpp Require Import gmap strings list fin_maps.

Set Default Proof Using "Type".
#[global] Arguments String.append !s1 s2 / : simpl nomatch.

(** ** Results of fallible functions: the Go pair [(value, error)] *)

Inductive result (A E : Type) : Type :=
| Ok (a : A)
| Err (e : E).
Arguments Ok {A E} a.
Arguments Err {A E} e.

Definition is_ok {A E} (r : result A E) : bool :=
  match r with Ok _ => true | Err _ => false end.

(** ** The Go library functions the sources call *)

Module GoStrings.

Definition CR : ascii := "013"%char.
Definition LF : ascii := "010"%char.
Definition LFs : string := String LF "".
Definition CRLF : string := String CR (String LF "").
Definition CRLFCRLF : string := CRLF +:+ CRLF.

(** [s[n:]] *)
Fixpoint sliceFrom (n : nat) (s : string) : string :=
  match n, s with
  | 0, _ => s
  | S n', String _ s' => sliceFrom n' s'
  | S _, EmptyString => ""
  end.

(** [s[:n]] *)
Fixpoint sliceTo (n : nat) (s : string) : string :=
  match n, s with
  | 0, _ => ""
  | S n', String c s' => String c (sliceTo n' s')
  | S _, EmptyString => ""
  end.

(** [strings.HasPrefix(s, prefix)] *)
Definition HasPrefix (s pre : string) : bool := String.prefix pre s.

(** [strings.TrimPrefix(s, prefix)] *)
Definition TrimPrefix (s pre : string) : string :=
  if HasPrefix s pre then sliceFrom (String.length pre) s else s.

(** The step shared by [strings.Split], [strings.SplitN] and
    [bytes.SplitN] (genSplit): with [m := Index(s, sep)], the pair
    [(s[:m], s[m+len(sep):])], or [None] when [sep] does not occur.
    [sep] is non-empty at every call site. *)
Fixpoint Cut (sep s : string) {struct s} : option (string * string) :=
  if String.prefix sep s then Some ("", sliceFrom (String.length sep) s)
  else match s with
       | EmptyString => None
       | String c s' =>
           match Cut sep s' with
           | Some (before, after) => Some (String c before, after)
           | None => None
           end
       end.

(** [strings.Contains(s, substr)] *)
Definition Contains (s substr : string) : bool :=
  match Cut substr s with Some _ => true | None => false end.

(** The loop of genSplit: at most [n] cuts, the rest is the last piece. *)
Fixpoint splitLoop (n : nat) (sep s : string) : list string :=
  match n with
  | 0 => [s]
  | S n' =>
      match Cut sep s with
      | None => [s]
      | Some (before, after) => before :: splitLoop n' sep after
      end
  end.

(** [strings.Split(s, sep)] for a non-empty [sep]: every cut removes at
    least one byte, so [len(s)] cuts are never exceeded. *)
Definition Split (s sep : string) : list string :=
  splitLoop (String.length s) sep s.

(** [strings.SplitN(s, sep, n)] and [bytes.SplitN] for [n >= 0] and a
    non-empty [sep]: [n = 0] gives no piece, otherwise at most [n] pieces
    whose last one is the unsplit remainder. *)
Definition SplitN (s sep : string) (n : nat) : list string :=
  match n with
  | 0 => []
  | S n' => splitLoop n' sep s
  end.

(** The six bytes of [asciiSpace] in package strings. *)
Definition isAsciiSpace (c : ascii) : bool :=
  match c with
  | "009" | "010" | "011" | "012" | "013" | " " => true
  | _ => false
  end%char.

Definition code (c : ascii) : N := N_of_ascii c.

(** The white space runes above U+007F ([unicode.IsSpace]) in their UTF-8
    encodings: U+0085 and U+00A0 take two bytes, ... *)
Definition spaceRune2 (a b : ascii) : bool :=
  (code a =? 194)%N && ((code b =? 133)%N || (code b =? 160)%N).

(** ... and U+1680, U+2000..U+200A, U+2028, U+2029, U+202F, U+205F and
    U+3000 take three. *)
Definition spaceRune3 (a b c : ascii) : bool :=
  ((code a =? 225)%N && (code b =? 154)%N && (code c =? 128)%N)
  || ((code a =? 226)%N && (code b =? 128)%N
      && (((128 <=? code c)%N && (code c <=? 138)%N)
          || (code c =? 168)%N || (code c =? 169)%N || (code c =? 175)%N))
  || ((code a =? 226)%N && (code b =? 129)%N && (code c =? 159)%N)
  || ((code a =? 227)%N && (code b =? 128)%N && (code c =? 128)%N).

(** [strings.TrimLeftFunc(s, unicode.IsSpace)]: drop leading white space
    runes; a byte that starts no white space rune stops the scan. *)
Fixpoint TrimLeftSpace (s : string) : string :=
  match s with
  | EmptyString => ""
  | String a s1 =>
      if isAsciiSpace a then TrimLeftSpace s1
      else match s1 with
           | EmptyString => s
           | String b s2 =>
               if spaceRune2 a b then TrimLeftSpace s2
               else match s2 with
                    | EmptyString => s
                    | String c s3 =>
                        if spaceRune3 a b c then TrimLeftSpace s3 else s
                    end
           end
  end.

(** The same scan from the end of the string, on the reversed bytes
    (utf8.DecodeLastRuneInString reads the encodings backwards). *)
Fixpoint trimLeftSpaceRev (s : string) : string :=
  match s with
  | EmptyString => ""
  | String a s1 =>
      if isAsciiSpace a then trimLeftSpaceRev s1
      else match s1 with
           | EmptyString => s
           | String b s2 =>
               if spaceRune2 b a then trimLeftSpaceRev s2
               else match s2 with
                    | EmptyString => s
                    | String c s3 =>
                        if spaceRune3 c b a then trimLeftSpaceRev s3 else s
                    end
           end
  end.

(** [strings.TrimRightFunc(s, unicode.IsSpace)] *)
Definition TrimRightSpace (s : string) : string :=
  String.rev (trimLeftSpaceRev (String.rev s)).

(** [strings.TrimSpace(s)]: the leading white space goes first, the
    trailing white space of what is left second. *)
Definition TrimSpace (s : string) : string :=
  TrimRightSpace (TrimLeftSpace s).

(** [fmt.Sprintf("%d", n)] *)
Definition Itoa (n : Z) : string := NilZero.string_of_int (Z.to_int n).

(** [len(s)] as a Go [int] *)
Definition len (s : string) : Z := Z.of_nat (String.length s).

End GoStrings.
Export GoStrings.

(** ** The parser of src/unnamed/part_005 *)

Module SplitParser.

Record Request : Type := mkRequest {
  Method : string;
  Path : string;
  Version : string;
  Headers : gmap string string;
  Body : string
}.

(** The four [fmt.Errorf] results of [ParseRequest]. *)
Inductive ParseError : Type :=
| NoBodySeparator            (* "invalid request: no body separator found" *)
| EmptyRequest               (* "invalid request: empty request" *)
| InvalidRequestLine (line : string)
| InvalidHeader (line : string).

Definition NewRequest : Request :=
  {| Method := ""; Path := ""; Version := ""; Headers := ∅; Body := "" |}.

(** The header loop, [for i := 1; i < len(lines); i++]. *)
Fixpoint parseHeaders (lines : list string) (hs : gmap string string)
  : result (gmap string string) ParseError :=
  match lines with
  | [] => Ok hs
  | line :: rest =>
      match SplitN line ": " 2 with
      | [name; value] => parseHeaders rest (<[name := value]> hs)
      | _ => Err (InvalidHeader line)
      end
  end.

Definition ParseRequest (data : string) : result Request ParseError :=
  let request := NewRequest in
  match SplitN data CRLFCRLF 2 with
  | [head; body] =>
      match Split head CRLF with
      | [] => Err EmptyRequest
      | line0 :: lines =>
          match Split line0 " " with
          | [m; p; v] =>
              match parseHeaders lines (Headers request) with
              | Err e => Err e
              | Ok hs =>
                  Ok {| Method := m; Path := p; Version := v;
                        Headers := hs; Body := body |}
              end
          | _ => Err (InvalidRequestLine line0)
          end
      end
  | _ => Err NoBodySeparator
  end.

End SplitParser.

(** ** bufio.Reader over a bytes.Reader

    [buf] holds the bytes read from the source and not yet handed out
    ([b.buf[b.r:b.w]]), [src] the bytes the bytes.Reader still has, [eof]
    whether the pending error [b.err] is io.EOF (the only error a
    bytes.Reader gives). *)

Module Bufio.

Definition defaultBufSize : nat := 4096.

Record Reader : Type := mkReader {
  buf : string;
  src : string;
  eof : bool
}.

(** [bufio.NewReader(bytes.NewReader(data))] *)
Definition NewReader (data : string) : Reader :=
  {| buf := ""; src := data; eof := false |}.

(** [b.fill()], called with room left in the buffer: one read of the
    source into the free part of the buffer. *)
Definition fill (b : Reader) : Reader :=
  match src b with
  | EmptyString => {| buf := buf b; src := ""; eof := true |}
  | _ =>
      let n := defaultBufSize - String.length (buf b) in
      {| buf := buf b +:+ sliceTo n (src b); src := sliceFrom n (src b);
         eof := eof b |}
  end.

(** The loops of ReadSlice and collectFragments, merged: look for the
    delimiter in the buffer; failing that hand out a pending error, or
    move a full buffer to the accumulated fragments, or fill.  The result
    is the string, whether [err != nil], and the reader afterwards. *)
Fixpoint readStringLoop (fuel : nat) (delim : ascii) (b : Reader)
    (acc : string) : option (string * bool * Reader) :=
  match fuel with
  | 0 => None
  | S fuel' =>
      match Cut (String delim "") (buf b) with
      | Some (line, rest) =>
          Some (acc +:+ line +:+ String delim "", false,
                {| buf := rest; src := src b; eof := eof b |})
      | None =>
          if eof b then
            Some (acc +:+ buf b, true,
                  {| buf := ""; src := src b; eof := false |})
          else if defaultBufSize <=? String.length (buf b) then
            readStringLoop fuel' delim
              {| buf := ""; src := src b; eof := false |} (acc +:+ buf b)
          else readStringLoop fuel' delim (fill b) acc
      end
  end.

(** Every round but the last empties a full buffer or takes bytes from
    the source, so this many rounds are enough ([readStringLoop_total]). *)
Definition rounds (b : Reader) : nat :=
  2 * String.length (src b) + String.length (buf b) + 2.

(** [b.ReadString(delim)] *)
Definition ReadString (b : Reader) (delim : ascii)
  : string * bool * Reader :=
  match readStringLoop (rounds b) delim b "" with
  | Some r => r
  | None => ("", true, b)
  end.

(** [b.Read(p)] with [n = len(p)]: the bytes copied into [p], whether
    [err != nil], and the reader afterwards. *)
Definition Read (b : Reader) (n : nat) : string * bool * Reader :=
  match n with
  | 0 =>
      match buf b with
      | EmptyString => ("", eof b, {| buf := ""; src := src b; eof := false |})
      | _ => ("", false, b)
      end
  | _ =>
      match buf b with
      | EmptyString =>
          if eof b then
            ("", true, {| buf := ""; src := src b; eof := false |})
          else
            match src b with
            | EmptyString => ("", true, b)
            | _ =>
                if defaultBufSize <=? n then
                  (sliceTo n (src b), false,
                   {| buf := ""; src := sliceFrom n (src b); eof := false |})
                else
                  let chunk := sliceTo defaultBufSize (src b) in
                  (sliceTo n chunk, false,
                   {| buf := sliceFrom n chunk;
                      src := sliceFrom defaultBufSize (src b); eof := false |})
            end
      | _ =>
          (sliceTo n (buf b), false,
           {| buf := sliceFrom n (buf b); src := src b; eof := eof b |})
      end
  end.

End Bufio.

(** ** The parser of src/pkg/http/request.go *)

Module LineParser.

(** crypto/tls.ConnectionState: the engine stores the pointer and tests
    it for nil, nothing else. *)
Record ConnectionState : Type := mkConnectionState {
  HandshakeComplete : bool
}.

Record Request : Type := mkRequest {
  Method : string;
  Path : string;
  Version : string;
  Headers : gmap string string;
  Body : string;
  TLS : option ConnectionState
}.

Inductive ParseError : Type :=
| ReadingRequestLine         (* "error reading request line: EOF" *)
| InvalidRequestLine (line : string)
| ReadingHeader              (* "error reading header: EOF" *)
| InvalidHeader (line : string)
| ReadingBody.               (* "error reading body: EOF" *)

Definition NewRequest : Request :=
  {| Method := ""; Path := ""; Version := ""; Headers := ∅; Body := "";
     TLS := None |}.

(** [request.Headers[key]]: a missing key reads as the empty string. *)
Definition header (hs : gmap string string) (key : string) : string :=
  default "" (hs !! key).

(** The header loop [for { ... }]: every round reads one line, so a
    buffer of [n] bytes ends it within [n + 1] rounds ([fuel]). *)
Fixpoint readHeaders (fuel : nat) (reader : Bufio.Reader)
    (hs : gmap string string)
  : result (gmap string string * Bufio.Reader) ParseError :=
  match fuel with
  | 0 => Err ReadingHeader
  | S fuel' =>
      let '(line, err, reader) := Bufio.ReadString reader LF in
      if err then Err ReadingHeader
      else
        let line := TrimSpace line in
        if String.eqb line "" then Ok (hs, reader)
        else
          match SplitN line ":" 2 with
          | [k; v] =>
              let key := TrimSpace k in
              let value := TrimSpace v in
              readHeaders fuel' reader (<[key := value]> hs)
          | _ => Err (InvalidHeader line)
          end
  end.

Definition ParseRequest (data : string) (tlsConn : option ConnectionState)
  : result Request ParseError :=
  let reader := Bufio.NewReader data in
  let '(requestLine, err, reader) := Bufio.ReadString reader LF in
  if err then Err ReadingRequestLine
  else
    let requestLine := TrimSpace requestLine in
    match Split requestLine " " with
    | [m; p; v] =>
        match readHeaders (S (String.length data)) reader ∅ with
        | Err e => Err e
        | Ok (hs, reader) =>
            let request :=
              {| Method := m; Path := p; Version := v; Headers := hs;
                 Body := ""; TLS := tlsConn |} in
            let contentLength := header hs "Content-Length" in
            if negb (String.eqb contentLength "") then
              let '(body, err, _) :=
                Bufio.Read reader (String.length data) in
              if err then Err ReadingBody
              else Ok {| Method := m; Path := p; Version := v;
                         Headers := hs; Body := body; TLS := tlsConn |}
            else Ok request
        end
    | _ => Err (InvalidRequestLine requestLine)
    end.

(** The same function with the reader left out: [readHeadersFrom] and
    [ParseRequestFrom] work on the bytes not yet read, a line being what
    precedes the next line feed.  [line_parse_refines] relates them to
    [readHeaders] and [ParseRequest]. *)
Fixpoint readHeadersFrom (fuel : nat) (unread : string)
    (hs : gmap string string)
  : result (gmap string string * string) ParseError :=
  match fuel with
  | 0 => Err ReadingHeader
  | S fuel' =>
      match Cut LFs unread with
      | None => Err ReadingHeader
      | Some (l, unread) =>
          let line := TrimSpace (l +:+ LFs) in
          if String.eqb line "" then Ok (hs, unread)
          else
            match SplitN line ":" 2 with
            | [k; v] =>
                readHeadersFrom fuel' unread
                  (<[TrimSpace k := TrimSpace v]> hs)
            | _ => Err (InvalidHeader line)
            end
      end
  end.

Definition ParseRequestFrom (data : string)
    (tlsConn : option ConnectionState) : result Request ParseError :=
  match Cut LFs data with
  | None => Err ReadingRequestLine
  | Some (l, unread) =>
      let requestLine := TrimSpace (l +:+ LFs) in
      match Split requestLine " " with
      | [m; p; v] =>
          match readHeadersFrom (S (String.length data)) unread ∅ with
          | Err e => Err e
          | Ok (hs, unread) =>
              if negb (String.eqb (header hs "Content-Length") "") then
                if String.eqb unread "" then Err ReadingBody
                else Ok {| Method := m; Path := p; Version := v;
                           Headers := hs; Body := unread; TLS := tlsConn |}
              else Ok {| Method := m; Path := p; Version := v;
                         Headers := hs; Body := ""; TLS := tlsConn |}
          end
      | _ => Err (InvalidRequestLine requestLine)
      end
  end.

End LineParser.

(** ** Status codes and reason phrases, src/pkg/http/status/status.go *)

Module Status.

Definition OK : Z := 200.
Definition MovedPermanently : Z := 301.
Definition BadRequest : Z := 400.
Definition NotFound : Z := 404.
Definition StatusRequestTimeout : Z := 408.
Definition InternalServerError : Z := 500.

(** [statusText[code]]: a code outside the table reads as "". *)
Definition Text (code : Z) : string :=
  match code with
  | 200 => "OK"
  | 201 => "Created"
  | 202 => "Accepted"
  | 204 => "No Content"
  | 301 => "Moved Permanently"
  | 302 => "Found"
  | 400 => "Bad Request"
  | 401 => "Unauthorized"
  | 403 => "Forbidden"
  | 404 => "Not Found"
  | 405 => "Method Not Allowed"
  | 408 => "Request Timeout"
  | 418 => "I'm a teapot"
  | 500 => "Internal Server Error"
  | 501 => "Not Implemented"
  | 502 => "Bad Gateway"
  | 503 => "Service Unavailable"
  | _ => ""
  end%Z.

End Status.

(** ** Responses, src/unnamed/part_004 (methods, [Write]) and
    src/unnamed/part_003 ([FormatResponse])

    The methods have a pointer receiver and update the response in place;
    here they map the response before the call to the response after it. *)

Module Resp.

Record Response : Type := mkResponse {
  Version : string;
  StatusCode : Z;
  StatusText : string;
  Headers : gmap string string;
  Body : string
}.

Definition NewResponse : Response :=
  {| Version := "HTTP/1.1"; StatusCode := 0; StatusText := "";
     Headers := ∅; Body := "" |}.

Definition SetStatus (code : Z) (r : Response) : Response :=
  {| Version := Version r; StatusCode := code; StatusText := StatusText r;
     Headers := Headers r; Body := Body r |}.

Definition SetHeader (key value : string) (r : Response) : Response :=
  {| Version := Version r; StatusCode := StatusCode r;
     StatusText := StatusText r; Headers := <[key := value]> (Headers r);
     Body := Body r |}.

Definition SetBody (body : string) (r : Response) : Response :=
  SetHeader "Content-Length" (Itoa (len body))
    {| Version := Version r; StatusCode := StatusCode r;
       StatusText := StatusText r; Headers := Headers r; Body := body |}.

Definition StatusTextOf (code : Z) : string := Status.Text code.

(** [fmt.Sprintf("%s %d %s\r\n", version, code, text)] *)
Definition statusLine (version : string) (code : Z) (text : string) : string :=
  version +:+ " " +:+ Itoa code +:+ " " +:+ text +:+ CRLF.

(** [fmt.Sprintf("%s: %s\r\n", key, value)] *)
Definition headerLine (kv : string * string) : string :=
  kv.1 +:+ ": " +:+ kv.2 +:+ CRLF.

(** What the range loop writes to the [strings.Builder], entry by entry. *)
Definition headerLines (order : list (string * string)) : string :=
  foldr (λ kv written, headerLine kv +:+ written) "" order.

(** [for key, value := range r.Headers]: Go visits every entry of the map
    once, in an order it does not fix. *)
Definition iteration (m : gmap string string)
    (order : list (string * string)) : Prop :=
  order ≡ₚ map_to_list m.

(** [r.Write()] when the range loop visits the headers in [order]. *)
Definition WriteIn (order : list (string * string)) (r : Response) : string :=
  statusLine (Version r) (StatusCode r) (Status.Text (StatusCode r))
  +:+ headerLines order +:+ CRLF +:+ Body r.

(** [FormatResponse(r)] when the range loop visits the headers in [order]. *)
Definition FormatResponseIn (order : list (string * string)) (r : Response)
  : string :=
  let responseBytes :=
    statusLine (Version r) (StatusCode r) (StatusText r)
    +:+ headerLines order +:+ CRLF in
  if (0 <? len (Body r))%Z then responseBytes +:+ Body r else responseBytes.

(** The outputs [r.Write()] and [FormatResponse(r)] can give. *)
Definition Write (r : Response) (out : string) : Prop :=
  ∃ order, iteration (Headers r) order ∧ out = WriteIn order r.

Definition FormatResponse (r : Response) (out : string) : Prop :=
  ∃ order, iteration (Headers r) order ∧ out = FormatResponseIn order r.

(** A serialized response that starts with [status], ends with the blank
    line and [body], and whose header block has the line [key: value] and no
    other line for [key]. *)
Definition carries (status key value body out : string) : Prop :=
  ∃ o1 o2,
    Forall (λ kv, kv.1 ≠ key) (o1 ++ o2)
    ∧ out = status +:+ headerLines o1 +:+ (key +:+ ": " +:+ value +:+ CRLF)
            +:+ headerLines o2 +:+ CRLF +:+ body.

(** src/unnamed/part_006 and src/pkg/http/router.go *)
Definition NotFoundResponse : Response :=
  let resp := NewResponse in
  let resp :=
    {| Version := Version resp; StatusCode := 404; StatusText := "Not Found";
       Headers := Headers resp; Body := Body resp |} in
  SetBody "404 - Not Found" resp.

End Resp.

(** ** Handlers

    A Go handler is a function value that may do anything; here it is a
    function of the request and the world it acts on, returning the response
    and the world it leaves.  A middleware maps a handler to a handler. *)

Definition M (W A : Type) : Type := W → A * W.

Definition ret {W A} (a : A) : M W A := λ w, (a, w).

Definition bind {W A B} (m : M W A) (f : A → M W B) : M W B :=
  λ w, let '(a, w') := m w in f a w'.

(** The body of [for i := len(mws) - 1; i >= 0; i-- { handler =
    mws[i](handler) }] for the indices below [i]. *)
Fixpoint wrapFrom {H : Type} (mws : list (H → H)) (i : nat) (handler : H) : H :=
  match i with
  | 0 => handler
  | S j =>
      match mws !! j with
      | Some mw => wrapFrom mws j (mw handler)
      | None => wrapFrom mws j handler
      end
  end.

(** ** The router of src/pkg/http/router.go: no middleware, no redirect *)

Module PlainRouter.
Section router.
Context {W : Type}.

Definition HandlerFunc : Type := SplitParser.Request → M W Resp.Response.

Record Router : Type := mkRouter {
  routes : gmap string (gmap string HandlerFunc)
}.

Definition NewRouter : Router := {| routes := ∅ |}.

Definition AddRoute (method path : string) (handler : HandlerFunc)
    (r : Router) : Router :=
  let handlers := default ∅ (routes r !! method) in
  {| routes := <[method := <[path := handler]> handlers]> (routes r) |}.

Definition HandleRequest (r : Router) (req : SplitParser.Request)
  : M W Resp.Response :=
  match routes r !! SplitParser.Method req with
  | Some handlers =>
      match handlers !! SplitParser.Path req with
      | Some handler => handler req
      | None => ret Resp.NotFoundResponse
      end
  | None => ret Resp.NotFoundResponse
  end.

End router.
Arguments HandlerFunc : clear implicits.
Arguments Router : clear implicits.
End PlainRouter.

(** ** The router of src/unnamed/part_006: middleware and the HTTPS redirect *)

Module TLSRouter.
Section router.
Context {W : Type}.

Definition HandlerFunc : Type := LineParser.Request → M W Resp.Response.
Definition MiddlewareFunc : Type := HandlerFunc → HandlerFunc.

Record Router : Type := mkRouter {
  routes : gmap string (gmap string HandlerFunc);
  middleware : list MiddlewareFunc
}.

Definition NewRouter : Router := {| routes := ∅; middleware := [] |}.

Definition Use (mw : MiddlewareFunc) (r : Router) : Router :=
  {| routes := routes r; middleware := middleware r ++ [mw] |}.

Definition AddRoute (method path : string) (handler : HandlerFunc)
    (r : Router) : Router :=
  let handlers := default ∅ (routes r !! method) in
  {| routes := <[method := <[path := handler]> handlers]> (routes r);
     middleware := middleware r |}.

Definition shouldRedirectToHTTPS (r : Router) (req : LineParser.Request)
  : bool :=
  negb (HasPrefix (LineParser.Path req) "/static/").

Definition redirectToHTTPS (r : Router) (req : LineParser.Request)
  : Resp.Response :=
  let resp := Resp.NewResponse in
  let resp :=
    {| Resp.Version := Resp.Version resp;
       Resp.StatusCode := Status.MovedPermanently;
       Resp.StatusText := Resp.StatusTextOf Status.MovedPermanently;
       Resp.Headers := Resp.Headers resp; Resp.Body := Resp.Body resp |} in
  let httpsURL :=
    "https://" +:+ LineParser.header (LineParser.Headers req) "Host"
    +:+ LineParser.Path req in
  Resp.SetHeader "Location" httpsURL resp.

Definition isNil {A} (p : option A) : bool :=
  match p with None => true | Some _ => false end.

Definition HandleRequest (r : Router) (req : LineParser.Request)
  : M W Resp.Response :=
  if isNil (LineParser.TLS req) && shouldRedirectToHTTPS r req then
    ret (redirectToHTTPS r req)
  else
    match routes r !! LineParser.Method req with
    | Some handlers =>
        match handlers !! LineParser.Path req with
        | Some handler =>
            let handler :=
              wrapFrom (middleware r) (length (middleware r)) handler in
            handler req
        | None => ret Resp.NotFoundResponse
        end
    | None => ret Resp.NotFoundResponse
    end.

(** A middleware of the shape of [LoggingMiddleware]
    (src/pkg/http/middleware.go), acting on the world before and after the
    handler it wraps. *)
Definition around (before after : W → W) : MiddlewareFunc :=
  λ next req w, let '(resp, w') := next req (before w) in (resp, after w').

End router.
Arguments HandlerFunc : clear implicits.
Arguments MiddlewareFunc : clear implicits.
Arguments Router : clear implicits.
End TLSRouter.

(** ** Route lookup and the HTTPS gate, as the properties name them *)

(** [r.routes[method][path]] *)
Definition plain_lookup {W} (r : PlainRouter.Router W) (method path : string)
  : option (PlainRouter.HandlerFunc W) :=
  PlainRouter.routes r !! method ≫= λ handlers, handlers !! path.

Definition tls_lookup {W} (r : TLSRouter.Router W) (method path : string)
  : option (TLSRouter.HandlerFunc W) :=
  TLSRouter.routes r !! method ≫= λ handlers, handlers !! path.

(** The requests [HandleRequest] of src/unnamed/part_006 does not answer
    with the redirect: [req.TLS != nil], or a path under [/static/]. *)
Definition passes_gate (req : LineParser.Request) : Prop :=
  LineParser.TLS req ≠ None
  ∨ HasPrefix (LineParser.Path req) "/static/" = true.

(** ** The connection pool, src/pkg/http/connpool.go

    [conns] is the content of the buffered channel, oldest first, and
    [maxConns] its capacity.  Every method holds [p.mu] from entry to exit,
    so concurrent callers see the methods as atomic steps; [closed] records
    the connections on which [Close] was called. *)

Module Pool.

(** net.Conn: which connection it is. *)
Definition Conn : Type := nat.

Record ConnPool : Type := mkConnPool {
  conns : list Conn;
  maxConns : Z;
  closed : list Conn
}.

(** [make(chan net.Conn, maxConns)] panics for a negative size. *)
Definition NewConnPool (maxConns : Z) : option ConnPool :=
  if (maxConns <? 0)%Z then None
  else Some {| conns := []; maxConns := maxConns; closed := [] |}.

(** [dial] is what [net.Dial(network, address)] gives if it is called. *)
Definition Get (dial : result Conn string) (p : ConnPool)
  : result Conn string * ConnPool :=
  match conns p with
  | conn :: rest =>
      (Ok conn,
       {| conns := rest; maxConns := maxConns p; closed := closed p |})
  | [] => (dial, p)
  end.

(** The send succeeds when the channel buffer has room. *)
Definition Put (conn : Conn) (p : ConnPool) : ConnPool :=
  if (Z.of_nat (length (conns p)) <? maxConns p)%Z then
    {| conns := conns p ++ [conn]; maxConns := maxConns p;
       closed := closed p |}
  else
    {| conns := conns p; maxConns := maxConns p;
       closed := closed p ++ [conn] |}.

Definition CloseIdleConnections (p : ConnPool) : ConnPool :=
  {| conns := []; maxConns := maxConns p; closed := closed p ++ conns p |}.

Inductive Op : Type :=
| OpGet (dial : result Conn string)
| OpPut (conn : Conn)
| OpCloseIdle.

Definition step (p : ConnPool) (op : Op) : ConnPool :=
  match op with
  | OpGet dial => (Get dial p).2
  | OpPut conn => Put conn p
  | OpCloseIdle => CloseIdleConnections p
  end.

Definition run (ops : list Op) (p : ConnPool) : ConnPool :=
  foldl step p ops.

End Pool.

(** ** The request wire format *)

Module Wire.

(** A request as a client writes it: the header lines in their order,
    repeated names included. *)
Record Message : Type := mkMessage {
  method : string;
  path : string;
  version : string;
  headers : list (string * string);
  body : string
}.

(** Modelled from the spec: the request wire format of section 6,
    [<METHOD> <PATH> <VERSION>\r\n(<Name>: <Value>\r\n)*\r\n<body-bytes>];
    the repository has no function that writes a request. *)
Definition serialize (R : Message) : string :=
  method R +:+ " " +:+ path R +:+ " " +:+ version R +:+ CRLF
  +:+ Resp.headerLines (headers R) +:+ CRLF +:+ body R.

(** The mapping a header list stands for: a repeated name keeps its last
    value. *)
Definition lastWins (hs : list (string * string)) : gmap string string :=
  foldl (λ m kv, <[kv.1 := kv.2]> m) ∅ hs.

(** A string that [strings.TrimSpace] leaves alone at both ends. *)
Definition trimmed (t : string) : Prop :=
  TrimLeftSpace t = t ∧ TrimRightSpace t = t.

(** A piece of the request line: no space and no line feed inside. *)
Definition token (t : string) : Prop :=
  Contains t " " = false ∧ Contains t LFs = false.

(** A header the line parser reads back as it was written. *)
Definition headerOK (kv : string * string) : Prop :=
  Contains kv.1 ":" = false ∧ Contains kv.1 LFs = false ∧ trimmed kv.1
  ∧ Contains kv.2 LFs = false ∧ trimmed kv.2.

(** The requests whose serialization src/pkg/http/request.go reads back:
    method and version are non-empty and start and end with no white
    space, and a request that declares a Content-Length has a body. *)
Definition wellFormed (R : Message) : Prop :=
  (method R ≠ "" ∧ token (method R) ∧ trimmed (method R))
  ∧ token (path R)
  ∧ (version R ≠ "" ∧ token (version R) ∧ trimmed (version R))
  ∧ Forall headerOK (headers R)
  ∧ (LineParser.header (lastWins (headers R)) "Content-Length" ≠ ""
     → body R ≠ "").

(** The white-space-separated tokens of a line, as the specification
    words the request-line rule. *)
Definition whitespaceTokens (line : string) : list string :=
  String.words line.

(** Lines as they lie in a buffer: each one ended by a line feed. *)
Definition unlines (ls : list string) : string :=
  foldr (λ l rest, l +:+ LFs +:+ rest) "" ls.

End Wire.

(** ** The lines of a buffer *)

Module Lines.

(** A buffer as the parser of src/pkg/http/request.go reads it, a line
    being what precedes a line feed: the first line [l0], the lines
    [hlines] after it of which [strings.TrimSpace] leaves something, the
    first line [bl] of which it leaves nothing, and the bytes [rest] after
    that line. *)
Definition framed (data l0 : string) (hlines : list string)
    (bl rest : string) : Prop :=
  data = l0 +:+ LFs +:+ Wire.unlines hlines +:+ bl +:+ LFs +:+ rest
  ∧ Cut LFs l0 = None
  ∧ Forall (λ l, Cut LFs l = None ∧ TrimSpace (l +:+ LFs) ≠ "") hlines
  ∧ Cut LFs bl = None
  ∧ TrimSpace (bl +:+ LFs) = "".

End Lines.

(** ** Concrete routers, handlers and requests used as instances *)

Module Sample.

(** The world of the sample handlers: the log of what ran, oldest first. *)
Definition Log : Type := list string.

Definition say (what : string) : Log → Log := λ log, log ++ [what].

(** A handler that logs ["H"] and answers 200 with body ["hello"]. *)
Definition helloHandler : TLSRouter.HandlerFunc Log :=
  λ _ log,
    (Resp.SetBody "hello" (Resp.SetStatus Status.OK Resp.NewResponse),
     say "H" log).

Definition plainHello : PlainRouter.HandlerFunc Log :=
  λ _ log,
    (Resp.SetBody "hello" (Resp.SetStatus Status.OK Resp.NewResponse),
     say "H" log).

Definition mwA : TLSRouter.MiddlewareFunc Log :=
  TLSRouter.around (say "A-before") (say "A-after").

Definition mwB : TLSRouter.MiddlewareFunc Log :=
  TLSRouter.around (say "B-before") (say "B-after").

(** [r := NewRouter(); r.AddRoute("GET", "/hello", h); r.Use(A); r.Use(B)] *)
Definition router : TLSRouter.Router Log :=
  TLSRouter.Use mwB
    (TLSRouter.Use mwA
       (TLSRouter.AddRoute "GET" "/hello" helloHandler TLSRouter.NewRouter)).

Definition plainRouter : PlainRouter.Router Log :=
  PlainRouter.AddRoute "GET" "/hello" plainHello PlainRouter.NewRouter.

Definition tlsState : LineParser.ConnectionState :=
  {| LineParser.HandshakeComplete := true |}.

(** [GET /hello] with a Host header, over TLS or not. *)
Definition hello (tls : option LineParser.ConnectionState)
  : LineParser.Request :=
  {| LineParser.Method := "GET"; LineParser.Path := "/hello";
     LineParser.Version := "HTTP/1.1";
     LineParser.Headers := {[ "Host" := "example.com" ]};
     LineParser.Body := ""; LineParser.TLS := tls |}.

Definition missing (tls : option LineParser.ConnectionState)
  : LineParser.Request :=
  {| LineParser.Method := "GET"; LineParser.Path := "/missing";
     LineParser.Version := "HTTP/1.1"; LineParser.Headers := ∅;
     LineParser.Body := ""; LineParser.TLS := tls |}.

Definition plainMissing : SplitParser.Request :=
  {| SplitParser.Method := "GET"; SplitParser.Path := "/missing";
     SplitParser.Version := "HTTP/1.1"; SplitParser.Headers := ∅;
     SplitParser.Body := "" |}.

(** A client message with a repeated header name. *)
Definition message : Wire.Message :=
  {| Wire.method := "POST"; Wire.path := "/submit";
     Wire.version := "HTTP/1.1";
     Wire.headers := [("Host", "a.example"); ("X-Tag", "one");
                      ("Content-Length", "5"); ("X-Tag", "two")];
     Wire.body := "hello" |}.

(** The message of section 6 with a declared length of zero. *)
Definition emptyPost : Wire.Message :=
  {| Wire.method := "POST"; Wire.path := "/"; Wire.version := "HTTP/1.1";
     Wire.headers := [("Content-Length", "0")]; Wire.body := "" |}.

End Sample.

(** ** What a caller of the pool offers and gets back *)

Module PoolUse.
Import Pool.



End PoolUse.

(** ** The router of src/unnamed/part_007: middleware, no redirect *)

Module MwRouter.
Section router.
Context {W : Type}.

Definition HandlerFunc : Type := SplitParser.Request → M W Resp.Response.
Definition MiddlewareFunc : Type := HandlerFunc → HandlerFunc.

Record Router : Type := mkRouter {
  routes : gmap string (gmap string HandlerFunc);
  middleware : list MiddlewareFunc
}.

Definition NewRouter : Router := {| routes := ∅; middleware := [] |}.

Definition Use (mw : MiddlewareFunc) (r : Router) : Router :=
  {| routes := routes r; middleware := middleware r ++ [mw] |}.

Definition AddRoute (method path : string) (handler : HandlerFunc)
    (r : Router) : Router :=
  let handlers := default ∅ (routes r !! method) in
  {| routes := <[method := <[path := handler]> handlers]> (routes r);
     middleware := middleware r |}.

Definition HandleRequest (r : Router) (req : SplitParser.Request)
  : M W Resp.Response :=
  match routes r !! SplitParser.Method req with
  | Some handlers =>
      match handlers !! SplitParser.Path req with
      | Some handler =>
          let handler :=
            wrapFrom (middleware r) (length (middleware r)) handler in
          handler req
      | None => ret Resp.NotFoundResponse
      end
  | None => ret Resp.NotFoundResponse
  end.

(** [r.routes[method][path]] *)
Definition lookup (r : Router) (method path : string) : option HandlerFunc :=
  routes r !! method ≫= λ handlers, handlers !! path.

End router.
Arguments HandlerFunc : clear implicits.
Arguments MiddlewareFunc : clear implicits.
Arguments Router : clear implicits.
End MwRouter.

(** ** The first parser, src/unnamed/part_004 (second document)

    The buffer is cut at every CR LF; the header loop stops at the first
    empty line, and the body is never set. *)

Module LinesParser.

Inductive ParseError : Type :=
| TooFewLines                (* "invalid request: too few lines" *)
| InvalidRequestLine (line : string)
| InvalidHeader (line : string).

(** [for i := 1; i < len(lines); i++ { if lines[i] == "" { break } ... }] *)
Fixpoint parseHeaders (lines : list string) (hs : gmap string string)
  : result (gmap string string) ParseError :=
  match lines with
  | [] => Ok hs
  | line :: rest =>
      if String.eqb line "" then Ok hs
      else
        match SplitN line ": " 2 with
        | [name; value] => parseHeaders rest (<[name := value]> hs)
        | _ => Err (InvalidHeader line)
        end
  end.

Definition ParseRequest (data : string)
  : result SplitParser.Request ParseError :=
  let request := SplitParser.NewRequest in
  let lines := Split data CRLF in
  if length lines <? 2 then Err TooFewLines
  else
    match lines with
    | [] => Err TooFewLines
    | line0 :: rest =>
        match Split line0 " " with
        | [m; p; v] =>
            match parseHeaders rest (SplitParser.Headers request) with
            | Err e => Err e
            | Ok hs =>
                Ok {| SplitParser.Method := m; SplitParser.Path := p;
                      SplitParser.Version := v; SplitParser.Headers := hs;
                      SplitParser.Body := SplitParser.Body request |}
            end
        | _ => Err (InvalidRequestLine line0)
        end
    end.

End LinesParser.

(** ** Static files, src/unnamed/part_003 (first document)

    The operating system is a parameter: [TypeByExtension] is
    mime.TypeByExtension with the tables of the machine, [Join] is
    filepath.Join, and [files] says how os.Open, File.Stat and os.ReadFile
    fare on a path.  The handler writes to standard output and reads
    files; its world is what was printed so far. *)

Module Static.

(** filepath.Ext with [/] as the path separator: the scan from the end of
    the path, [seen] being the bytes already passed. *)
Fixpoint extScan (reversed seen : string) : string :=
  match reversed with
  | EmptyString => ""
  | String c rest =>
      if Ascii.eqb c "/" then ""
      else if Ascii.eqb c "." then String "." seen
      else extScan rest (String c seen)
  end.

Definition Ext (path : string) : string := extScan (String.rev path) "".

(** How the three calls on [fullPath] fare: os.Open fails, or File.Stat
    fails, or the path is a directory, or os.ReadFile fails, or the
    content is read.  An error carries its text. *)
Inductive FileResult : Type :=
| OpenFails (err : string)
| StatFails (err : string)
| IsDir
| ReadFails (err : string)
| Content (bytes : string).

Section os.
Variable TypeByExtension : string → string.
Variable Join : string → string → string.
Variable files : string → FileResult.

Definition getContentType (path : string) : string :=
  let ext := Ext path in
  let mimeType := TypeByExtension ext in
  if negb (String.eqb mimeType "") then mimeType
  else if String.eqb ext ".html" || String.eqb ext ".htm" then "text/html"
  else if String.eqb ext ".css" then "text/css"
  else if String.eqb ext ".js" then "application/javascript"
  else if String.eqb ext ".jpg" || String.eqb ext ".jpeg" then "image/jpeg"
  else if String.eqb ext ".png" then "image/png"
  else if String.eqb ext ".gif" then "image/gif"
  else if String.eqb ext ".svg" then "image/svg+xml"
  else if String.eqb ext ".xml" then "application/xml"
  else if String.eqb ext ".txt" then "text/plain"
  else if String.eqb ext ".pdf" then "application/pdf"
  else if String.eqb ext ".zip" then "application/zip"
  else if String.eqb ext ".mp3" then "audio/mpeg"
  else if String.eqb ext ".mp4" then "video/mp4"
  else "application/octet-stream".

Definition InternalServerErrorResponse : Resp.Response :=
  let resp := Resp.NewResponse in
  let resp :=
    {| Resp.Version := Resp.Version resp;
       Resp.StatusCode := Status.InternalServerError;
       Resp.StatusText := Resp.StatusTextOf Status.InternalServerError;
       Resp.Headers := Resp.Headers resp; Resp.Body := Resp.Body resp |} in
  let resp := Resp.SetHeader "Content-Type" "text/plain" resp in
  {| Resp.Version := Resp.Version resp; Resp.StatusCode := Resp.StatusCode resp;
     Resp.StatusText := Resp.StatusText resp; Resp.Headers := Resp.Headers resp;
     Resp.Body := "500 Internal Server Error" |}.

(** The path the handler looks up below [basePath]. *)
Definition filePathOf (req : SplitParser.Request) : string :=
  let filePath := TrimPrefix (SplitParser.Path req) "/static" in
  if String.eqb filePath "" || String.eqb filePath "/" then "/index.html"
  else filePath.

Definition StaticFileHandler (basePath : string)
  : SplitParser.Request → M (list string) Resp.Response :=
  λ req out,
    let filePath := filePathOf req in
    if Contains filePath ".." then (Resp.NotFoundResponse, out)
    else
      let fullPath := Join basePath filePath in
      let out :=
        out ++ ["Attempting to serve file: " +:+ fullPath +:+ LFs] in
      match files fullPath with
      | OpenFails err =>
          (Resp.NotFoundResponse,
           out ++ ["Error opening file: " +:+ err +:+ LFs])
      | StatFails err =>
          (InternalServerErrorResponse,
           out ++ ["Error getting file stats: " +:+ err +:+ LFs])
      | IsDir =>
          (Resp.NotFoundResponse,
           out ++ ["Requested path is a directory" +:+ LFs])
      | ReadFails err =>
          (InternalServerErrorResponse,
           out ++ ["Error reading file: " +:+ err +:+ LFs])
      | Content content =>
          let resp := Resp.NewResponse in
          let resp :=
            {| Resp.Version := Resp.Version resp;
               Resp.StatusCode := Status.OK;
               Resp.StatusText := Resp.StatusTextOf Status.OK;
               Resp.Headers := Resp.Headers resp;
               Resp.Body := Resp.Body resp |} in
          let resp :=
            Resp.SetHeader "Content-Type" (getContentType fullPath) resp in
          let resp :=
            Resp.SetHeader "Content-Length" (Itoa (len content)) resp in
          ({| Resp.Version := Resp.Version resp;
              Resp.StatusCode := Resp.StatusCode resp;
              Resp.StatusText := Resp.StatusText resp;
              Resp.Headers := Resp.Headers resp; Resp.Body := content |},
           out)
      end.

End os.
End Static.

(** ** The server, src/cmd/server/main.go (second document)

    [ParseRequest] and the router are those of the package at that
    revision; they are parameters here.  What [conn.Read] gave is the
    input, the response handed to [FormatResponse] and [conn.Write] the
    output; [defer connPool.Put(conn)] runs on every path. *)

Module Server.

(** [n, err := conn.Read(buffer)]: bytes with no error or with io.EOF, a
    net.Error that timed out, or another error. *)
Inductive ReadResult : Type :=
| ReadBytes (data : string)
| ReadTimeout
| ReadError.

Record HTTPError : Type := mkHTTPError {
  Code : Z;
  Message : string
}.

(** src/pkg/http/errors.go *)
Definition NewHTTPError (code : Z) (message : string) : HTTPError :=
  {| Code := code; Message := message |}.

Definition Error (e : HTTPError) : string :=
  "HTTP error " +:+ Itoa (Code e) +:+ ": " +:+ Message e.

(** The response [handleHTTPError] formats and writes. *)
Definition handleHTTPError (err : HTTPError) : Resp.Response :=
  let response := Resp.NewResponse in
  let response :=
    {| Resp.Version := Resp.Version response; Resp.StatusCode := Code err;
       Resp.StatusText := Resp.StatusTextOf (Code err);
       Resp.Headers := Resp.Headers response;
       Resp.Body := Resp.Body response |} in
  Resp.SetBody (Message err) response.

(** The response [handleConnectionError] has written, if any. *)
Definition handleConnectionError (timeout : bool) : option Resp.Response :=
  if timeout then
    Some (handleHTTPError
            (NewHTTPError Status.StatusRequestTimeout "Request timeout"))
  else None.

Definition handleEcho {W : Type} : SplitParser.Request → M W Resp.Response :=
  λ req w,
    let resp := Resp.NewResponse in
    let resp :=
      {| Resp.Version := Resp.Version resp; Resp.StatusCode := 200;
         Resp.StatusText := "OK"; Resp.Headers := Resp.Headers resp;
         Resp.Body := Resp.Body resp |} in
    let resp := Resp.SetHeader "Content-Type" "text/plain" resp in
    let resp :=
      Resp.SetHeader "Content-Length" (Itoa (len (SplitParser.Body req)))
        resp in
    ({| Resp.Version := Resp.Version resp;
        Resp.StatusCode := Resp.StatusCode resp;
        Resp.StatusText := Resp.StatusText resp;
        Resp.Headers := Resp.Headers resp;
        Resp.Body := SplitParser.Body req |}, w).

Section server.
Context {W Request E : Type}.
Variable ParseRequest : string → result Request E.
Variable HandleRequest : Request → M W Resp.Response.

(** The response written to the connection, if one is, the world the
    handlers leave, and the pool after the deferred [Put]. *)
Definition handleConnection (conn : Pool.Conn) (read : ReadResult)
    (w : W) (connPool : Pool.ConnPool)
  : option Resp.Response * W * Pool.ConnPool :=
  let '(written, w) :=
    match read with
    | ReadTimeout => (handleConnectionError true, w)
    | ReadError => (handleConnectionError false, w)
    | ReadBytes data =>
        match ParseRequest data with
        | Err _ =>
            (Some (handleHTTPError
                     (NewHTTPError Status.BadRequest "Invalid request")), w)
        | Ok request =>
            let '(response, w) := HandleRequest request w in
            (Some response, w)
        end
    end in
  (written, w, Pool.Put conn connPool).

(** The bytes [conn.Write] is given. *)
Definition written (outcome : option Resp.Response * W * Pool.ConnPool)
    (bytes : string) : Prop :=
  match outcome.1.1 with
  | Some response => Resp.FormatResponse response bytes
  | None => False
  end.

End server.
End Server.

(** ** Middleware that hands on what the wrapped handler answers *)

Module Middleware.

(** What LoggingMiddleware of src/pkg/http/middleware.go does with the
    response: it calls [next] once on the request it got and returns the
    response of that call; around the call it acts on the world only (it
    reads the clock and prints a line). *)
Definition transparent {W : Type} (mw : MwRouter.MiddlewareFunc W) : Prop :=
  ∀ next req w, ∃ w1 w2, mw next req w = ((next req w1).1, w2).

(** LoggingMiddleware over a world with a clock and a standard output:
    [clock] is what time.Now() reads, [print] what fmt.Printf does with the
    line made of method, path, status code and duration. *)
Definition LoggingMiddleware {W T : Type} (clock : W → T)
    (print : string → string → Z → T → T → W → W)
  : MwRouter.MiddlewareFunc W :=
  λ next req w,
    let start := clock w in
    let '(resp, w) := next req w in
    (resp,
     print (SplitParser.Method req) (SplitParser.Path req)
       (Resp.StatusCode resp) start (clock w) w).

End Middleware.

(** ** One connection after the other

    [startServer] of src/cmd/server/main.go starts [handleConnection] for
    every accepted connection; the pool's mutex puts the deferred [Put]s
    in some order, which is the order of the list here. *)

Module Serving.
Section serving.
Context {W Request E : Type}.
Variable ParseRequest : string → result Request E.
Variable HandleRequest : Request → M W Resp.Response.

Fixpoint serveAll (accepted : list (Pool.Conn * Server.ReadResult))
    (w : W) (connPool : Pool.ConnPool) : W * Pool.ConnPool :=
  match accepted with
  | [] => (w, connPool)
  | (conn, read) :: rest =>
      let '(_, w, connPool) :=
        Server.handleConnection ParseRequest HandleRequest conn read w
          connPool in
      serveAll rest w connPool
  end.

End serving.
End Serving.

(** ** A server as src/cmd/server/main.go sets it up, used as an instance *)

Module SampleServer.

(** The world: the lines printed so far. *)
Definition clock (w : list string) : nat := length w.

Definition print (method path : string) (code : Z) (start stop : nat)
    (w : list string) : list string :=
  w ++ [method +:+ " " +:+ path +:+ " - " +:+ Itoa code].

(** [router.Use(http.LoggingMiddleware); router.AddRoute("POST", "/echo",
    handleEcho)] *)
Definition router : MwRouter.Router (list string) :=
  MwRouter.AddRoute "POST" "/echo" Server.handleEcho
    (MwRouter.Use (Middleware.LoggingMiddleware clock print)
       MwRouter.NewRouter).

Definition echoRequest : string :=
  "POST /echo HTTP/1.1" +:+ CRLF +:+ "Content-Length: 5" +:+ CRLFCRLF
  +:+ "hello".

Definition pool : Pool.ConnPool :=
  {| Pool.conns := []; Pool.maxConns := 2; Pool.closed := [] |}.

End SampleServer.
(** * Properties *)

(** ** Strings *)

Section strings.
#[local] Arguments String.prefix : simpl never.
#[local] Arguments Cut : simpl never.
Implicit Types s t a b sep : string.

Lemma prefix_nil s : String.prefix "" s = true.
Proof. by destruct s. Qed.

Lemma prefix_cons c sep d s :
  String.prefix (String c sep) (String d s)
  = if ascii_dec c d then String.prefix sep s else false.
Proof. reflexivity. Qed.

Lemma prefix_of_nil sep : String.prefix sep "" = true → sep = "".
Proof. by destruct sep. Qed.

Lemma Cut_nil sep :
  Cut sep "" = if String.prefix sep "" then Some ("", "") else None.
Proof. unfold Cut. by destruct (String.length sep). Qed.

Lemma Cut_cons sep c s :
  Cut sep (String c s) =
    if String.prefix sep (String c s)
    then Some ("", sliceFrom (String.length sep) (String c s))
    else match Cut sep s with
         | Some (before, after) => Some (String c before, after)
         | None => None
         end.
Proof. reflexivity. Qed.

Lemma append_nil_r s : s +:+ "" = s.
Proof. induction s as [|c s IH]; simpl; congruence. Qed.

Lemma append_assoc s t u : (s +:+ t) +:+ u = s +:+ t +:+ u.
Proof. induction s as [|c s IH]; simpl; congruence. Qed.

Lemma length_append s t :
  String.length (s +:+ t) = String.length s + String.length t.
Proof. induction s as [|c s IH]; simpl; congruence. Qed.

Lemma append_inv_length a b a' b' :
  String.length a = String.length a' →
  a +:+ b = a' +:+ b' → a = a' ∧ b = b'.
Proof.
  revert a'. induction a as [|c a IH]; intros [|c' a'] Hlen; simpl in *;
    try discriminate; [tauto|].
  intros [= -> Heq]. destruct (IH a') as [-> ->]; auto.
Qed.

Lemma prefix_append sep t : String.prefix sep (sep +:+ t) = true.
Proof.
  induction sep as [|c sep IH]; simpl; [apply prefix_nil|].
  rewrite prefix_cons. by destruct (ascii_dec c c).
Qed.

Lemma prefix_inv sep s :
  String.prefix sep s = true → ∃ t, s = sep +:+ t.
Proof.
  revert s. induction sep as [|c sep IH]; intros s.
  { intros _. by exists s. }
  destruct s as [|d s]; [done|]. rewrite prefix_cons.
  destruct (ascii_dec c d) as [->|]; [|done].
  intros [t ->]%IH. by eexists.
Qed.

Lemma sliceFrom_append a b : sliceFrom (String.length a) (a +:+ b) = b.
Proof. induction a as [|c a IH]; simpl; [by destruct b|done]. Qed.

Lemma sliceTo_sliceFrom n s : sliceTo n s +:+ sliceFrom n s = s.
Proof.
  revert s. induction n as [|n IH]; intros [|c s]; simpl; try done.
  by rewrite IH.
Qed.

Lemma length_sliceTo n s : String.length (sliceTo n s) = n `min` String.length s.
Proof.
  revert s. induction n as [|n IH]; intros [|c s]; simpl; try done.
  by rewrite IH.
Qed.

Lemma sliceTo_all n s : String.length s ≤ n → sliceTo n s = s.
Proof.
  revert s. induction n as [|n IH]; intros [|c s]; simpl; try done; [lia|].
  intros ?. rewrite IH; [done|lia].
Qed.

Lemma sliceFrom_all n s : String.length s ≤ n → sliceFrom n s = "".
Proof.
  revert s. induction n as [|n IH]; intros [|c s]; simpl; try done; [lia|].
  intros ?. apply IH. lia.
Qed.

(** A prefix test looks at the first [length sep] bytes only. *)
Lemma prefix_append_long sep s t :
  String.length sep ≤ String.length s →
  String.prefix sep (s +:+ t) = String.prefix sep s.
Proof.
  revert s. induction sep as [|c sep IH]; intros s Hlen.
  { by rewrite !prefix_nil. }
  destruct s as [|d s]; simpl in *; [lia|]. rewrite !prefix_cons.
  destruct (ascii_dec c d); [|done]. apply IH. lia.
Qed.

(** *** [Cut]: the first occurrence of the separator *)

Lemma Cut_sound sep s a b : Cut sep s = Some (a, b) → s = a +:+ sep +:+ b.
Proof.
  revert a. induction s as [|c s IH]; intros a.
  - rewrite Cut_nil. destruct (String.prefix sep "") eqn:Hp; [|done].
    intros [= <- <-]. by rewrite (prefix_of_nil _ Hp).
  - rewrite Cut_cons. destruct (String.prefix sep (String c s)) eqn:Hp.
    + intros [= <- <-]. apply prefix_inv in Hp as [t Ht].
      rewrite Ht. by rewrite sliceFrom_append.
    + destruct (Cut sep s) as [[a0 b0]|] eqn:Hc; [|done].
      intros [= <- <-]. simpl. f_equal. by apply IH.
Qed.

Lemma Cut_prefix sep t : Cut sep (sep +:+ t) = Some ("", t).
Proof.
  destruct (sep +:+ t) as [|c u] eqn:E.
  - destruct sep; [|done]. simpl in E. by subst.
  - rewrite Cut_cons, <- E, prefix_append, sliceFrom_append. done.
Qed.

Lemma Cut_complete sep a b : is_Some (Cut sep (a +:+ sep +:+ b)).
Proof.
  induction a as [|c a IH]; simpl.
  - rewrite Cut_prefix. by eexists.
  - rewrite Cut_cons.
    destruct (String.prefix sep (String c (a +:+ sep +:+ b))); [by eexists|].
    destruct IH as [[a0 b0] ->]. by eexists.
Qed.

(** No occurrence starts before the one [Cut] takes. *)
Lemma Cut_first sep s a b a' b' :
  Cut sep s = Some (a, b) → s = a' +:+ sep +:+ b' →
  String.length a ≤ String.length a'.
Proof.
  revert a a'. induction s as [|c s IH]; intros a a'.
  - rewrite Cut_nil. destruct (String.prefix sep ""); [|done].
    intros [= <- <-]. simpl. lia.
  - rewrite Cut_cons. destruct (String.prefix sep (String c s)) eqn:Hp.
    { intros [= <- <-]. simpl. lia. }
    destruct (Cut sep s) as [[a0 b0]|] eqn:Hc; [|done].
    intros [= <- <-] Hs. destruct a' as [|c' a']; simpl in *.
    { rewrite Hs, prefix_append in Hp. done. }
    injection Hs as -> Hs. apply le_n_S. by eapply IH.
Qed.

(** [Cut] is decided by where the separator first occurs. *)
Lemma Cut_unique sep s a b a' b' :
  Cut sep s = Some (a, b) → s = a' +:+ sep +:+ b' →
  (∀ a2 b2, s = a2 +:+ sep +:+ b2 → String.length a' ≤ String.length a2) →
  a = a' ∧ b = b'.
Proof.
  intros Hc Hs Hmin. pose proof (Cut_sound _ _ _ _ Hc) as Hs'.
  pose proof (Cut_first _ _ _ _ _ _ Hc Hs) as H1.
  pose proof (Hmin _ _ Hs') as H2.
  assert (String.length a = String.length a') as Hlen by lia.
  rewrite Hs in Hs'.
  destruct (append_inv_length _ _ _ _ (eq_sym Hlen) Hs') as [-> Hr].
  split; [done|].
  symmetry. eapply (String.app_inj sep). done.
Qed.

Lemma Cut_None_iff sep s :
  Cut sep s = None ↔ ∀ a b, s ≠ a +:+ sep +:+ b.
Proof.
  split.
  - intros Hc a b ->. destruct (Cut_complete sep a b) as [? Hs]. congruence.
  - intros Hn. destruct (Cut sep s) as [[a b]|] eqn:Hc; [|done].
    apply Cut_sound in Hc. by destruct (Hn a b).
Qed.

(** An occurrence found in [s] is still the first one when bytes follow. *)
Lemma Cut_append sep s t a b :
  Cut sep s = Some (a, b) → Cut sep (s +:+ t) = Some (a, b +:+ t).
Proof.
  revert a. induction s as [|c s IH]; intros a.
  - rewrite Cut_nil. destruct (String.prefix sep "") eqn:Hp; [|done].
    intros [= <- <-]. rewrite (prefix_of_nil _ Hp). simpl.
    apply (Cut_prefix "").
  - rewrite Cut_cons. destruct (String.prefix sep (String c s)) eqn:Hp.
    + intros [= <- <-]. apply prefix_inv in Hp as [u Hu].
      rewrite Hu, append_assoc, Cut_prefix, sliceFrom_append. done.
    + destruct (Cut sep s) as [[a0 b0]|] eqn:Hc; [|done]. intros [= <- <-].
      change (String c s +:+ t) with (String c (s +:+ t)). rewrite Cut_cons.
      change (String c (s +:+ t)) with (String c s +:+ t).
      rewrite prefix_append_long, Hp.
      * by rewrite (IH a0).
      * apply Cut_sound in Hc. subst s. simpl. rewrite !length_append. lia.
Qed.

(** The separator put after [a] is the first one if none starts inside
    [a] followed by all of the separator but its last byte. *)
Lemma Cut_here sep c a b :
  Cut (sep +:+ String c "") (a +:+ sep) = None →
  Cut (sep +:+ String c "") (a +:+ (sep +:+ String c "") +:+ b) = Some (a, b).
Proof.
  set (sp := sep +:+ String c "").
  induction a as [|d a IH]; simpl; intros Hn.
  - apply Cut_prefix.
  - rewrite Cut_cons in Hn |- *.
    destruct (String.prefix sp (String d (a +:+ sep))) eqn:Hp; [done|].
    destruct (Cut sp (a +:+ sep)) as [[]|] eqn:Hc; [done|].
    assert (String.prefix sp (String d (a +:+ sp +:+ b)) = false) as ->.
    { replace (String d (a +:+ sp +:+ b))
        with (String d (a +:+ sep) +:+ (String c "" +:+ b))
        by (simpl; unfold sp; by rewrite !append_assoc).
      rewrite prefix_append_long; [done|].
      unfold sp. simpl. rewrite !length_append. simpl. lia. }
    by rewrite IH.
Qed.

(** *** [splitLoop], [Split] and [SplitN] *)

Lemma Cut_shorter sep s a b :
  sep ≠ "" → Cut sep s = Some (a, b) → String.length b < String.length s.
Proof.
  intros Hne ->%Cut_sound. rewrite !length_append.
  destruct sep; [done|]. simpl. lia.
Qed.

(** Cuts beyond the length of the string change nothing. *)
Lemma splitLoop_enough sep n s :
  sep ≠ "" → String.length s ≤ n →
  splitLoop n sep s = splitLoop (String.length s) sep s.
Proof.
  intros Hne. revert s.
  induction n as [n IH] using lt_wf_ind. intros s Hn.
  destruct n as [|n].
  { by replace (String.length s) with 0 by lia. }
  simpl. destruct (String.length s) as [|m] eqn:Hlen; simpl.
  - destruct s; [|done]. simpl. by destruct sep.
  - destruct (Cut sep s) as [[a b]|] eqn:Hc; [|done].
    pose proof (Cut_shorter _ _ _ _ Hne Hc).
    rewrite (IH n) by lia. rewrite (IH m) by lia. done.
Qed.

Lemma Split_unfold s sep :
  sep ≠ "" →
  Split s sep =
    match Cut sep s with
    | None => [s]
    | Some (a, b) => a :: Split b sep
    end.
Proof.
  intros Hne. unfold Split at 1.
  rewrite <- (splitLoop_enough sep (S (String.length s))) by (done || lia).
  simpl. destruct (Cut sep s) as [[a b]|] eqn:Hc; [|done].
  pose proof (Cut_shorter _ _ _ _ Hne Hc).
  unfold Split. rewrite (splitLoop_enough sep (String.length s)) by (done || lia).
  done.
Qed.

Lemma SplitN_2 s sep :
  SplitN s sep 2 =
    match Cut sep s with
    | None => [s]
    | Some (a, b) => [a; b]
    end.
Proof. unfold SplitN. simpl. by destruct (Cut sep s) as [[]|]. Qed.

End strings.
(** ** The separator-splitting parser (src/unnamed/part_005) *)

Section split_parser.
#[local] Arguments Cut : simpl never.
#[local] Arguments Split : simpl never.
Import SplitParser.

Lemma split_ParseRequest_unfold data :
  ParseRequest data =
    match Cut CRLFCRLF data with
    | None => Err NoBodySeparator
    | Some (head, body) =>
        match Split head CRLF with
        | [] => Err EmptyRequest
        | line0 :: lines =>
            match Split line0 " " with
            | [m; p; v] =>
                match parseHeaders lines ∅ with
                | Err e => Err e
                | Ok hs =>
                    Ok {| Method := m; Path := p; Version := v;
                          Headers := hs; Body := body |}
                end
            | _ => Err (InvalidRequestLine line0)
            end
        end
    end.
Proof.
  unfold ParseRequest. rewrite SplitN_2.
  by destruct (Cut CRLFCRLF data) as [[head body]|].
Qed.

(** Without the blank line there is no request. *)
Lemma split_parse_no_separator data :
  (∀ a b, data ≠ a +:+ CRLFCRLF +:+ b) →
  ParseRequest data = Err NoBodySeparator.
Proof.
  intros Hn. rewrite split_ParseRequest_unfold.
  by apply Cut_None_iff in Hn as ->.
Qed.

(** A request that is returned carries all that follows the first blank
    line. *)
Lemma split_parse_body data a b r :
  data = a +:+ CRLFCRLF +:+ b →
  (∀ a' b', data = a' +:+ CRLFCRLF +:+ b' →
            String.length a ≤ String.length a') →
  ParseRequest data = Ok r → Body r = b.
Proof.
  intros Hd Hmin. rewrite split_ParseRequest_unfold.
  destruct (Cut CRLFCRLF data) as [[head body]|] eqn:Hc; [|done].
  destruct (Cut_unique _ _ _ _ _ _ Hc Hd Hmin) as [-> ->].
  destruct (Split a CRLF) as [|line0 lines]; [done|].
  destruct (Split line0 " ") as [|m [|p [|v [|]]]]; try done.
  destruct (parseHeaders lines ∅); [|done]. by intros [= <-].
Qed.

(** The header loop stops at the first line without [": "]. *)
Lemma split_parseHeaders_bad lines1 line lines2 hs :
  Forall (λ l, is_Some (Cut ": " l)) lines1 →
  Cut ": " line = None →
  parseHeaders (lines1 ++ line :: lines2) hs = Err (InvalidHeader line).
Proof.
  intros Hall Hbad. revert hs.
  induction Hall as [|l lines1 [[k v] Hl] _ IH]; intros hs; simpl.
  - by rewrite Hbad.
  - rewrite Hl. apply IH.
Qed.

Lemma split_parseHeaders_ok lines hs :
  Forall (λ l, is_Some (Cut ": " l)) lines →
  is_ok (parseHeaders lines hs) = true.
Proof.
  intros Hall. revert hs.
  induction Hall as [|l lines [[k v] Hl] _ IH]; intros hs; simpl; [done|].
  rewrite Hl. apply IH.
Qed.

(** A line list either has a first line without the delimiter or has
    none. *)
Lemma first_bad_line (lines : list string) :
  Forall (λ l, is_Some (Cut ": " l)) lines
  ∨ ∃ lines1 line lines2,
      lines = lines1 ++ line :: lines2
      ∧ Forall (λ l, is_Some (Cut ": " l)) lines1
      ∧ Cut ": " line = None.
Proof.
  induction lines as [|l lines IH]; [by left|].
  destruct (Cut ": " l) as [kv|] eqn:Hl.
  - destruct IH as [IH|(l1 & x & l2 & -> & Hall & Hx)].
    + left. constructor; [by eexists|done].
    + right. exists (l :: l1), x, l2. split_and!; [done| |done].
      constructor; [by eexists|done].
  - right. by exists [], l, lines.
Qed.

End split_parser.
(** ** Responses *)

Section responses.
Import Resp.

Lemma headerLines_app o1 o2 :
  headerLines (o1 ++ o2) = headerLines o1 +:+ headerLines o2.
Proof.
  induction o1 as [|kv o1 IH]; simpl; [done|].
  unfold headerLines in *. simpl. by rewrite IH, append_assoc.
Qed.

Lemma FormatResponseIn_eq order r :
  FormatResponseIn order r =
    statusLine (Version r) (StatusCode r) (StatusText r)
    +:+ headerLines order +:+ CRLF +:+ Body r.
Proof.
  unfold FormatResponseIn, len.
  destruct (Body r) as [|c b] eqn:E; simpl (0 <? _)%Z.
  - by rewrite !append_assoc.
  - rewrite !append_assoc. done.
Qed.

(** An entry of the map is visited once, whatever the order. *)
Lemma iteration_split (m : gmap string string) order k v :
  iteration m order → m !! k = Some v →
  ∃ o1 o2, order = o1 ++ (k, v) :: o2
           ∧ Forall (λ kv, kv.1 ≠ k) (o1 ++ o2).
Proof.
  unfold iteration. intros Hperm Hk.
  assert ((k, v) ∈ order) as Hin.
  { rewrite Hperm. by apply elem_of_map_to_list. }
  apply list_elem_of_split in Hin as (o1 & o2 & ->).
  exists o1, o2. split; [done|].
  assert (NoDup ((o1 ++ (k, v) :: o2).*1)) as Hnd.
  { rewrite Hperm. apply NoDup_fst_map_to_list. }
  rewrite fmap_app, fmap_cons in Hnd. simpl in Hnd.
  apply NoDup_app in Hnd as (_ & Hdisj & [Hk2 _]%NoDup_cons).
  apply Forall_app. split; apply Forall_forall; intros [k' v'] Hin'; simpl;
    intros ->.
  - apply (Hdisj k); [|left]. by apply (list_elem_of_fmap_2 fst _ (k, v')).
  - apply Hk2. by apply (list_elem_of_fmap_2 fst _ (k, v')).
Qed.

(** Both serializers write a stored header on a line of its own, once. *)
Lemma serialized_header r k v :
  Headers r !! k = Some v →
  (∀ out, FormatResponse r out →
     ∃ o1 o2, Forall (λ kv, kv.1 ≠ k) (o1 ++ o2)
       ∧ out = statusLine (Version r) (StatusCode r) (StatusText r)
               +:+ headerLines o1 +:+ (k +:+ ": " +:+ v +:+ CRLF)
               +:+ headerLines o2 +:+ CRLF +:+ Body r)
  ∧ (∀ out, Write r out →
     ∃ o1 o2, Forall (λ kv, kv.1 ≠ k) (o1 ++ o2)
       ∧ out = statusLine (Version r) (StatusCode r)
                 (Status.Text (StatusCode r))
               +:+ headerLines o1 +:+ (k +:+ ": " +:+ v +:+ CRLF)
               +:+ headerLines o2 +:+ CRLF +:+ Body r).
Proof.
  intros Hk. split; intros out (order & Hit & ->);
    destruct (iteration_split _ _ _ _ Hit Hk) as (o1 & o2 & -> & Hall);
    exists o1, o2; (split; [done|]).
  - rewrite FormatResponseIn_eq, headerLines_app. simpl.
    unfold headerLines at 2. simpl. fold (headerLines o2).
    unfold headerLine. simpl. by rewrite !append_assoc.
  - unfold WriteIn. rewrite headerLines_app. simpl.
    unfold headerLines at 2. simpl. fold (headerLines o2).
    unfold headerLine. simpl. by rewrite !append_assoc.
Qed.

Lemma serializers_total r :
  (∃ out, FormatResponse r out) ∧ (∃ out, Write r out).
Proof.
  split; eexists; exists (map_to_list (Headers r));
    (split; [unfold iteration|]; reflexivity).
Qed.

End responses.

(** ** Routers *)

Section routers.
Context {W : Type}.

Lemma wrapFrom_take {H} (mws : list (H → H)) i handler :
  i ≤ length mws →
  wrapFrom mws i handler = foldr (λ mw h, mw h) handler (take i mws).
Proof.
  revert handler. induction i as [|i IH]; intros handler Hi; [done|].
  simpl. destruct (lookup_lt_is_Some_2 mws i) as [mw Hmw]; [lia|].
  rewrite Hmw, IH by lia. rewrite (take_S_r _ _ _ Hmw).
  by rewrite foldr_app.
Qed.

(** The loop wraps the handler in the middleware from last to first. *)
Lemma wrapFrom_all {H} (mws : list (H → H)) handler :
  wrapFrom mws (length mws) handler = foldr (λ mw h, mw h) handler mws.
Proof. rewrite wrapFrom_take by done. by rewrite firstn_all. Qed.

Lemma plain_miss (r : PlainRouter.Router W) req :
  plain_lookup r (SplitParser.Method req) (SplitParser.Path req) = None →
  PlainRouter.HandleRequest r req = ret Resp.NotFoundResponse.
Proof.
  unfold plain_lookup, PlainRouter.HandleRequest.
  destruct (PlainRouter.routes r !! _) as [hs|]; simpl; [|done].
  by destruct (hs !! _).
Qed.

Lemma plain_hit (r : PlainRouter.Router W) req h :
  plain_lookup r (SplitParser.Method req) (SplitParser.Path req) = Some h →
  PlainRouter.HandleRequest r req = h req.
Proof.
  unfold plain_lookup, PlainRouter.HandleRequest.
  destruct (PlainRouter.routes r !! _) as [hs|]; simpl; [|done].
  destruct (hs !! _); [|done]. by intros [= ->].
Qed.

Lemma tls_gate_open (r : TLSRouter.Router W) req :
  passes_gate req →
  TLSRouter.isNil (LineParser.TLS req)
  && TLSRouter.shouldRedirectToHTTPS r req = false.
Proof.
  unfold TLSRouter.shouldRedirectToHTTPS.
  intros [Htls| ->]; [|by rewrite andb_false_r].
  by destruct (LineParser.TLS req).
Qed.

Lemma tls_miss (r : TLSRouter.Router W) req :
  passes_gate req →
  tls_lookup r (LineParser.Method req) (LineParser.Path req) = None →
  TLSRouter.HandleRequest r req = ret Resp.NotFoundResponse.
Proof.
  intros Hg. unfold tls_lookup, TLSRouter.HandleRequest.
  rewrite (tls_gate_open r req Hg).
  destruct (TLSRouter.routes r !! _) as [hs|]; simpl; [|done].
  by destruct (hs !! _).
Qed.

Lemma tls_hit (r : TLSRouter.Router W) req h :
  passes_gate req →
  tls_lookup r (LineParser.Method req) (LineParser.Path req) = Some h →
  TLSRouter.HandleRequest r req
  = foldr (λ mw h, mw h) h (TLSRouter.middleware r) req.
Proof.
  intros Hg. unfold tls_lookup, TLSRouter.HandleRequest.
  rewrite (tls_gate_open r req Hg).
  destruct (TLSRouter.routes r !! _) as [hs|]; simpl; [|done].
  destruct (hs !! _); [|done]. intros [= ->].
  exact (f_equal (λ f, f req) (wrapFrom_all (TLSRouter.middleware r) h)).
Qed.

Lemma tls_redirect (r : TLSRouter.Router W) req :
  LineParser.TLS req = None →
  HasPrefix (LineParser.Path req) "/static/" = false →
  TLSRouter.HandleRequest r req = ret (TLSRouter.redirectToHTTPS r req).
Proof.
  intros Htls Hp. unfold TLSRouter.HandleRequest,
    TLSRouter.shouldRedirectToHTTPS. by rewrite Htls, Hp.
Qed.

Lemma tls_lookup_Use (r : TLSRouter.Router W) mw method path :
  tls_lookup (TLSRouter.Use mw r) method path = tls_lookup r method path.
Proof. done. Qed.

Lemma tls_lookup_AddRoute (r : TLSRouter.Router W) method path h :
  tls_lookup (TLSRouter.AddRoute method path h r) method path = Some h.
Proof.
  unfold tls_lookup, TLSRouter.AddRoute. simpl.
  rewrite lookup_insert_eq. simpl. by rewrite lookup_insert_eq.
Qed.

End routers.

(** ** The connection pool *)

Section pool.
Import Pool.

Lemma step_maxConns p op : maxConns (step p op) = maxConns p.
Proof.
  destruct op as [dial|conn|]; simpl; [|unfold Put|done].
  - unfold Get. by destruct (conns p).
  - by destruct (_ <? _)%Z.
Qed.

Lemma step_bounded p op :
  (Z.of_nat (length (conns p)) ≤ maxConns p)%Z →
  (Z.of_nat (length (conns (step p op))) ≤ maxConns (step p op))%Z.
Proof.
  intros Hb. rewrite step_maxConns. destruct op as [dial|conn|]; simpl.
  - unfold Get. revert Hb. destruct (conns p) eqn:E; simpl; rewrite ?E; simpl; lia.
  - unfold Put. destruct (_ <? _)%Z eqn:E; simpl; [|done].
    rewrite length_app. simpl. lia.
  - revert Hb. generalize (length (conns p)). lia.
Qed.

Lemma run_bounded ops p :
  (Z.of_nat (length (conns p)) ≤ maxConns p)%Z →
  (Z.of_nat (length (conns (run ops p))) ≤ maxConns p)%Z
  ∧ maxConns (run ops p) = maxConns p.
Proof.
  unfold run. revert p. induction ops as [|op ops IH]; intros p Hb; [done|].
  simpl. destruct (IH (step p op) (step_bounded p op Hb)) as [H1 H2].
  rewrite step_maxConns in H1, H2. done.
Qed.

Lemma NewConnPool_inv C p :
  NewConnPool C = Some p → conns p = [] ∧ maxConns p = C ∧ (0 ≤ C)%Z.
Proof.
  unfold NewConnPool. destruct (C <? 0)%Z eqn:E; [done|].
  intros [= <-]. simpl. split_and!; [done..|lia].
Qed.

End pool.
(** ** The reader *)

Section reader.
#[local] Arguments String.prefix : simpl never.
#[local] Arguments Cut : simpl never.
#[local] Arguments Split : simpl never.
#[local] Arguments Nat.leb : simpl never.
#[local] Arguments Nat.sub : simpl never.
#[local] Arguments Bufio.defaultBufSize : simpl never.
Import Bufio.

Lemma length_sliceFrom n s :
  String.length (sliceFrom n s) = String.length s - n.
Proof.
  revert s. induction n as [|n IH]; intros [|c s]; simpl; try lia.
  rewrite IH. lia.
Qed.

Lemma prefix_char c d s :
  String.prefix (String c "") (String d s) = bool_decide (c = d).
Proof.
  rewrite prefix_cons, prefix_nil. by destruct (ascii_dec c d); case_bool_decide.
Qed.

(** A one-byte separator cannot straddle two strings. *)
Lemma Cut_char_append c a b :
  Cut (String c "") a = None →
  Cut (String c "") (a +:+ b) =
    match Cut (String c "") b with
    | Some (x, y) => Some (a +:+ x, y)
    | None => None
    end.
Proof.
  induction a as [|d a IH]; simpl.
  - intros _. by destruct (Cut _ b) as [[]|].
  - rewrite !Cut_cons, !prefix_char. case_bool_decide; [done|].
    destruct (Cut _ a) as [[]|]; [done|]. intros _. rewrite IH by done.
    by destruct (Cut _ b) as [[]|].
Qed.

Lemma Cut_LFs_append a b :
  Cut LFs a = None →
  Cut LFs (a +:+ b) =
    match Cut LFs b with
    | Some (x, y) => Some (a +:+ x, y)
    | None => None
    end.
Proof. apply (Cut_char_append LF). Qed.

Lemma Cut_LFs_nil : Cut LFs "" = None.
Proof. by rewrite Cut_nil. Qed.

(** What one call of the loop gives, in terms of the unread bytes
    [buf b +:+ src b]: the line up to the first delimiter and the rest left
    unread, or everything and io.EOF. *)
Lemma readStringLoop_spec fuel b acc :
  eof b = false →
  2 * String.length (src b) + String.length (buf b) + 2 ≤ fuel →
  match Cut LFs (buf b +:+ src b) with
  | Some (l, unread) =>
      ∃ b', readStringLoop fuel LF b acc = Some (acc +:+ l +:+ LFs, false, b')
            ∧ buf b' +:+ src b' = unread ∧ eof b' = false
            ∧ (src b = "" → src b' = "")
            ∧ (buf b = "" → String.length (src b) ≤ defaultBufSize →
               src b' = "")
  | None =>
      ∃ b', readStringLoop fuel LF b acc
            = Some (acc +:+ buf b +:+ src b, true, b')
  end.
Proof.
  revert b acc. induction fuel as [|fuel IH]; intros [bf sr e] acc; simpl;
    intros -> Hfuel; [lia|].
  fold LFs. destruct (Cut LFs bf) as [[l rest]|] eqn:Hc.
  { rewrite (Cut_append _ _ sr _ _ Hc). eexists. split_and!; try done.
    intros ->. by rewrite Cut_LFs_nil in Hc. }
  rewrite (Cut_LFs_append _ sr Hc).
  destruct (defaultBufSize <=? String.length bf) eqn:Hfull.
  - apply Nat.leb_le in Hfull. unfold defaultBufSize in Hfull.
    specialize (IH {| buf := ""; src := sr; eof := false |} (acc +:+ bf)).
    simpl in IH. destruct (Cut LFs sr) as [[x y]|].
    + destruct IH as (b' & -> & ? & ? & ? & ?); [done|lia|].
      exists b'. rewrite !append_assoc. split_and!; try done.
      intros ->. simpl in Hfull. lia.
    + destruct IH as (b' & ->); [done|lia|].
      exists b'. by rewrite !append_assoc.
  - apply Nat.leb_gt in Hfull. unfold fill. simpl.
    destruct sr as [|c sr].
    + rewrite Cut_LFs_nil. destruct fuel as [|fuel]; [simpl in *; lia|].
      simpl. fold LFs. rewrite Hc. eexists. by rewrite append_nil_r.
    + set (s := String c sr) in *.
      set (n := defaultBufSize - String.length bf).
      specialize (IH {| buf := bf +:+ sliceTo n s; src := sliceFrom n s;
                        eof := false |} acc).
      simpl in IH. rewrite append_assoc, sliceTo_sliceFrom in IH.
      rewrite (Cut_LFs_append _ s Hc) in IH.
      assert (2 * String.length (sliceFrom n s)
              + String.length (bf +:+ sliceTo n s) + 2 ≤ fuel) as Hm.
      { rewrite length_append, length_sliceTo, length_sliceFrom.
        assert (1 ≤ String.length s) by (unfold s; simpl; lia).
        unfold n. lia. }
      destruct (Cut LFs s) as [[x y]|].
      * destruct (IH eq_refl Hm) as (b' & -> & ? & ? & Hs & ?).
        exists b'. split_and!; try done. intros -> Hlen. apply Hs.
        apply sliceFrom_all. unfold n. change (String.length "") with 0. lia.
      * destruct (IH eq_refl Hm) as (b' & ->). by exists b'.
Qed.

Lemma ReadString_spec b :
  eof b = false →
  match Cut LFs (buf b +:+ src b) with
  | Some (l, unread) =>
      ∃ b', ReadString b LF = (l +:+ LFs, false, b')
            ∧ buf b' +:+ src b' = unread ∧ eof b' = false
            ∧ (src b = "" → src b' = "")
            ∧ (buf b = "" → String.length (src b) ≤ defaultBufSize →
               src b' = "")
  | None => ∃ b', ReadString b LF = (buf b +:+ src b, true, b')
  end.
Proof.
  intros He. unfold ReadString.
  pose proof (readStringLoop_spec (rounds b) b "" He) as H.
  destruct (Cut LFs (buf b +:+ src b)) as [[l unread]|].
  - destruct H as (b' & -> & ?); [unfold rounds; lia|]. by exists b'.
  - destruct H as (b' & ->); [unfold rounds; lia|]. by exists b'.
Qed.

End reader.

(** ** The line-reading parser (src/pkg/http/request.go) *)

Section line_parser.
#[local] Arguments String.prefix : simpl never.
#[local] Arguments Cut : simpl never.
#[local] Arguments Split : simpl never.
#[local] Arguments Nat.leb : simpl never.
#[local] Arguments Nat.sub : simpl never.
#[local] Arguments Bufio.defaultBufSize : simpl never.
#[local] Arguments sliceTo : simpl never.
#[local] Arguments sliceFrom : simpl never.
Import Bufio LineParser.

(** The header loop reads what [readHeadersFrom] reads. *)
Lemma readHeaders_refines fuel b hs :
  eof b = false →
  match readHeadersFrom fuel (buf b +:+ src b) hs with
  | Err e => readHeaders fuel b hs = Err e
  | Ok (hs', unread) =>
      ∃ b', readHeaders fuel b hs = Ok (hs', b')
            ∧ buf b' +:+ src b' = unread ∧ eof b' = false
            ∧ (src b = "" → src b' = "")
  end.
Proof.
  revert b hs. induction fuel as [|fuel IH]; intros b hs He; simpl; [done|].
  pose proof (ReadString_spec b He) as Hr.
  destruct (Cut LFs (buf b +:+ src b)) as [[l unread]|].
  - destruct Hr as (b' & -> & Hu & He' & Hs & _).
    destruct (String.eqb (TrimSpace (l +:+ LFs)) "").
    { exists b'. by rewrite Hu. }
    destruct (Cut ":" (TrimSpace (l +:+ LFs))) as [[k v]|]; [|done].
    specialize (IH b' (<[TrimSpace k := TrimSpace v]> hs) He').
    rewrite Hu in IH.
    destruct (readHeadersFrom fuel unread _) as [[hs' u]|e]; [|done].
    destruct IH as (b'' & -> & ? & ? & Hs'). exists b''. split_and!; auto.
  - by destruct Hr as (b' & ->).
Qed.

(** The header loop ends at a blank line: a line feed-terminated line of
    white space only, at the start of the unread bytes or after a line
    feed. *)
Lemma readHeadersFrom_blank fuel unread hs hs' unread' :
  readHeadersFrom fuel unread hs = Ok (hs', unread') →
  ∃ pre bl, unread = pre +:+ bl +:+ LFs +:+ unread'
            ∧ TrimSpace (bl +:+ LFs) = ""
            ∧ (pre = "" ∨ ∃ pre', pre = pre' +:+ LFs).
Proof.
  revert unread hs. induction fuel as [|fuel IH]; intros unread hs; [done|].
  simpl. destruct (Cut LFs unread) as [[l u]|] eqn:Hc; [|done].
  apply Cut_sound in Hc as ->.
  destruct (String.eqb (TrimSpace (l +:+ LFs)) "") eqn:Hb.
  { intros [= <- <-]. apply String.eqb_eq in Hb. exists "", l. auto. }
  destruct (Cut ":" (TrimSpace (l +:+ LFs))) as [[k v]|]; [|done].
  intros (pre & bl & -> & Hbl & Hpre)%IH.
  exists (l +:+ LFs +:+ pre), bl. rewrite !append_assoc. split_and!; [done..|].
  right. destruct Hpre as [->|[pre' ->]].
  - exists l. by rewrite append_nil_r.
  - exists (l +:+ LFs +:+ pre'). by rewrite !append_assoc.
Qed.

(** The final [reader.Read] into a slice as long as the buffer hands out
    unread bytes if there are any: those in the reader's buffer, all of
    them when the source is exhausted. *)
Lemma Read_spec b n :
  eof b = false → 0 < n →
  String.length (buf b +:+ src b) ≤ n →
  match buf b +:+ src b with
  | EmptyString => ∃ b', Read b n = ("", true, b')
  | _ =>
      ∃ body b', Read b n = (body, false, b') ∧ body ≠ ""
        ∧ (∃ t, buf b +:+ src b = body +:+ t)
        ∧ (src b = "" → body = buf b +:+ src b)
  end.
Proof.
  destruct b as [bf sr e]. simpl. intros -> Hpos Hn.
  rewrite length_append in Hn.
  destruct n as [|n]; [lia|]. clear Hpos. unfold Read. cbn [buf src eof].
  destruct bf as [|c bf].
  - cbn [String.append]. simpl in Hn. destruct sr as [|c sr]; [by eexists|].
    destruct (defaultBufSize <=? S n) eqn:Hbig.
    + rewrite sliceTo_all by lia. eexists _, _.
      split_and!; [reflexivity|done|by exists ""; rewrite append_nil_r|done].
    + apply Nat.leb_gt in Hbig.
      rewrite (sliceTo_all defaultBufSize) by lia.
      rewrite sliceTo_all by lia. eexists _, _.
      split_and!; [reflexivity|done|by exists ""; rewrite append_nil_r|done].
  - rewrite sliceTo_all by lia. eexists _, _.
    split_and!; [reflexivity|done|by exists sr|].
    intros ->. by rewrite append_nil_r.
Qed.

(** [ParseRequest] computes what [ParseRequestFrom] computes, but for
    the body of a buffer longer than the reader's 4096 bytes, of which it may
    keep a part only. *)
Lemma line_parse_refines data tlsConn :
  match ParseRequestFrom data tlsConn with
  | Err e => ParseRequest data tlsConn = Err e
  | Ok r =>
      ∃ body,
        ParseRequest data tlsConn
        = Ok {| Method := Method r; Path := Path r; Version := Version r;
                Headers := Headers r; Body := body; TLS := TLS r |}
        ∧ (∃ t, Body r = body +:+ t)
        ∧ (Body r ≠ "" → body ≠ "")
        ∧ (String.length data ≤ defaultBufSize → body = Body r)
  end.
Proof.
  unfold ParseRequestFrom, ParseRequest.
  pose proof (ReadString_spec (NewReader data) eq_refl) as Hr. simpl in Hr.
  destruct (Cut LFs data) as [[l unread]|] eqn:Hdata;
    [|by destruct Hr as (b' & ->)].
  destruct Hr as (b1 & -> & Hu & He & _ & Hs1).
  destruct (Split (TrimSpace (l +:+ LFs)) " ") as [|m [|p [|v [|]]]];
    try done.
  pose proof (readHeaders_refines (S (String.length data)) b1 ∅ He) as Hh.
  rewrite Hu in Hh.
  destruct (readHeadersFrom _ unread ∅) as [[hs u]|e] eqn:Hfrom;
    [|by rewrite Hh].
  destruct Hh as (b2 & -> & Hu2 & He2 & Hs2).
  destruct (negb _); simpl.
  - assert (String.length u < String.length data) as Hn.
    { apply Cut_sound in Hdata as ->.
      apply readHeadersFrom_blank in Hfrom as (pre & bl & -> & _).
      rewrite !length_append. simpl. lia. }
    pose proof (Read_spec b2 (String.length data) He2) as Hb.
    rewrite Hu2 in Hb. specialize (Hb ltac:(lia) ltac:(lia)).
    destruct u as [|c u]; simpl.
    + by destruct Hb as (b' & ->).
    + destruct Hb as (body & b' & -> & Hne & Ht & Hall). exists body.
      split_and!; [done|done|done|]. intros Hlen. apply Hall, Hs2, Hs1; done.
  - exists "". split_and!; [done|by exists ""|done|done].
Qed.

End line_parser.

(** ** The line parser on the unread bytes *)

Section line_stream.
#[local] Arguments String.prefix : simpl never.
#[local] Arguments Cut : simpl never.
#[local] Arguments Split : simpl never.
#[local] Arguments sliceTo : simpl never.
#[local] Arguments sliceFrom : simpl never.
#[local] Arguments TrimSpace : simpl never.
Import LineParser.

Lemma LFs_nonempty : LFs ≠ "".
Proof. discriminate. Qed.

Lemma Cut_line l tail :
  Cut LFs l = None → Cut LFs (l +:+ LFs +:+ tail) = Some (l, tail).
Proof.
  intros Hl. rewrite (Cut_LFs_append _ _ Hl), Cut_prefix.
  by rewrite append_nil_r.
Qed.

Lemma readHeadersFrom_S fuel unread hs :
  readHeadersFrom (S fuel) unread hs =
    match Cut LFs unread with
    | None => Err ReadingHeader
    | Some (l, unread') =>
        if String.eqb (TrimSpace (l +:+ LFs)) "" then Ok (hs, unread')
        else
          match Cut ":" (TrimSpace (l +:+ LFs)) with
          | Some (k, v) =>
              readHeadersFrom fuel unread' (<[TrimSpace k := TrimSpace v]> hs)
          | None => Err (InvalidHeader (TrimSpace (l +:+ LFs)))
          end
    end.
Proof.
  cbn [readHeadersFrom]. destruct (Cut LFs unread) as [[l u]|]; [|reflexivity].
  destruct (String.eqb _ _); [reflexivity|].
  rewrite SplitN_2. by destruct (Cut ":" _) as [[k v]|].
Qed.

#[local] Arguments readHeadersFrom : simpl never.

(** The header loop ends within one round per unread byte: more fuel
    changes nothing. *)
Lemma readHeadersFrom_fuel fuel : ∀ fuel' unread hs,
  String.length unread < fuel → String.length unread < fuel' →
  readHeadersFrom fuel unread hs = readHeadersFrom fuel' unread hs.
Proof.
  induction fuel as [|fuel IH]; intros fuel' unread hs H1 H2; [lia|].
  destruct fuel' as [|fuel']; [lia|].
  rewrite !readHeadersFrom_S.
  destruct (Cut LFs unread) as [[l u]|] eqn:E; [|reflexivity].
  destruct (String.eqb _ _); [reflexivity|].
  destruct (Cut ":" _) as [[k v]|]; [|reflexivity].
  pose proof (Cut_shorter _ _ _ _ LFs_nonempty E).
  apply IH; lia.
Qed.

Lemma ParseRequestFrom_inv data tlsConn r :
  ParseRequestFrom data tlsConn = Ok r →
  ∃ l unread unread',
    Cut LFs data = Some (l, unread)
    ∧ Split (TrimSpace (l +:+ LFs)) " " = [Method r; Path r; Version r]
    ∧ readHeadersFrom (S (String.length data)) unread ∅
      = Ok (Headers r, unread')
    ∧ TLS r = tlsConn
    ∧ (header (Headers r) "Content-Length" = "" → Body r = "")
    ∧ (header (Headers r) "Content-Length" ≠ "" →
       Body r = unread' ∧ unread' ≠ "").
Proof.
  unfold ParseRequestFrom.
  destruct (Cut LFs data) as [[l unread]|]; [|discriminate].
  destruct (Split _ " ") as [|m [|p [|v [|? ?]]]] eqn:Hs; try discriminate.
  destruct (readHeadersFrom _ _ _) as [[hs unread']|] eqn:Hh; [|discriminate].
  destruct (String.eqb (header hs "Content-Length") "") eqn:Hcl; simpl.
  - apply String.eqb_eq in Hcl. intros [= <-]. simpl.
    exists l, unread, unread'. repeat split; try done.
    all: intros; congruence.
  - apply String.eqb_neq in Hcl.
    destruct (String.eqb unread' "") eqn:Hu; [discriminate|].
    apply String.eqb_neq in Hu. intros [= <-]. simpl.
    exists l, unread, unread'. repeat split; try done.
Qed.

Lemma line_parse_ok data tlsConn r :
  ParseRequest data tlsConn = Ok r →
  ∃ r0, ParseRequestFrom data tlsConn = Ok r0
        ∧ Method r0 = Method r ∧ Path r0 = Path r ∧ Version r0 = Version r
        ∧ Headers r0 = Headers r ∧ TLS r0 = TLS r
        ∧ (∃ t, Body r0 = Body r +:+ t)
        ∧ (Body r0 ≠ "" → Body r ≠ "")
        ∧ (String.length data ≤ Bufio.defaultBufSize → Body r = Body r0).
Proof.
  intros Hok. pose proof (line_parse_refines data tlsConn) as Href.
  destruct (ParseRequestFrom data tlsConn) as [r0|e].
  - destruct Href as (body & Hp & Ht & Hne & Hlen).
    rewrite Hp in Hok. injection Hok as <-. simpl.
    exists r0. by repeat split.
  - rewrite Href in Hok. discriminate.
Qed.

Lemma line_parse_err data tlsConn e :
  ParseRequestFrom data tlsConn = Err e → ParseRequest data tlsConn = Err e.
Proof.
  intros He. pose proof (line_parse_refines data tlsConn) as Href.
  by rewrite He in Href.
Qed.

Lemma line_parse_from data tlsConn r0 :
  ParseRequestFrom data tlsConn = Ok r0 →
  ∃ body,
    ParseRequest data tlsConn
    = Ok {| Method := Method r0; Path := Path r0; Version := Version r0;
            Headers := Headers r0; Body := body; TLS := TLS r0 |}
    ∧ (∃ t, Body r0 = body +:+ t)
    ∧ (String.length data ≤ Bufio.defaultBufSize → body = Body r0).
Proof.
  intros He. pose proof (line_parse_refines data tlsConn) as Href.
  rewrite He in Href. destruct Href as (body & Hp & Ht & _ & Hlen).
  by exists body.
Qed.

(** *** The request line *)

Lemma line_no_line_feed data tlsConn :
  Cut LFs data = None → ParseRequest data tlsConn = Err ReadingRequestLine.
Proof.
  intros Hc. apply line_parse_err. unfold ParseRequestFrom. by rewrite Hc.
Qed.

Lemma line_request_line_ok data tlsConn r :
  ParseRequest data tlsConn = Ok r →
  ∃ l unread,
    Cut LFs data = Some (l, unread)
    ∧ Split (TrimSpace (l +:+ LFs)) " " = [Method r; Path r; Version r].
Proof.
  intros Hok. apply line_parse_ok in Hok as (r0 & H0 & <- & <- & <- & _).
  apply ParseRequestFrom_inv in H0 as (l & unread & _ & Hc & Hs & _).
  by exists l, unread.
Qed.

Lemma line_request_line_bad data tlsConn l unread :
  Cut LFs data = Some (l, unread) →
  length (Split (TrimSpace (l +:+ LFs)) " ") ≠ 3 →
  ParseRequest data tlsConn
  = Err (InvalidRequestLine (TrimSpace (l +:+ LFs))).
Proof.
  intros Hc Hn. apply line_parse_err. unfold ParseRequestFrom. rewrite Hc.
  by destruct (Split _ " ") as [|m [|p [|v [|? ?]]]].
Qed.

(** *** The blank line and the body *)

Lemma line_blank_line data tlsConn r :
  ParseRequest data tlsConn = Ok r →
  ∃ a bl b, data = a +:+ LFs +:+ bl +:+ LFs +:+ b
            ∧ TrimSpace (bl +:+ LFs) = "".
Proof.
  intros Hok. apply line_parse_ok in Hok as (r0 & H0 & _).
  apply ParseRequestFrom_inv in H0 as (l & unread & unread' & Hc & _ & Hh & _).
  apply Cut_sound in Hc.
  apply readHeadersFrom_blank in Hh as (pre & bl & -> & Hbl & Hpre).
  destruct Hpre as [->|[pre' ->]].
  - exists l, bl, unread'. by rewrite Hc.
  - exists (l +:+ LFs +:+ pre'), bl, unread'.
    by rewrite Hc, !append_assoc.
Qed.

Lemma line_body data tlsConn r :
  ParseRequest data tlsConn = Ok r →
  (header (Headers r) "Content-Length" = "" → Body r = "")
  ∧ (header (Headers r) "Content-Length" ≠ "" →
     Body r ≠ ""
     ∧ ∃ a bl t, data = a +:+ LFs +:+ bl +:+ LFs +:+ Body r +:+ t
                 ∧ TrimSpace (bl +:+ LFs) = ""
                 ∧ (String.length data ≤ Bufio.defaultBufSize → t = "")).
Proof.
  intros Hok.
  apply line_parse_ok
    in Hok as (r0 & H0 & _ & _ & _ & Hhs & _ & [t Ht] & Hne & Hlen).
  apply ParseRequestFrom_inv
    in H0 as (l & unread & unread' & Hc & _ & Hh & _ & Hnone & Hsome).
  rewrite Hhs in Hnone, Hsome. split.
  - intros Hcl. specialize (Hnone Hcl). rewrite Hnone in Ht.
    destruct (Body r); [reflexivity|discriminate].
  - intros Hcl. destruct (Hsome Hcl) as [Hb Hu].
    split; [apply Hne; congruence|].
    apply Cut_sound in Hc.
    apply readHeadersFrom_blank in Hh as (pre & bl & -> & Hbl & Hpre).
    assert (Hend : String.length data ≤ Bufio.defaultBufSize → t = "").
    { intros Hd. specialize (Hlen Hd). rewrite <- Hlen in Ht.
      apply (f_equal String.length) in Ht. rewrite length_append in Ht.
      destruct t; [reflexivity|simpl in Ht; lia]. }
    rewrite Hb in Ht. rewrite Ht in Hc.
    destruct Hpre as [->|[pre' ->]].
    + simpl in Hc. by exists l, bl, t.
    + exists (l +:+ LFs +:+ pre'), bl, t.
      split; [|done]. by rewrite !append_assoc in Hc |- *.
Qed.

(** *** Header lines *)

Lemma length_unlines ls : length ls ≤ String.length (Wire.unlines ls).
Proof.
  induction ls as [|l ls IH]; simpl; [lia|].
  rewrite !length_append. simpl. lia.
Qed.

Lemma readHeadersFrom_bad goods : ∀ bad tail fuel hs,
  Forall (λ l, Cut LFs l = None ∧ TrimSpace (l +:+ LFs) ≠ ""
               ∧ is_Some (Cut ":" (TrimSpace (l +:+ LFs)))) goods →
  Cut LFs bad = None → TrimSpace (bad +:+ LFs) ≠ "" →
  Cut ":" (TrimSpace (bad +:+ LFs)) = None →
  length goods < fuel →
  readHeadersFrom fuel (Wire.unlines goods +:+ bad +:+ LFs +:+ tail) hs
  = Err (InvalidHeader (TrimSpace (bad +:+ LFs))).
Proof.
  induction goods as [|g goods IH]; intros bad tail fuel hs Hg Hb Hne Hc Hf;
    (destruct fuel as [|fuel]; [simpl in Hf; lia|]);
    rewrite readHeadersFrom_S.
  - change (Wire.unlines [] +:+ bad +:+ LFs +:+ tail)
      with (bad +:+ LFs +:+ tail).
    rewrite (Cut_line _ _ Hb).
    apply String.eqb_neq in Hne. by rewrite Hne, Hc.
  - inversion Hg as [|? ? (Hg1 & Hg2 & [[k v] Hg3]) Hg']; subst.
    change (Wire.unlines (g :: goods))
      with (g +:+ LFs +:+ Wire.unlines goods).
    rewrite !append_assoc, (Cut_line _ _ Hg1).
    apply String.eqb_neq in Hg2. rewrite Hg2, Hg3.
    apply IH; auto. simpl in Hf. lia.
Qed.

Lemma line_bad_header l0 goods bad tail tlsConn :
  Cut LFs l0 = None → length (Split (TrimSpace (l0 +:+ LFs)) " ") = 3 →
  Forall (λ l, Cut LFs l = None ∧ TrimSpace (l +:+ LFs) ≠ ""
               ∧ is_Some (Cut ":" (TrimSpace (l +:+ LFs)))) goods →
  Cut LFs bad = None → TrimSpace (bad +:+ LFs) ≠ "" →
  Cut ":" (TrimSpace (bad +:+ LFs)) = None →
  ParseRequest
    (l0 +:+ LFs +:+ Wire.unlines goods +:+ bad +:+ LFs +:+ tail) tlsConn
  = Err (InvalidHeader (TrimSpace (bad +:+ LFs))).
Proof.
  intros H0 H3 Hg Hb Hne Hc. apply line_parse_err.
  unfold ParseRequestFrom. rewrite (Cut_line _ _ H0).
  destruct (Split _ " ") as [|m [|p [|v [|? ?]]]]; try discriminate.
  rewrite readHeadersFrom_bad; auto.
  pose proof (length_unlines goods).
  rewrite !length_append. lia.
Qed.

Lemma line_request_line_only l0 bl tail m p v tlsConn :
  Cut LFs l0 = None → Cut LFs bl = None →
  Split (TrimSpace (l0 +:+ LFs)) " " = [m; p; v] →
  TrimSpace (bl +:+ LFs) = "" →
  ParseRequest (l0 +:+ LFs +:+ bl +:+ LFs +:+ tail) tlsConn
  = Ok {| Method := m; Path := p; Version := v; Headers := ∅; Body := "";
          TLS := tlsConn |}.
Proof.
  intros H0 Hbl Hs Hb.
  assert (He : ParseRequestFrom (l0 +:+ LFs +:+ bl +:+ LFs +:+ tail) tlsConn
               = Ok {| Method := m; Path := p; Version := v; Headers := ∅;
                       Body := ""; TLS := tlsConn |}).
  { unfold ParseRequestFrom. rewrite (Cut_line _ _ H0), Hs.
    rewrite readHeadersFrom_S, (Cut_line _ _ Hbl), Hb. reflexivity. }
  apply line_parse_from in He as (body & Hp & [t Ht] & _).
  simpl in *. rewrite Hp. destruct body; [reflexivity|discriminate].
Qed.

End line_stream.

(** ** strings.TrimSpace *)

Section trim.
#[local] Arguments String.prefix : simpl never.
#[local] Arguments Cut : simpl never.
#[local] Arguments Split : simpl never.
#[local] Arguments sliceTo : simpl never.
#[local] Arguments sliceFrom : simpl never.

(** A byte below 128 is no part of the encoding of a white space rune
    above U+007F. *)
Ltac ascii_byte c :=
  repeat match goal with
    | |- context [(code c =? ?k)%N] =>
        destruct (N.eqb_spec (code c) k); [lia|]
    | |- context [(?k <=? code c)%N] =>
        destruct (N.leb_spec k (code c)); [lia|]
    end;
  rewrite ?andb_false_r, ?orb_false_r; simpl;
  rewrite ?andb_false_r, ?orb_false_r; reflexivity.

Lemma spaceRune2_ascii_l a b : (code a < 128)%N → spaceRune2 a b = false.
Proof. intros H. unfold spaceRune2. ascii_byte a. Qed.

Lemma spaceRune2_ascii_r a b : (code b < 128)%N → spaceRune2 a b = false.
Proof. intros H. unfold spaceRune2. ascii_byte b. Qed.

Lemma spaceRune3_ascii_1 a b c : (code a < 128)%N → spaceRune3 a b c = false.
Proof. intros H. unfold spaceRune3. ascii_byte a. Qed.

Lemma spaceRune3_ascii_2 a b c : (code b < 128)%N → spaceRune3 a b c = false.
Proof. intros H. unfold spaceRune3. ascii_byte b. Qed.

Lemma spaceRune3_ascii_3 a b c : (code c < 128)%N → spaceRune3 a b c = false.
Proof. intros H. unfold spaceRune3. ascii_byte c. Qed.

Lemma length_TrimLeftSpace_le n : ∀ s,
  String.length s ≤ n → String.length (TrimLeftSpace s) ≤ String.length s.
Proof.
  induction n as [|n IH]; intros s Hn.
  - destruct s; [simpl; lia|simpl in Hn; lia].
  - destruct s as [|a [|b [|c s3]]]; simpl in *; [lia|..].
    + destruct (isAsciiSpace a); simpl; lia.
    + destruct (isAsciiSpace a); [destruct (isAsciiSpace b); simpl; lia|].
      destruct (spaceRune2 a b); simpl; lia.
    + assert (H1 := IH (String b (String c s3))).
      assert (H2 := IH (String c s3)). assert (H3 := IH s3).
      simpl in H1, H2, H3.
      destruct (isAsciiSpace a); [lia|].
      destruct (spaceRune2 a b); [lia|].
      destruct (spaceRune3 a b c); [lia|simpl; lia].
Qed.

Lemma length_TrimLeftSpace s :
  String.length (TrimLeftSpace s) ≤ String.length s.
Proof. by apply (length_TrimLeftSpace_le (String.length s)). Qed.

Lemma length_trimLeftSpaceRev_le n : ∀ s,
  String.length s ≤ n → String.length (trimLeftSpaceRev s) ≤ String.length s.
Proof.
  induction n as [|n IH]; intros s Hn.
  - destruct s; [simpl; lia|simpl in Hn; lia].
  - destruct s as [|a [|b [|c s3]]]; simpl in *; [lia|..].
    + destruct (isAsciiSpace a); simpl; lia.
    + destruct (isAsciiSpace a); [destruct (isAsciiSpace b); simpl; lia|].
      destruct (spaceRune2 b a); simpl; lia.
    + assert (H1 := IH (String b (String c s3))).
      assert (H2 := IH (String c s3)). assert (H3 := IH s3).
      simpl in H1, H2, H3.
      destruct (isAsciiSpace a); [lia|].
      destruct (spaceRune2 b a); [lia|].
      destruct (spaceRune3 c b a); [lia|simpl; lia].
Qed.

Lemma length_trimLeftSpaceRev s :
  String.length (trimLeftSpaceRev s) ≤ String.length s.
Proof. by apply (length_trimLeftSpaceRev_le (String.length s)). Qed.

(** The scan stops at a byte below 128 that is no white space. *)
Lemma TrimLeftSpace_stop c rest :
  isAsciiSpace c = false → (code c < 128)%N →
  TrimLeftSpace (String c rest) = String c rest.
Proof.
  intros Hs Hc. simpl. rewrite Hs.
  destruct rest as [|b [|d rest]]; [reflexivity|..];
    rewrite (spaceRune2_ascii_l _ _ Hc); [reflexivity|].
  by rewrite (spaceRune3_ascii_1 _ _ _ Hc).
Qed.

Lemma trimLeftSpaceRev_stop c rest :
  isAsciiSpace c = false → (code c < 128)%N →
  trimLeftSpaceRev (String c rest) = String c rest.
Proof.
  intros Hs Hc. simpl. rewrite Hs.
  destruct rest as [|b [|d rest]]; [reflexivity|..];
    rewrite (spaceRune2_ascii_r _ _ Hc); [reflexivity|].
  by rewrite (spaceRune3_ascii_3 _ _ _ Hc).
Qed.

(** A string the scan leaves alone is left alone when a byte below 128
    and anything else follow it. *)
Lemma TrimLeftSpace_keep s c rest :
  TrimLeftSpace s = s → s ≠ "" → (code c < 128)%N →
  TrimLeftSpace (s +:+ String c rest) = s +:+ String c rest.
Proof.
  intros Hs Hne Hc. destruct s as [|a [|b [|d s3]]]; [done|..]; simpl in *.
  - destruct (isAsciiSpace a); [discriminate|].
    rewrite (spaceRune2_ascii_r _ _ Hc).
    destruct rest; [reflexivity|]. by rewrite (spaceRune3_ascii_2 _ _ _ Hc).
  - destruct (isAsciiSpace a).
    { apply (f_equal String.length) in Hs.
      pose proof (length_TrimLeftSpace (String b "")). simpl in *. lia. }
    destruct (spaceRune2 a b); [discriminate|].
    by rewrite (spaceRune3_ascii_3 _ _ _ Hc).
  - pose proof (length_TrimLeftSpace (String b (String d s3))) as H1.
    pose proof (length_TrimLeftSpace (String d s3)) as H2.
    pose proof (length_TrimLeftSpace s3) as H3.
    destruct (isAsciiSpace a).
    { apply (f_equal String.length) in Hs. simpl in *. lia. }
    destruct (spaceRune2 a b).
    { apply (f_equal String.length) in Hs. simpl in *. lia. }
    destruct (spaceRune3 a b d); [|reflexivity].
    apply (f_equal String.length) in Hs. simpl in *. lia.
Qed.

Lemma trimLeftSpaceRev_keep s c rest :
  trimLeftSpaceRev s = s → s ≠ "" → (code c < 128)%N →
  trimLeftSpaceRev (s +:+ String c rest) = s +:+ String c rest.
Proof.
  intros Hs Hne Hc. destruct s as [|a [|b [|d s3]]]; [done|..]; simpl in *.
  - destruct (isAsciiSpace a); [discriminate|].
    rewrite (spaceRune2_ascii_l _ _ Hc).
    destruct rest; [reflexivity|]. by rewrite (spaceRune3_ascii_2 _ _ _ Hc).
  - destruct (isAsciiSpace a).
    { apply (f_equal String.length) in Hs.
      pose proof (length_trimLeftSpaceRev (String b "")). simpl in *. lia. }
    destruct (spaceRune2 b a); [discriminate|].
    by rewrite (spaceRune3_ascii_1 _ _ _ Hc).
  - pose proof (length_trimLeftSpaceRev (String b (String d s3))) as H1.
    pose proof (length_trimLeftSpaceRev (String d s3)) as H2.
    pose proof (length_trimLeftSpaceRev s3) as H3.
    destruct (isAsciiSpace a).
    { apply (f_equal String.length) in Hs. simpl in *. lia. }
    destruct (spaceRune2 b a).
    { apply (f_equal String.length) in Hs. simpl in *. lia. }
    destruct (spaceRune3 d b a); [|reflexivity].
    apply (f_equal String.length) in Hs. simpl in *. lia.
Qed.

(** *** Reversal *)

Lemma rev_app_eq a : ∀ acc, String.rev_app a acc = String.rev a +:+ acc.
Proof.
  unfold String.rev. induction a as [|c a IH]; intros acc; [reflexivity|].
  simpl. rewrite (IH (String c "")), IH, append_assoc. reflexivity.
Qed.

Lemma rev_cons c s : String.rev (String c s) = String.rev s +:+ String c "".
Proof. unfold String.rev at 1. simpl. apply rev_app_eq. Qed.

Lemma rev_append a b :
  String.rev (a +:+ b) = String.rev b +:+ String.rev a.
Proof.
  induction a as [|c a IH]; simpl.
  - change (String.rev "") with "". by rewrite append_nil_r.
  - by rewrite !rev_cons, IH, append_assoc.
Qed.

Lemma rev_involutive s : String.rev (String.rev s) = s.
Proof.
  induction s as [|c s IH]; [reflexivity|].
  rewrite rev_cons, rev_append, IH. reflexivity.
Qed.

Lemma TrimRightSpace_fix s :
  TrimRightSpace s = s → trimLeftSpaceRev (String.rev s) = String.rev s.
Proof.
  unfold TrimRightSpace. intros H. apply (f_equal String.rev) in H.
  by rewrite rev_involutive in H.
Qed.

(** Trailing CR LF goes; a string [TrimRightSpace] leaves alone stays
    when it follows a byte below 128. *)
Lemma TrimRightSpace_keep pre c s :
  TrimRightSpace s = s → s ≠ "" → (code c < 128)%N →
  TrimRightSpace (pre +:+ String c (s +:+ CRLF)) = pre +:+ String c s.
Proof.
  intros Hs Hne Hc. apply TrimRightSpace_fix in Hs. unfold TrimRightSpace.
  rewrite rev_append, rev_cons, rev_append, !append_assoc.
  change (String.rev CRLF) with (String LF (String CR "")).
  change (trimLeftSpaceRev
            (String LF (String CR "") +:+ String.rev s +:+ String c ""
             +:+ String.rev pre))
    with (trimLeftSpaceRev
            (String.rev s +:+ String c (String.rev pre))).
  rewrite trimLeftSpaceRev_keep; auto.
  - rewrite rev_append, rev_cons, !rev_involutive, append_assoc. reflexivity.
  - intros H. apply (f_equal String.rev) in H.
    by rewrite rev_involutive in H.
Qed.

Lemma TrimRightSpace_stop pre c :
  isAsciiSpace c = false → (code c < 128)%N →
  TrimRightSpace (pre +:+ String c (" " +:+ CRLF)) = pre +:+ String c "".
Proof.
  intros Hs Hc. unfold TrimRightSpace.
  rewrite rev_append, rev_cons.
  change (String.rev (" " +:+ CRLF))
    with (String LF (String CR (String " " ""))).
  change (trimLeftSpaceRev
            ((String LF (String CR (String " " "")) +:+ String c "")
             +:+ String.rev pre))
    with (trimLeftSpaceRev (String c (String.rev pre))).
  rewrite trimLeftSpaceRev_stop by done.
  change (String c (String.rev pre)) with (String c "" +:+ String.rev pre).
  by rewrite rev_append, rev_involutive.
Qed.

Lemma TrimSpace_trimmed t : Wire.trimmed t → TrimSpace t = t.
Proof. intros [Hl Hr]. unfold TrimSpace. by rewrite Hl. Qed.

End trim.

(** ** Reading back what was written *)

Section round_trip.
#[local] Arguments String.prefix : simpl never.
#[local] Arguments Cut : simpl never.
#[local] Arguments Split : simpl never.
#[local] Arguments sliceTo : simpl never.
#[local] Arguments sliceFrom : simpl never.
#[local] Arguments TrimSpace : simpl never.
#[local] Arguments LineParser.readHeadersFrom : simpl never.
Import LineParser Wire.

Lemma Contains_false t sep : Contains t sep = false → Cut sep t = None.
Proof. unfold Contains. by destruct (Cut sep t). Qed.

Lemma noLF_app a b :
  Cut LFs a = None → Cut LFs b = None → Cut LFs (a +:+ b) = None.
Proof. intros Ha Hb. by rewrite (Cut_LFs_append _ _ Ha), Hb. Qed.

Lemma Cut_char_line c l tail :
  Cut (String c "") l = None →
  Cut (String c "") (l +:+ String c "" +:+ tail) = Some (l, tail).
Proof.
  intros Hl. rewrite (Cut_char_append _ _ _ Hl), Cut_prefix.
  by rewrite append_nil_r.
Qed.

(** *** The request line *)

Lemma TrimSpace_request_line m p v :
  trimmed m → m ≠ "" → trimmed v → v ≠ "" →
  TrimSpace ((m +:+ " " +:+ p +:+ " " +:+ v +:+ String CR "") +:+ LFs)
  = m +:+ " " +:+ p +:+ " " +:+ v.
Proof.
  intros [Hm _] Hmne [_ Hv] Hvne. unfold TrimSpace.
  replace ((m +:+ " " +:+ p +:+ " " +:+ v +:+ String CR "") +:+ LFs)
    with (m +:+ String " " (p +:+ " " +:+ v +:+ String CR "" +:+ LFs))
    by (rewrite !append_assoc; reflexivity).
  rewrite TrimLeftSpace_keep by (auto; reflexivity).
  replace (m +:+ String " " (p +:+ " " +:+ v +:+ String CR "" +:+ LFs))
    with ((m +:+ " " +:+ p) +:+ String " " (v +:+ CRLF))
    by (rewrite !append_assoc; reflexivity).
  rewrite TrimRightSpace_keep by (auto; reflexivity).
  rewrite !append_assoc. reflexivity.
Qed.

Lemma Split_request_line m p v :
  Cut " " m = None → Cut " " p = None → Cut " " v = None →
  Split (m +:+ " " +:+ p +:+ " " +:+ v) " " = [m; p; v].
Proof.
  intros Hm Hp Hv.
  rewrite Split_unfold, (Cut_char_line " " _ _ Hm) by discriminate.
  rewrite Split_unfold, (Cut_char_line " " _ _ Hp) by discriminate.
  rewrite Split_unfold, Hv by discriminate. reflexivity.
Qed.

(** *** Header lines *)

(** What is left of the value side of a header line after the line is
    trimmed and cut at the colon. *)
Lemma TrimSpace_header_line n v :
  trimmed n → trimmed v →
  ∃ w, TrimSpace ((n +:+ ": " +:+ v +:+ String CR "") +:+ LFs)
       = n +:+ ":" +:+ w
       ∧ TrimSpace w = v.
Proof.
  intros [Hn _] Hv. pose proof (TrimSpace_trimmed _ Hv) as Hvt.
  destruct Hv as [_ Hv].
  assert (Hl : TrimLeftSpace ((n +:+ ": " +:+ v +:+ String CR "") +:+ LFs)
               = n +:+ String ":" (" " +:+ v +:+ CRLF)).
  { replace ((n +:+ ": " +:+ v +:+ String CR "") +:+ LFs)
      with (n +:+ String ":" (" " +:+ v +:+ CRLF))
      by (rewrite !append_assoc; reflexivity).
    destruct n as [|a n'].
    - by apply TrimLeftSpace_stop.
    - by apply TrimLeftSpace_keep. }
  unfold TrimSpace at 1. rewrite Hl. destruct v as [|b v'].
  - exists "". split; [|reflexivity].
    by rewrite TrimRightSpace_stop.
  - exists (" " +:+ String b v'). split.
    + replace (n +:+ String ":" (" " +:+ String b v' +:+ CRLF))
        with ((n +:+ ":") +:+ String " " (String b v' +:+ CRLF))
        by (rewrite !append_assoc; reflexivity).
      rewrite TrimRightSpace_keep by (auto; reflexivity).
      rewrite !append_assoc. reflexivity.
    + exact Hvt.
Qed.

Lemma headerLines_cons kv hs tail :
  Resp.headerLines (kv :: hs) +:+ tail
  = (kv.1 +:+ ": " +:+ kv.2 +:+ String CR "") +:+ LFs
    +:+ Resp.headerLines hs +:+ tail.
Proof.
  change (Resp.headerLines (kv :: hs))
    with (Resp.headerLine kv +:+ Resp.headerLines hs).
  unfold Resp.headerLine. rewrite !append_assoc. reflexivity.
Qed.

Lemma length_headerLines hs :
  length hs ≤ String.length (Resp.headerLines hs).
Proof.
  induction hs as [|kv hs IH]; [simpl; lia|].
  pose proof (headerLines_cons kv hs "") as H.
  rewrite !append_nil_r in H. rewrite H, !length_append. simpl. lia.
Qed.

Lemma readHeadersFrom_lines hs : ∀ fuel m rest,
  Forall headerOK hs → length hs < fuel →
  readHeadersFrom fuel (Resp.headerLines hs +:+ CRLF +:+ rest) m
  = Ok (foldl (λ m kv, <[kv.1 := kv.2]> m) m hs, rest).
Proof.
  induction hs as [|[n v] hs IH]; intros fuel m rest Hok Hf;
    (destruct fuel as [|fuel]; [simpl in Hf; lia|]);
    rewrite readHeadersFrom_S.
  - change (Resp.headerLines [] +:+ CRLF +:+ rest)
      with (String CR "" +:+ LFs +:+ rest).
    by rewrite Cut_line.
  - inversion Hok as [|? ? (Hn1 & Hn2 & Hn3 & Hv1 & Hv2) Hok']; subst.
    simpl in Hn1, Hn2, Hn3, Hv1, Hv2.
    apply Contains_false in Hn1, Hn2, Hv1.
    rewrite headerLines_cons. simpl fst. simpl snd.
    rewrite Cut_line
      by (repeat (apply noLF_app; try done)).
    destruct (TrimSpace_header_line n v Hn3 Hv2) as (w & -> & Hw).
    replace (String.eqb (n +:+ ":" +:+ w) "") with false
      by (symmetry; apply String.eqb_neq; by destruct n).
    rewrite (Cut_char_line ":" _ _ Hn1), Hw, (TrimSpace_trimmed _ Hn3).
    rewrite IH; [reflexivity|done|simpl in Hf; lia].
Qed.

(** *** The header list as a map *)

Lemma foldl_insert_reverse (hs : list (string * string)) :
  ∀ m : gmap string string,
    foldl (λ m kv, <[kv.1 := kv.2]> m) m hs
    = foldr (λ kv m, <[kv.1 := kv.2]> m) m (reverse hs).
Proof.
  induction hs as [|kv hs IH]; intros m; [reflexivity|].
  rewrite reverse_cons, foldr_app. simpl. apply IH.
Qed.

Lemma lastWins_eq hs : lastWins hs = list_to_map (reverse hs).
Proof. unfold lastWins. apply foldl_insert_reverse. Qed.

Lemma lastWins_elem hs k v : lastWins hs !! k = Some v → (k, v) ∈ hs.
Proof.
  rewrite lastWins_eq. intros H. apply elem_of_list_to_map_2 in H.
  by apply elem_of_reverse.
Qed.

Lemma lastWins_iteration (m : gmap string string) order :
  Resp.iteration m order → lastWins order = m.
Proof.
  unfold Resp.iteration. intros Hp. rewrite lastWins_eq. symmetry.
  apply list_to_map_flip. by rewrite reverse_Permutation.
Qed.

Lemma iteration_Forall (P : string * string → Prop)
    (m : gmap string string) order :
  Resp.iteration m order → (∀ k v, m !! k = Some v → P (k, v)) →
  Forall P order.
Proof.
  unfold Resp.iteration. intros Hp HP. apply Forall_forall. intros [k v] Hin.
  apply HP. apply elem_of_map_to_list. by rewrite <- Hp.
Qed.

(** *** The whole request *)

Lemma serialize_lines R :
  serialize R
  = (method R +:+ " " +:+ path R +:+ " " +:+ version R +:+ String CR "")
    +:+ LFs +:+ Resp.headerLines (headers R) +:+ CRLF +:+ body R.
Proof. unfold serialize. rewrite !append_assoc. reflexivity. Qed.

Lemma ParseRequestFrom_serialize R tlsConn :
  wellFormed R →
  ∃ b, ParseRequestFrom (serialize R) tlsConn
       = Ok {| Method := method R; Path := path R; Version := version R;
               Headers := lastWins (headers R); Body := b;
               TLS := tlsConn |}.
Proof.
  intros ((Hm1 & [Hm2 Hm3] & Hm4) & [Hp1 Hp2] & (Hv1 & [Hv2 Hv3] & Hv4)
          & Hhs & Hbody).
  apply Contains_false in Hm2, Hm3, Hp1, Hp2, Hv2, Hv3.
  pose proof (length_headerLines (headers R)) as Hlen.
  assert (Hcut : Cut LFs (serialize R)
    = Some (method R +:+ " " +:+ path R +:+ " " +:+ version R
            +:+ String CR "",
            Resp.headerLines (headers R) +:+ CRLF +:+ body R)).
  { rewrite serialize_lines. apply Cut_line.
    repeat (apply noLF_app; try done). }
  unfold ParseRequestFrom. rewrite Hcut.
  rewrite TrimSpace_request_line, Split_request_line by done.
  rewrite (readHeadersFrom_lines (headers R)); [|done|].
  2:{ rewrite serialize_lines, !length_append. lia. }
  fold (lastWins (headers R)).
  destruct (String.eqb (header (lastWins (headers R)) "Content-Length") "")
    eqn:Hcl; simpl.
  - by eexists.
  - apply String.eqb_neq in Hcl. apply Hbody in Hcl.
    apply String.eqb_neq in Hcl. rewrite Hcl. by eexists.
Qed.

Lemma line_round_trip R tlsConn :
  wellFormed R →
  ∃ r, ParseRequest (serialize R) tlsConn = Ok r
       ∧ Method r = method R ∧ Path r = path R ∧ Version r = version R
       ∧ Headers r = lastWins (headers R) ∧ TLS r = tlsConn.
Proof.
  intros Hwf. destruct (ParseRequestFrom_serialize R tlsConn Hwf) as [b Hb].
  apply line_parse_from in Hb as (body & Hp & _). simpl in Hp.
  eexists. split; [exact Hp|]. by repeat split.
Qed.

(** The header block [FormatResponse] writes reads back as the map it
    was written from, whatever order the range loop took. *)
Lemma format_headers_read_back resp out :
  (∀ k v, Resp.Headers resp !! k = Some v → headerOK (k, v)) →
  Resp.FormatResponse resp out →
  ∃ order,
    Resp.iteration (Resp.Headers resp) order
    ∧ out = Resp.statusLine (Resp.Version resp) (Resp.StatusCode resp)
              (Resp.StatusText resp)
            +:+ Resp.headerLines order +:+ CRLF +:+ Resp.Body resp
    ∧ ∀ rest,
        readHeadersFrom (S (length order))
          (Resp.headerLines order +:+ CRLF +:+ rest) ∅
        = Ok (Resp.Headers resp, rest).
Proof.
  intros Hok (order & Hit & ->). exists order.
  split; [done|]. split; [apply FormatResponseIn_eq|].
  intros rest. rewrite readHeadersFrom_lines; [|by eapply iteration_Forall|lia].
  fold (lastWins order). by rewrite (lastWins_iteration _ _ Hit).
Qed.

End round_trip.

(** ** The header loop of the separator-splitting parser, read backwards *)

Section split_headers.
#[local] Arguments String.prefix : simpl never.
#[local] Arguments Cut : simpl never.
#[local] Arguments Split : simpl never.
Import SplitParser.

Lemma split_parseHeaders_inv lines : ∀ hs hs',
  parseHeaders lines hs = Ok hs' →
  Forall (λ l, is_Some (Cut ": " l)) lines
  ∧ hs' = foldl (λ m l, match Cut ": " l with
                        | Some (n, v) => <[n := v]> m
                        | None => m
                        end) hs lines.
Proof.
  induction lines as [|l lines IH]; intros hs hs'; simpl.
  - intros [= <-]. by split.
  - destruct (Cut ": " l) as [[n v]|] eqn:E; [|discriminate].
    intros H. apply IH in H as [HF ->]. split; [|reflexivity].
    constructor; [by eexists|done].
Qed.

Lemma split_parse_inv data r :
  ParseRequest data = Ok r →
  ∃ head line0 lines,
    Cut CRLFCRLF data = Some (head, Body r)
    ∧ Split head CRLF = line0 :: lines
    ∧ Split line0 " " = [Method r; Path r; Version r]
    ∧ parseHeaders lines ∅ = Ok (Headers r).
Proof.
  rewrite split_ParseRequest_unfold.
  destruct (Cut CRLFCRLF data) as [[head body]|] eqn:Hc; [|discriminate].
  destruct (Split head CRLF) as [|line0 lines] eqn:Hs; [discriminate|].
  destruct (Split line0 " ") as [|m [|p [|v [|? ?]]]] eqn:H3;
    try discriminate.
  destruct (parseHeaders lines ∅) as [hs|] eqn:Hh; [|discriminate].
  intros [= <-]. simpl. by exists head, line0, lines.
Qed.

Lemma split_bad_header data head body line0 lines1 bad lines2 :
  Cut CRLFCRLF data = Some (head, body) →
  Split head CRLF = line0 :: lines1 ++ bad :: lines2 →
  length (Split line0 " ") = 3 →
  Forall (λ l, is_Some (Cut ": " l)) lines1 →
  Cut ": " bad = None →
  ParseRequest data = Err (InvalidHeader bad).
Proof.
  intros Hc Hs H3 Hg Hb. rewrite split_ParseRequest_unfold, Hc, Hs.
  destruct (Split line0 " ") as [|m [|p [|v [|? ?]]]]; try discriminate.
  by rewrite split_parseHeaders_bad.
Qed.

Lemma split_request_line_only data head body line0 m p v :
  Cut CRLFCRLF data = Some (head, body) →
  Split head CRLF = [line0] →
  Split line0 " " = [m; p; v] →
  ParseRequest data
  = Ok {| Method := m; Path := p; Version := v; Headers := ∅; Body := body |}.
Proof.
  intros Hc Hs H3. by rewrite split_ParseRequest_unfold, Hc, Hs, H3.
Qed.

End split_headers.

(** ** The lines the line parser reads *)

Section line_frame.
#[local] Arguments String.prefix : simpl never.
#[local] Arguments Cut : simpl never.
#[local] Arguments Split : simpl never.
#[local] Arguments sliceTo : simpl never.
#[local] Arguments sliceFrom : simpl never.
#[local] Arguments TrimSpace : simpl never.
Import LineParser.
#[local] Arguments readHeadersFrom : simpl never.

Lemma length_pos_nonempty (s : string) : s ≠ "" → 0 < String.length s.
Proof. destruct s; [done|simpl; lia]. Qed.

(** What precedes the first occurrence has no occurrence. *)
Lemma Cut_before_free sep s a b :
  sep ≠ "" → Cut sep s = Some (a, b) → Cut sep a = None.
Proof.
  intros Hsep Hc. apply Cut_None_iff. intros a1 a2 ->.
  pose proof (Cut_sound _ _ _ _ Hc) as Hs.
  pose proof (Cut_first sep s _ _ a1 (a2 +:+ sep +:+ b) Hc) as Hlen.
  rewrite Hs, !append_assoc in Hlen. specialize (Hlen eq_refl).
  rewrite !length_append in Hlen.
  pose proof (length_pos_nonempty sep Hsep). lia.
Qed.

(** The header loop returns only at a blank line: the lines before it
    are not blank, and what it leaves unread is what follows that line. *)
Lemma readHeadersFrom_frame fuel : ∀ unread hs hs' unread',
  readHeadersFrom fuel unread hs = Ok (hs', unread') →
  ∃ hlines bl,
    unread = Wire.unlines hlines +:+ bl +:+ LFs +:+ unread'
    ∧ Forall (λ l, Cut LFs l = None ∧ TrimSpace (l +:+ LFs) ≠ "") hlines
    ∧ Cut LFs bl = None
    ∧ TrimSpace (bl +:+ LFs) = "".
Proof.
  induction fuel as [|fuel IH]; intros unread hs hs' unread' H;
    [discriminate|].
  rewrite readHeadersFrom_S in H.
  destruct (Cut LFs unread) as [[l u]|] eqn:Hc; [|discriminate].
  pose proof (Cut_before_free _ _ _ _ LFs_nonempty Hc) as Hl.
  apply Cut_sound in Hc. subst unread.
  destruct (String.eqb (TrimSpace (l +:+ LFs)) "") eqn:Hb.
  - apply String.eqb_eq in Hb. injection H as <- <-.
    exists [], l. by repeat split.
  - apply String.eqb_neq in Hb.
    destruct (Cut ":" (TrimSpace (l +:+ LFs))) as [[k v]|]; [|discriminate].
    apply IH in H as (hlines & bl & -> & HF & Hbl & Hblank).
    exists (l :: hlines), bl. split.
    + change (Wire.unlines (l :: hlines))
        with (l +:+ LFs +:+ Wire.unlines hlines).
      by rewrite !append_assoc.
    + repeat split; try done. by constructor.
Qed.

(** On a buffer that starts with non-blank lines and a blank one, the
    header loop, when it returns, has cut every line at its first colon
    and leaves unread what follows the blank line. *)
Lemma readHeadersFrom_framed hlines : ∀ fuel hs bl rest hs' unread',
  Forall (λ l, Cut LFs l = None ∧ TrimSpace (l +:+ LFs) ≠ "") hlines →
  Cut LFs bl = None → TrimSpace (bl +:+ LFs) = "" →
  readHeadersFrom fuel (Wire.unlines hlines +:+ bl +:+ LFs +:+ rest) hs
  = Ok (hs', unread') →
  unread' = rest
  ∧ Forall (λ l, is_Some (Cut ":" (TrimSpace (l +:+ LFs)))) hlines
  ∧ hs' = foldl (λ m l, match Cut ":" (TrimSpace (l +:+ LFs)) with
                        | Some (n, v) => <[TrimSpace n := TrimSpace v]> m
                        | None => m
                        end) hs hlines.
Proof.
  induction hlines as [|h hlines IH];
    intros fuel hs bl rest hs' unread' HF Hbl Hblank H;
    (destruct fuel as [|fuel]; [discriminate|]);
    rewrite readHeadersFrom_S in H.
  - change (Wire.unlines [] +:+ bl +:+ LFs +:+ rest)
      with (bl +:+ LFs +:+ rest) in H.
    rewrite (Cut_line _ _ Hbl), Hblank in H. injection H as <- <-.
    by repeat split.
  - inversion HF as [|? ? [Hh Hne] HF']; subst.
    change (Wire.unlines (h :: hlines))
      with (h +:+ LFs +:+ Wire.unlines hlines) in H.
    rewrite !append_assoc, (Cut_line _ _ Hh) in H.
    apply String.eqb_neq in Hne. rewrite Hne in H.
    destruct (Cut ":" (TrimSpace (h +:+ LFs))) as [[k v]|] eqn:Hk;
      [|discriminate].
    apply (IH _ _ _ _ _ _ HF' Hbl Hblank) in H as (-> & HS & ->).
    split; [done|]. split.
    + constructor; [by rewrite Hk|done].
    + simpl. by rewrite Hk.
Qed.

(** Every buffer [ParseRequest] accepts has that shape. *)
Lemma line_framed data tlsConn r :
  ParseRequest data tlsConn = Ok r →
  ∃ l0 hlines bl rest, Lines.framed data l0 hlines bl rest.
Proof.
  intros Hok. apply line_parse_ok in Hok as (r0 & H0 & _).
  apply ParseRequestFrom_inv in H0 as (l & unread & unread' & Hc & _ & Hh & _).
  pose proof (Cut_before_free _ _ _ _ LFs_nonempty Hc) as Hl.
  apply Cut_sound in Hc.
  apply readHeadersFrom_frame in Hh as (hlines & bl & -> & HF & Hbl & Hblank).
  exists l, hlines, bl, unread'. by repeat split.
Qed.

(** What [ParseRequest] returns for it: the headers of the lines before
    the blank line, and as body nothing or what follows the blank line. *)
Lemma line_framed_parse data tlsConn r l0 hlines bl rest :
  ParseRequest data tlsConn = Ok r →
  Lines.framed data l0 hlines bl rest →
  Forall (λ l, is_Some (Cut ":" (TrimSpace (l +:+ LFs)))) hlines
  ∧ Headers r
    = foldl (λ m l, match Cut ":" (TrimSpace (l +:+ LFs)) with
                    | Some (n, v) => <[TrimSpace n := TrimSpace v]> m
                    | None => m
                    end) ∅ hlines
  ∧ (header (Headers r) "Content-Length" = "" → Body r = "")
  ∧ (header (Headers r) "Content-Length" ≠ "" →
     Body r ≠ ""
     ∧ (∃ t, rest = Body r +:+ t)
     ∧ (String.length data ≤ Bufio.defaultBufSize → Body r = rest)).
Proof.
  intros Hok (Hdata & Hl0 & HF & Hbl & Hblank).
  apply line_parse_ok
    in Hok as (r0 & H0 & _ & _ & _ & Hhs & _ & [t Ht] & Hne & Hlen).
  apply ParseRequestFrom_inv
    in H0 as (l & unread & unread' & Hc & _ & Hh & _ & Hnone & Hsome).
  rewrite Hhs in Hnone, Hsome, Hh.
  rewrite Hdata, (Cut_line _ _ Hl0) in Hc. injection Hc as <- <-.
  apply (readHeadersFrom_framed _ _ _ _ _ _ _ HF Hbl Hblank)
    in Hh as (-> & HS & Hfold).
  split; [done|]. split; [done|]. split.
  - intros Hcl. specialize (Hnone Hcl). rewrite Hnone in Ht.
    destruct (Body r); [reflexivity|discriminate].
  - intros Hcl. destruct (Hsome Hcl) as [Hb Hu].
    split; [apply Hne; congruence|]. split.
    + exists t. congruence.
    + intros Hd. rewrite (Hlen Hd). done.
Qed.

End line_frame.

(** * The properties of the specification *)

(** ** Responses *)

(** C9: for every response [r] and body [b], [SetBody b] leaves the body
    [b] and the header Content-Length set to the decimal string of the
    length of [b], whatever it was before; a later
    [SetHeader "Content-Length" v] replaces that value and keeps the body;
    and every output of [FormatResponse] and of [Write] carries the line
    [Content-Length: <value>] with the value the header map holds at that
    moment (the length after [SetBody], [v] after the override), once. *)
Theorem C9_SetBody_writes_Content_Length (r : Resp.Response) (b v : string) :
  let r1 := Resp.SetBody b r in
  let r2 := Resp.SetHeader "Content-Length" v r1 in
  (Resp.Body r1 = b
   ∧ Resp.Headers r1
     = <["Content-Length" := Itoa (len b)]> (Resp.Headers r))
  ∧ (Resp.Body r2 = b
     ∧ Resp.Headers r2 = <["Content-Length" := v]> (Resp.Headers r))
  ∧ (∀ out, Resp.FormatResponse r1 out →
       Resp.carries
         (Resp.statusLine (Resp.Version r) (Resp.StatusCode r)
            (Resp.StatusText r))
         "Content-Length" (Itoa (len b)) b out)
  ∧ (∀ out, Resp.Write r1 out →
       Resp.carries
         (Resp.statusLine (Resp.Version r) (Resp.StatusCode r)
            (Status.Text (Resp.StatusCode r)))
         "Content-Length" (Itoa (len b)) b out)
  ∧ (∀ out, Resp.FormatResponse r2 out →
       Resp.carries
         (Resp.statusLine (Resp.Version r) (Resp.StatusCode r)
            (Resp.StatusText r))
         "Content-Length" v b out)
  ∧ (∀ out, Resp.Write r2 out →
       Resp.carries
         (Resp.statusLine (Resp.Version r) (Resp.StatusCode r)
            (Status.Text (Resp.StatusCode r)))
         "Content-Length" v b out)
  ∧ (∃ out, Resp.FormatResponse r2 out) ∧ (∃ out, Resp.Write r2 out).
Proof.
  intros r1 r2.
  assert (H1 : Resp.Headers r1 !! "Content-Length" = Some (Itoa (len b)))
    by apply lookup_insert_eq.
  assert (H2 : Resp.Headers r2 !! "Content-Length" = Some v)
    by apply lookup_insert_eq.
  destruct (serialized_header r1 _ _ H1) as [F1 W1].
  destruct (serialized_header r2 _ _ H2) as [F2 W2].
  split; [by split|]. split; [split; [done|apply insert_insert_eq]|].
  repeat split; try done.
  - apply (serializers_total r2).
  - apply (serializers_total r2).
Qed.

(** ** The connection pool *)

(** C10: a pool made by [NewConnPool C] holds at most [C] idle connections
    after any sequence of [Get], [Put] and [CloseIdleConnections]; and a
    [Put] that finds [C] connections stored closes the offered connection
    and leaves the stored connections as they were. *)
Theorem C10_pool_never_exceeds_capacity (C : Z) (p0 : Pool.ConnPool)
    (ops : list Pool.Op) :
  Pool.NewConnPool C = Some p0 →
  (Z.of_nat (length (Pool.conns (Pool.run ops p0))) ≤ C)%Z
  ∧ ∀ conn,
      Z.of_nat (length (Pool.conns (Pool.run ops p0))) = C →
      Pool.Put conn (Pool.run ops p0)
      = {| Pool.conns := Pool.conns (Pool.run ops p0);
           Pool.maxConns := C;
           Pool.closed := Pool.closed (Pool.run ops p0) ++ [conn] |}.
Proof.
  intros Hnew. apply NewConnPool_inv in Hnew as (Hc & Hm & H0).
  destruct (run_bounded ops p0) as [Hle Hmax].
  { rewrite Hc, Hm. simpl. lia. }
  rewrite Hm in Hle, Hmax. split; [exact Hle|].
  intros conn Hfull. unfold Pool.Put. rewrite Hmax, Hfull, Z.ltb_irrefl.
  reflexivity.
Qed.

Lemma C10_pool_witness :
  (Z.of_nat
     (length
        (Pool.conns
           (Pool.run
              [Pool.OpPut 1%nat; Pool.OpPut 2%nat; Pool.OpPut 3%nat;
               Pool.OpGet (Err "refused"); Pool.OpPut 4%nat;
               Pool.OpPut 5%nat]
              {| Pool.conns := []; Pool.maxConns := 2;
                 Pool.closed := [] |}))) ≤ 2)%Z.
Proof.
  exact (proj1 (C10_pool_never_exceeds_capacity 2 _ _ eq_refl)).
Defined.

(** ** Dispatch *)

(** C4: the router of src/unnamed/part_006 answers every request that has
    no TLS state and whose path does not begin with [/static/] with
    301 Moved Permanently and the header Location set to ["https://"], the
    value of the Host header and the path; the world is left as it was and
    the answer is that of the empty router, whatever routes and middleware
    are registered. *)
Theorem C4_plain_request_is_redirected {W : Type} (r : TLSRouter.Router W)
    (req : LineParser.Request) (w : W) :
  LineParser.TLS req = None →
  HasPrefix (LineParser.Path req) "/static/" = false →
  ∃ resp,
    TLSRouter.HandleRequest r req w = (resp, w)
    ∧ TLSRouter.HandleRequest TLSRouter.NewRouter req w = (resp, w)
    ∧ Resp.StatusCode resp = 301%Z
    ∧ Resp.StatusText resp = "Moved Permanently"
    ∧ Resp.Headers resp
      = {[ "Location" :=
             "https://" +:+ LineParser.header (LineParser.Headers req) "Host"
             +:+ LineParser.Path req ]}
    ∧ Resp.Body resp = "".
Proof.
  intros Htls Hpath. exists (TLSRouter.redirectToHTTPS r req).
  rewrite !tls_redirect by done. by repeat split.
Qed.

Lemma C4_redirect_witness :
  ∃ resp,
    TLSRouter.HandleRequest Sample.router (Sample.hello None) []
    = (resp, [])
    ∧ TLSRouter.HandleRequest (W := Sample.Log) TLSRouter.NewRouter
        (Sample.hello None) []
      = (resp, [])
    ∧ Resp.StatusCode resp = 301%Z
    ∧ Resp.StatusText resp = "Moved Permanently"
    ∧ Resp.Headers resp = {[ "Location" := "https://example.com/hello" ]}
    ∧ Resp.Body resp = "".
Proof.
  exact (C4_plain_request_is_redirected Sample.router (Sample.hello None) []
           eq_refl eq_refl).
Defined.

(** C3, as the code has it: a request whose method and path have no
    handler gets the response 404 with the body ["404 - Not Found"] from
    the router of src/pkg/http/router.go always, and from the router of
    src/unnamed/part_006 when the request is not answered by the HTTPS
    redirect first, that is when it has TLS state or a path under
    [/static/]. *)
Theorem C3_unregistered_route_gives_404 {W : Type}
    (plain : PlainRouter.Router W) (tls : TLSRouter.Router W)
    (preq : SplitParser.Request) (req : LineParser.Request) (w : W) :
  (plain_lookup plain (SplitParser.Method preq) (SplitParser.Path preq)
   = None →
   PlainRouter.HandleRequest plain preq w = (Resp.NotFoundResponse, w))
  ∧ (passes_gate req →
     tls_lookup tls (LineParser.Method req) (LineParser.Path req) = None →
     TLSRouter.HandleRequest tls req w = (Resp.NotFoundResponse, w))
  ∧ Resp.StatusCode Resp.NotFoundResponse = 404%Z
  ∧ Resp.Body Resp.NotFoundResponse = "404 - Not Found".
Proof.
  split; [|split; [|by split]].
  - intros H. by rewrite plain_miss.
  - intros Hg H. by rewrite tls_miss.
Qed.

Lemma C3_not_found_witness :
  PlainRouter.HandleRequest Sample.plainRouter Sample.plainMissing []
  = (Resp.NotFoundResponse, [])
  ∧ TLSRouter.HandleRequest Sample.router
      (Sample.missing (Some Sample.tlsState)) []
    = (Resp.NotFoundResponse, []).
Proof.
  destruct (C3_unregistered_route_gives_404 Sample.plainRouter Sample.router
              Sample.plainMissing (Sample.missing (Some Sample.tlsState)) [])
    as (H1 & H2 & _).
  split; [apply H1; reflexivity|].
  apply H2; [left; discriminate|reflexivity].
Defined.

(** The router of src/unnamed/part_006 with no route at all answers the
    parsed request [GET /missing] that came without TLS with 301, not 404. *)
Lemma C3_redirect_counterexample :
  LineParser.ParseRequest ("GET /missing HTTP/1.1" +:+ CRLFCRLF) None
  = Ok (Sample.missing None)
  ∧ tls_lookup (W := Sample.Log) TLSRouter.NewRouter "GET" "/missing" = None
  ∧ Resp.StatusCode
      (TLSRouter.HandleRequest (W := Sample.Log) TLSRouter.NewRouter
         (Sample.missing None) []).1 = 301%Z
  ∧ Resp.Body
      (TLSRouter.HandleRequest (W := Sample.Log) TLSRouter.NewRouter
         (Sample.missing None) []).1 = "".
Proof. repeat split; vm_compute; reflexivity. Qed.

(** C8, as the code has it: for a request that passes the HTTPS gate and
    has a handler [H], dispatch runs the handler wrapped in the registered
    middleware, the first registered outermost; with the middleware
    [A; B] that is [A (B H)], and when [A] and [B] act on the world before
    and after the handler they wrap the effects come in the order A-before,
    B-before, H, B-after, A-after; a middleware registered later is part of
    the wrapping of every later dispatch, as the innermost one. *)
Theorem C8_middleware_wraps_in_registration_order {W : Type}
    (r : TLSRouter.Router W) (H : TLSRouter.HandlerFunc W)
    (req : LineParser.Request) :
  passes_gate req →
  tls_lookup r (LineParser.Method req) (LineParser.Path req) = Some H →
  TLSRouter.HandleRequest r req
  = foldr (λ mw h, mw h) H (TLSRouter.middleware r) req
  ∧ (∀ A B, TLSRouter.middleware r = [A; B] →
            TLSRouter.HandleRequest r req = A (B H) req)
  ∧ (∀ beforeA afterA beforeB afterB w,
       TLSRouter.middleware r
       = [TLSRouter.around beforeA afterA; TLSRouter.around beforeB afterB] →
       TLSRouter.HandleRequest r req w
       = ((H req (beforeB (beforeA w))).1,
          afterA (afterB (H req (beforeB (beforeA w))).2)))
  ∧ (∀ C, TLSRouter.HandleRequest (TLSRouter.Use C r) req
          = foldr (λ mw h, mw h) H (TLSRouter.middleware r ++ [C]) req).
Proof.
  intros Hg Hl. pose proof (tls_hit r req H Hg Hl) as Hhit.
  split; [exact Hhit|]. split; [|split].
  - intros A B HAB. by rewrite Hhit, HAB.
  - intros bA aA bB aB w HAB. rewrite Hhit, HAB. simpl.
    unfold TLSRouter.around. by destruct (H req (bB (bA w))).
  - intros C. apply tls_hit; [done|]. by rewrite tls_lookup_Use.
Qed.

Lemma C8_order_witness :
  (TLSRouter.HandleRequest Sample.router
     (Sample.hello (Some Sample.tlsState)) []).2
  = ["A-before"; "B-before"; "H"; "B-after"; "A-after"].
Proof.
  destruct (C8_middleware_wraps_in_registration_order Sample.router
              Sample.helloHandler (Sample.hello (Some Sample.tlsState)))
    as (_ & _ & H & _); [left; discriminate|reflexivity|].
  rewrite (H (Sample.say "A-before") (Sample.say "A-after")
             (Sample.say "B-before") (Sample.say "B-after") []
             eq_refl).
  reflexivity.
Defined.

(** With [A] and [B] registered and [H] the handler of [GET /hello], the
    request [GET /hello] without TLS is answered 301 and nothing runs,
    while [A (B H)] on the same request logs five effects. *)
Lemma C8_redirect_counterexample :
  TLSRouter.middleware Sample.router = [Sample.mwA; Sample.mwB]
  ∧ (Sample.mwA (Sample.mwB Sample.helloHandler) (Sample.hello None) []).2
    = ["A-before"; "B-before"; "H"; "B-after"; "A-after"]
  ∧ (TLSRouter.HandleRequest Sample.router (Sample.hello None) []).2 = []
  ∧ Resp.StatusCode
      (TLSRouter.HandleRequest Sample.router (Sample.hello None) []).1
    = 301%Z.
Proof. repeat split. Qed.

(** ** Parsing *)

(** C5, as the code has it: the parser of src/unnamed/part_005 fails with
    the missing-body-separator error on every buffer without CR LF CR LF.
    The parser of src/pkg/http/request.go has no such error: it returns a
    request only for a buffer in which a line feed is followed by a line of
    white space alone that ends in a line feed, and on a buffer with no line
    feed at all it fails reading the request line. *)
Theorem C5_buffer_without_blank_line (data : string) :
  ((∀ a b, data ≠ a +:+ CRLFCRLF +:+ b) →
   SplitParser.ParseRequest data = Err SplitParser.NoBodySeparator)
  ∧ (∀ tlsConn r,
       LineParser.ParseRequest data tlsConn = Ok r →
       ∃ a bl b, data = a +:+ LFs +:+ bl +:+ LFs +:+ b
                 ∧ TrimSpace (bl +:+ LFs) = "")
  ∧ ((∀ a b, data ≠ a +:+ LFs +:+ b) →
     ∀ tlsConn,
       LineParser.ParseRequest data tlsConn
       = Err LineParser.ReadingRequestLine).
Proof.
  split; [apply split_parse_no_separator|]. split.
  - intros tlsConn r. apply line_blank_line.
  - intros Hno tlsConn. apply line_no_line_feed. by apply Cut_None_iff.
Qed.

Lemma C5_no_separator_witness :
  SplitParser.ParseRequest ("GET / HTTP/1.1" +:+ CRLF)
  = Err SplitParser.NoBodySeparator
  ∧ LineParser.ParseRequest "GET / HTTP/1.1" None
    = Err LineParser.ReadingRequestLine.
Proof.
  split.
  - apply (proj1 (C5_buffer_without_blank_line ("GET / HTTP/1.1" +:+ CRLF))).
    apply Cut_None_iff. vm_compute. reflexivity.
  - apply (proj2 (proj2 (C5_buffer_without_blank_line "GET / HTTP/1.1"))).
    apply Cut_None_iff. vm_compute. reflexivity.
Defined.

(** The parser of src/pkg/http/request.go returns a request for a buffer
    whose lines end in bare line feeds: no CR LF CR LF in it. *)
Lemma C5_bare_line_feeds_counterexample :
  Contains ("GET / HTTP/1.1" +:+ LFs +:+ LFs) CRLFCRLF = false
  ∧ LineParser.ParseRequest ("GET / HTTP/1.1" +:+ LFs +:+ LFs) None
    = Ok {| LineParser.Method := "GET"; LineParser.Path := "/";
            LineParser.Version := "HTTP/1.1"; LineParser.Headers := ∅;
            LineParser.Body := ""; LineParser.TLS := None |}.
Proof. split; vm_compute; reflexivity. Qed.

(** C2, as the code has it: the parser of src/unnamed/part_005 gives as
    body all that follows the first CR LF CR LF, whatever the headers say.
    The parser of src/pkg/http/request.go reads the buffer line by line, a
    line being what precedes a line feed: a buffer it accepts is a first
    line, lines that are not blank, a blank line and the rest, and there is
    one way only to cut it so.  The body is empty unless the header
    Content-Length is there with a non-empty value; with one, the body is
    not empty and is that rest, all that follows the first blank line,
    when the buffer has at most 4096 bytes (the start of that rest
    otherwise), whatever length the header declares. *)
Theorem C2_body_is_the_remainder (data : string) :
  (∀ a b r,
     data = a +:+ CRLFCRLF +:+ b →
     (∀ a' b', data = a' +:+ CRLFCRLF +:+ b' →
               String.length a ≤ String.length a') →
     SplitParser.ParseRequest data = Ok r → SplitParser.Body r = b)
  ∧ (∀ tlsConn r,
       LineParser.ParseRequest data tlsConn = Ok r →
       (∃ l0 hlines bl rest, Lines.framed data l0 hlines bl rest)
       ∧ ∀ l0 hlines bl rest,
           Lines.framed data l0 hlines bl rest →
           (LineParser.header (LineParser.Headers r) "Content-Length" = "" →
            LineParser.Body r = "")
           ∧ (LineParser.header (LineParser.Headers r) "Content-Length" ≠ "" →
              LineParser.Body r ≠ ""
              ∧ (∃ t, rest = LineParser.Body r +:+ t)
              ∧ (String.length data ≤ Bufio.defaultBufSize →
                 LineParser.Body r = rest))).
Proof.
  split.
  - intros a b r. apply split_parse_body.
  - intros tlsConn r Hok. split; [by eapply line_framed|].
    intros l0 hlines bl rest Hfr.
    by destruct (line_framed_parse _ _ _ _ _ _ _ Hok Hfr) as (_ & _ & ? & ?).
Qed.

Lemma C2_body_witness :
  (∃ r, SplitParser.ParseRequest
          ("POST / HTTP/1.1" +:+ CRLF +:+ "Content-Length: 2" +:+ CRLFCRLF
           +:+ "hello" +:+ CRLFCRLF +:+ "more") = Ok r
        ∧ SplitParser.Body r = "hello" +:+ CRLFCRLF +:+ "more")
  ∧ (∃ r, LineParser.ParseRequest
            ("POST / HTTP/1.1" +:+ CRLF +:+ "Content-Length: 9" +:+ CRLFCRLF
             +:+ "ab" +:+ CRLFCRLF +:+ "cd") None = Ok r
          ∧ LineParser.Body r = "ab" +:+ CRLFCRLF +:+ "cd").
Proof.
  split.
  - eexists. split; [vm_compute; reflexivity|].
    eapply (proj1 (C2_body_is_the_remainder _)
              ("POST / HTTP/1.1" +:+ CRLF +:+ "Content-Length: 2")).
    + reflexivity.
    + intros a' b' H.
      refine (Cut_first CRLFCRLF _ _ _ a' b' _ H). vm_compute. reflexivity.
    + vm_compute. reflexivity.
  - destruct (LineParser.ParseRequest
                ("POST / HTTP/1.1" +:+ CRLF +:+ "Content-Length: 9"
                 +:+ CRLFCRLF +:+ "ab" +:+ CRLFCRLF +:+ "cd") None)
      as [r|e] eqn:Hok; [|vm_compute in Hok; discriminate].
    exists r. split; [reflexivity|].
    destruct (proj2 (C2_body_is_the_remainder _) None r Hok) as [_ Hbody].
    destruct (Hbody ("POST / HTTP/1.1" +:+ String CR "")
                ["Content-Length: 9" +:+ String CR ""] (String CR "")
                ("ab" +:+ CRLFCRLF +:+ "cd")) as [_ Hsome].
    { split; [vm_compute; reflexivity|]. split; [vm_compute; reflexivity|].
      split; [|split; vm_compute; reflexivity].
      constructor; [|constructor].
      split; [vm_compute; reflexivity|vm_compute; discriminate]. }
    apply Hsome; [|vm_compute; lia].
    vm_compute in Hok. injection Hok as <-. vm_compute. discriminate.
Defined.

(** The parser of src/pkg/http/request.go drops the bytes after the blank
    line when no Content-Length header came. *)
Lemma C2_dropped_body_counterexample :
  LineParser.ParseRequest ("GET / HTTP/1.1" +:+ CRLFCRLF +:+ "hello") None
  = Ok {| LineParser.Method := "GET"; LineParser.Path := "/";
          LineParser.Version := "HTTP/1.1"; LineParser.Headers := ∅;
          LineParser.Body := ""; LineParser.TLS := None |}.
Proof. vm_compute. reflexivity. Qed.

(** C6, as the code has it (src/pkg/http/request.go): the first line is
    what precedes the first line feed.  A request is returned only when
    that line, trimmed of white space at both ends, splits at its single
    spaces into exactly three pieces, which are the method, the path and
    the version (a piece may be empty); when the buffer has a line feed and
    the first line does not split so, the result is the malformed request
    line error, as for ["GET HTTP/1.1\r\n\r\n"]; a buffer with no line feed
    fails with the error of reading the request line instead. *)
Theorem C6_request_line_has_three_pieces (data : string)
    (tlsConn : option LineParser.ConnectionState) :
  (∀ r, LineParser.ParseRequest data tlsConn = Ok r →
        ∃ l unread,
          Cut LFs data = Some (l, unread)
          ∧ Split (TrimSpace (l +:+ LFs)) " "
            = [LineParser.Method r; LineParser.Path r; LineParser.Version r])
  ∧ (∀ l unread,
       Cut LFs data = Some (l, unread) →
       length (Split (TrimSpace (l +:+ LFs)) " ") ≠ 3 →
       LineParser.ParseRequest data tlsConn
       = Err (LineParser.InvalidRequestLine (TrimSpace (l +:+ LFs))))
  ∧ (Cut LFs data = None →
     LineParser.ParseRequest data tlsConn
     = Err LineParser.ReadingRequestLine)
  ∧ LineParser.ParseRequest ("GET HTTP/1.1" +:+ CRLFCRLF) tlsConn
    = Err (LineParser.InvalidRequestLine "GET HTTP/1.1").
Proof.
  split; [intros r; apply line_request_line_ok|].
  split; [intros l unread; apply line_request_line_bad|].
  split; [apply line_no_line_feed|].
  apply (line_request_line_bad _ _ ("GET HTTP/1.1" +:+ String CR "")
           (CRLF)); vm_compute; [reflexivity|lia].
Qed.

Lemma C6_request_line_witness :
  LineParser.ParseRequest ("GET / extra HTTP/1.1" +:+ CRLFCRLF) None
  = Err (LineParser.InvalidRequestLine "GET / extra HTTP/1.1").
Proof.
  apply (proj1 (proj2 (C6_request_line_has_three_pieces
                         ("GET / extra HTTP/1.1" +:+ CRLFCRLF) None))
           ("GET / extra HTTP/1.1" +:+ String CR "") CRLF);
    vm_compute; [reflexivity|lia].
Defined.

(** A first line with two tokens between white space is accepted, with an
    empty path; and a first line of one token with no line feed after it is
    refused with another error than the malformed request line. *)
Lemma C6_two_tokens_counterexample :
  Wire.whitespaceTokens "GET  HTTP/1.1" = ["GET"; "HTTP/1.1"]
  ∧ LineParser.ParseRequest ("GET  HTTP/1.1" +:+ CRLFCRLF) None
    = Ok {| LineParser.Method := "GET"; LineParser.Path := "";
            LineParser.Version := "HTTP/1.1"; LineParser.Headers := ∅;
            LineParser.Body := ""; LineParser.TLS := None |}
  ∧ LineParser.ParseRequest "GET" None = Err LineParser.ReadingRequestLine.
Proof. repeat split; vm_compute; reflexivity. Qed.

(** C7, as the code has it.  In the parser of src/unnamed/part_005 the
    header block is cut at CR LF; a request is returned only when every
    line after the first has [": "], and the header map is then built line
    by line from what precedes and what follows the first [": "]; the first
    line without [": "] gives the malformed header error; a header block of
    the request line alone gives a request with no header.  In the parser
    of src/pkg/http/request.go a line is what precedes a line feed.  A
    buffer it accepts is a first line, lines that are not blank, a blank
    line and the rest; each of those lines, trimmed, has a [":"], and the
    header map is built line by line, in their order, from what precedes
    the first [":"] of the trimmed line and what follows it, both trimmed,
    a later line replacing an earlier one of the same name.  The first
    non-blank line without [":"] gives the malformed header error, and a
    request line followed by a blank line gives a request with no
    header. *)
Theorem C7_header_lines :
  (∀ data r,
     SplitParser.ParseRequest data = Ok r →
     ∃ head line0 lines,
       Cut CRLFCRLF data = Some (head, SplitParser.Body r)
       ∧ Split head CRLF = line0 :: lines
       ∧ Forall (λ l, is_Some (Cut ": " l)) lines
       ∧ SplitParser.Headers r
         = foldl (λ m l, match Cut ": " l with
                         | Some (n, v) => <[n := v]> m
                         | None => m
                         end) ∅ lines)
  ∧ (∀ data head body line0 lines1 bad lines2,
       Cut CRLFCRLF data = Some (head, body) →
       Split head CRLF = line0 :: lines1 ++ bad :: lines2 →
       length (Split line0 " ") = 3 →
       Forall (λ l, is_Some (Cut ": " l)) lines1 →
       Cut ": " bad = None →
       SplitParser.ParseRequest data = Err (SplitParser.InvalidHeader bad))
  ∧ (∀ data head body line0 m p v,
       Cut CRLFCRLF data = Some (head, body) →
       Split head CRLF = [line0] →
       Split line0 " " = [m; p; v] →
       SplitParser.ParseRequest data
       = Ok {| SplitParser.Method := m; SplitParser.Path := p;
               SplitParser.Version := v; SplitParser.Headers := ∅;
               SplitParser.Body := body |})
  ∧ (∀ data tlsConn r,
       LineParser.ParseRequest data tlsConn = Ok r →
       (∃ l0 hlines bl rest, Lines.framed data l0 hlines bl rest)
       ∧ ∀ l0 hlines bl rest,
           Lines.framed data l0 hlines bl rest →
           Forall (λ l, is_Some (Cut ":" (TrimSpace (l +:+ LFs)))) hlines
           ∧ LineParser.Headers r
             = foldl (λ m l, match Cut ":" (TrimSpace (l +:+ LFs)) with
                             | Some (n, v) => <[TrimSpace n := TrimSpace v]> m
                             | None => m
                             end) ∅ hlines)
  ∧ (∀ l0 goods bad tail tlsConn,
       Cut LFs l0 = None →
       length (Split (TrimSpace (l0 +:+ LFs)) " ") = 3 →
       Forall (λ l, Cut LFs l = None ∧ TrimSpace (l +:+ LFs) ≠ ""
                    ∧ is_Some (Cut ":" (TrimSpace (l +:+ LFs)))) goods →
       Cut LFs bad = None → TrimSpace (bad +:+ LFs) ≠ "" →
       Cut ":" (TrimSpace (bad +:+ LFs)) = None →
       LineParser.ParseRequest
         (l0 +:+ LFs +:+ Wire.unlines goods +:+ bad +:+ LFs +:+ tail) tlsConn
       = Err (LineParser.InvalidHeader (TrimSpace (bad +:+ LFs))))
  ∧ (∀ l0 bl tail m p v tlsConn,
       Cut LFs l0 = None → Cut LFs bl = None →
       Split (TrimSpace (l0 +:+ LFs)) " " = [m; p; v] →
       TrimSpace (bl +:+ LFs) = "" →
       LineParser.ParseRequest (l0 +:+ LFs +:+ bl +:+ LFs +:+ tail) tlsConn
       = Ok {| LineParser.Method := m; LineParser.Path := p;
               LineParser.Version := v; LineParser.Headers := ∅;
               LineParser.Body := ""; LineParser.TLS := tlsConn |}).
Proof.
  split; [|split; [|split; [|split; [|split]]]].
  - intros data r Hok.
    apply split_parse_inv in Hok as (head & line0 & lines & Hc & Hs & _ & Hh).
    apply split_parseHeaders_inv in Hh as [HF Hm].
    by exists head, line0, lines.
  - apply split_bad_header.
  - apply split_request_line_only.
  - intros data tlsConn r Hok. split; [by eapply line_framed|].
    intros l0 hlines bl rest Hfr.
    by destruct (line_framed_parse _ _ _ _ _ _ _ Hok Hfr) as (? & ? & _).
  - apply line_bad_header.
  - apply line_request_line_only.
Qed.

Lemma C7_header_lines_witness :
  SplitParser.ParseRequest
    ("GET / HTTP/1.1" +:+ CRLF +:+ "Host: a" +:+ CRLF +:+ "Accept"
     +:+ CRLFCRLF)
  = Err (SplitParser.InvalidHeader "Accept")
  ∧ SplitParser.ParseRequest ("GET / HTTP/1.1" +:+ CRLFCRLF +:+ "body")
    = Ok {| SplitParser.Method := "GET"; SplitParser.Path := "/";
            SplitParser.Version := "HTTP/1.1"; SplitParser.Headers := ∅;
            SplitParser.Body := "body" |}
  ∧ (∃ r, LineParser.ParseRequest
            ("GET / HTTP/1.1" +:+ CRLF +:+ " Host :  a:b " +:+ CRLF
             +:+ "Accept:*/*" +:+ CRLF +:+ "host:c" +:+ CRLF
             +:+ "Accept: text/html" +:+ CRLFCRLF) None = Ok r
          ∧ LineParser.Headers r
            = {[ "Host" := "a:b"; "Accept" := "text/html"; "host" := "c" ]})
  ∧ LineParser.ParseRequest
      ("GET / HTTP/1.1" +:+ String CR "" +:+ LFs
       +:+ Wire.unlines ["Host: a" +:+ String CR ""]
       +:+ "Accept" +:+ String CR "" +:+ LFs +:+ CRLF) None
    = Err (LineParser.InvalidHeader "Accept")
  ∧ LineParser.ParseRequest
      ("GET / HTTP/1.1" +:+ String CR "" +:+ LFs +:+ String CR "" +:+ LFs
       +:+ "body") None
    = Ok {| LineParser.Method := "GET"; LineParser.Path := "/";
            LineParser.Version := "HTTP/1.1"; LineParser.Headers := ∅;
            LineParser.Body := ""; LineParser.TLS := None |}.
Proof.
  destruct C7_header_lines as (_ & H2 & H3 & H4 & H5 & H6).
  split; [|split; [|split; [|split]]].
  - apply (H2 _ ("GET / HTTP/1.1" +:+ CRLF +:+ "Host: a" +:+ CRLF +:+ "Accept")
             "" "GET / HTTP/1.1" ["Host: a"] "Accept" []);
      try (vm_compute; reflexivity).
    repeat constructor. by eexists.
  - apply (H3 _ "GET / HTTP/1.1" "body" "GET / HTTP/1.1");
      vm_compute; reflexivity.
  - destruct (LineParser.ParseRequest
                ("GET / HTTP/1.1" +:+ CRLF +:+ " Host :  a:b " +:+ CRLF
                 +:+ "Accept:*/*" +:+ CRLF +:+ "host:c" +:+ CRLF
                 +:+ "Accept: text/html" +:+ CRLFCRLF) None)
      as [r|e] eqn:Hok; [|vm_compute in Hok; discriminate].
    exists r. split; [reflexivity|].
    destruct (H4 _ None r Hok) as [_ Hlines].
    destruct (Hlines ("GET / HTTP/1.1" +:+ String CR "")
                [" Host :  a:b " +:+ String CR "";
                 "Accept:*/*" +:+ String CR "";
                 "host:c" +:+ String CR "";
                 "Accept: text/html" +:+ String CR ""] (String CR "") "")
      as [_ ->].
    { split; [vm_compute; reflexivity|]. split; [vm_compute; reflexivity|].
      split; [|split; vm_compute; reflexivity].
      repeat (constructor;
              [split; [vm_compute; reflexivity|vm_compute; discriminate]|]).
      constructor. }
    vm_compute. reflexivity.
  - apply (H5 ("GET / HTTP/1.1" +:+ String CR "")
             ["Host: a" +:+ String CR ""] ("Accept" +:+ String CR "") CRLF
             None);
      try (vm_compute; reflexivity); try (vm_compute; discriminate).
    repeat constructor; try (vm_compute; discriminate).
    vm_compute. by eexists.
  - apply (H6 ("GET / HTTP/1.1" +:+ String CR "") (String CR "") "body");
      vm_compute; reflexivity.
Defined.

(** The parser of src/pkg/http/request.go reads a header from a line that
    has a colon and no colon-space, which the parser of src/unnamed/part_005
    refuses. *)
Lemma C7_colon_alone_counterexample :
  Contains "Host:example.com" ": " = false
  ∧ LineParser.ParseRequest
      ("GET / HTTP/1.1" +:+ CRLF +:+ "Host:example.com" +:+ CRLFCRLF) None
    = Ok {| LineParser.Method := "GET"; LineParser.Path := "/";
            LineParser.Version := "HTTP/1.1";
            LineParser.Headers := {[ "Host" := "example.com" ]};
            LineParser.Body := ""; LineParser.TLS := None |}
  ∧ SplitParser.ParseRequest
      ("GET / HTTP/1.1" +:+ CRLF +:+ "Host:example.com" +:+ CRLFCRLF)
    = Err (SplitParser.InvalidHeader "Host:example.com").
Proof. repeat split; vm_compute; reflexivity. Qed.

(** C1, as the code has it.  Take a message of the wire format whose
    method and version are non-empty and free of white space at their ends,
    whose method, path and version have no space and no line feed, whose
    header names have no colon, whose header names and values have no line
    feed and no white space at their ends, and which has a body if it
    declares a Content-Length.  The parser of src/pkg/http/request.go reads
    its serialization back: same method, path and version, and the header
    list as a map in which a repeated name keeps its last value.  And a
    response that carries that version and those headers is written by
    [FormatResponse] as the status line with that version, a header block,
    a blank line and the body, where the header block, in whatever order
    the map was walked, is read back by the header loop of the parser as
    the same map. *)
Theorem C1_parse_reads_back_the_wire_format (R : Wire.Message)
    (tlsConn : option LineParser.ConnectionState) :
  Wire.wellFormed R →
  ∃ r,
    LineParser.ParseRequest (Wire.serialize R) tlsConn = Ok r
    ∧ LineParser.Method r = Wire.method R
    ∧ LineParser.Path r = Wire.path R
    ∧ LineParser.Version r = Wire.version R
    ∧ LineParser.Headers r = Wire.lastWins (Wire.headers R)
    ∧ ∀ resp out,
        Resp.Version resp = LineParser.Version r →
        Resp.Headers resp = LineParser.Headers r →
        Resp.FormatResponse resp out →
        ∃ order,
          order ≡ₚ map_to_list (Wire.lastWins (Wire.headers R))
          ∧ out = Resp.statusLine (Wire.version R) (Resp.StatusCode resp)
                    (Resp.StatusText resp)
                  +:+ Resp.headerLines order +:+ CRLF +:+ Resp.Body resp
          ∧ ∀ rest,
              LineParser.readHeadersFrom (S (length order))
                (Resp.headerLines order +:+ CRLF +:+ rest) ∅
              = Ok (Wire.lastWins (Wire.headers R), rest).
Proof.
  intros Hwf.
  destruct (line_round_trip R tlsConn Hwf) as (r & Hp & Hm & Hpa & Hv & Hh & _).
  exists r. repeat (split; [done|]).
  intros resp out Hrv Hrh Hout.
  destruct (format_headers_read_back resp out) as (order & Hit & -> & Hread);
    [|done|].
  - intros k v Hkv. rewrite Hrh, Hh in Hkv. apply lastWins_elem in Hkv.
    destruct Hwf as (_ & _ & _ & Hhs & _).
    by apply (proj1 (Forall_forall _ _) Hhs).
  - exists order. unfold Resp.iteration in Hit.
    rewrite Hrh, Hh in Hit, Hread. rewrite Hrv, Hv. by repeat split.
Qed.

Lemma C1_round_trip_witness :
  ∃ r,
    LineParser.ParseRequest (Wire.serialize Sample.message) None = Ok r
    ∧ LineParser.Method r = "POST"
    ∧ LineParser.Path r = "/submit"
    ∧ LineParser.Version r = "HTTP/1.1"
    ∧ LineParser.Headers r
      = Wire.lastWins
          [("Host", "a.example"); ("X-Tag", "one"); ("Content-Length", "5");
           ("X-Tag", "two")].
Proof.
  destruct (C1_parse_reads_back_the_wire_format Sample.message None)
    as (r & H1 & H2 & H3 & H4 & H5 & _).
  - repeat split; try (vm_compute; reflexivity); try discriminate.
    repeat constructor; vm_compute; reflexivity.
  - by exists r.
Defined.

(** A message of the wire format with a declared length of zero and no
    body is refused by the parser of src/pkg/http/request.go. *)
Lemma C1_empty_body_counterexample :
  Wire.serialize Sample.emptyPost
  = "POST / HTTP/1.1" +:+ CRLF +:+ "Content-Length: 0" +:+ CRLFCRLF
  ∧ LineParser.ParseRequest (Wire.serialize Sample.emptyPost) None
    = Err LineParser.ReadingBody.
Proof. split; vm_compute; reflexivity. Qed.

(** * More of the code *)

(** ** The connection pool in use *)

Section pool_use.
Import Pool PoolUse.

Lemma run_app ops1 ops2 p : run (ops1 ++ ops2) p = run ops2 (run ops1 p).
Proof. unfold run. apply foldl_app. Qed.




Lemma puts_stored cs : ∀ p,
  (Z.of_nat (length (conns p) + length cs) ≤ maxConns p)%Z →
  run (OpPut <$> cs) p
  = {| conns := conns p ++ cs; maxConns := maxConns p; closed := closed p |}.
Proof.
  induction cs as [|c cs IH]; intros p Hle; simpl.
  - rewrite app_nil_r. by destruct p.
  - change (run (OpPut c :: (OpPut <$> cs)) p)
      with (run (OpPut <$> cs) (Put c p)).
    simpl in Hle. unfold Put.
    destruct (Z.ltb_spec (Z.of_nat (length (conns p))) (maxConns p)); [|lia].
    rewrite IH; simpl.
    + by rewrite <- app_assoc.
    + rewrite length_app. simpl. lia.
Qed.


Lemma NewConnPool_eq C p :
  NewConnPool C = Some p →
  p = {| conns := []; maxConns := C; closed := [] |} ∧ (0 ≤ C)%Z.
Proof.
  unfold NewConnPool. destruct (Z.ltb_spec C 0); [discriminate|].
  by intros [= <-].
Qed.

End pool_use.





(** X3: [CloseIdleConnections] closes every stored connection and leaves
    a pool that works again with its full capacity: after any sequence of
    calls that ends with it, the store is empty, and connections put then,
    no more than the capacity, are all stored and none of them is
    closed. *)
Theorem X3_pool_is_usable_after_CloseIdleConnections (C : Z)
    (p0 : Pool.ConnPool) (ops : list Pool.Op) (cs : list Pool.Conn) :
  Pool.NewConnPool C = Some p0 →
  (Z.of_nat (length cs) ≤ C)%Z →
  Pool.conns (Pool.run (ops ++ [Pool.OpCloseIdle]) p0) = []
  ∧ Pool.closed (Pool.run (ops ++ [Pool.OpCloseIdle]) p0)
    = Pool.closed (Pool.run ops p0) ++ Pool.conns (Pool.run ops p0)
  ∧ Pool.conns
      (Pool.run (ops ++ [Pool.OpCloseIdle] ++ (Pool.OpPut <$> cs)) p0) = cs
  ∧ Pool.closed
      (Pool.run (ops ++ [Pool.OpCloseIdle] ++ (Pool.OpPut <$> cs)) p0)
    = Pool.closed (Pool.run (ops ++ [Pool.OpCloseIdle]) p0).
Proof.
  intros Hnew Hle. apply NewConnPool_eq in Hnew as [-> H0].
  destruct (run_bounded ops
              {| Pool.conns := []; Pool.maxConns := C; Pool.closed := [] |})
    as [_ Hmax]; [simpl; lia|]. simpl in Hmax.
  rewrite !run_app. set (p := Pool.run ops _) in *.
  change (Pool.run [Pool.OpCloseIdle] p) with (Pool.CloseIdleConnections p).
  split; [done|]. split; [done|].
  rewrite puts_stored by (simpl; lia). done.
Qed.

Lemma X3_pool_reuse_witness :
  Pool.conns
    (Pool.run
       ([Pool.OpPut 1; Pool.OpPut 2] ++ [Pool.OpCloseIdle]
        ++ (Pool.OpPut <$> [3; 4]))
       {| Pool.conns := []; Pool.maxConns := 2; Pool.closed := [] |})
  = [3; 4].
Proof.
  destruct (X3_pool_is_usable_after_CloseIdleConnections 2 _
              [Pool.OpPut 1; Pool.OpPut 2] [3; 4] eq_refl)
    as (_ & _ & H & _); [simpl; lia|exact H].
Defined.

(** ** Registering routes and middleware *)

Section registration.
Context {W : Type}.

Lemma plain_lookup_AddRoute (r : PlainRouter.Router W) m p h m' p' :
  plain_lookup (PlainRouter.AddRoute m p h r) m' p'
  = if decide (m' = m ∧ p' = p) then Some h else plain_lookup r m' p'.
Proof.
  unfold plain_lookup, PlainRouter.AddRoute. simpl.
  destruct (decide (m' = m)) as [->|Hm].
  - rewrite lookup_insert_eq. simpl.
    destruct (decide (p' = p)) as [->|Hp].
    + rewrite lookup_insert_eq. by rewrite decide_True.
    + rewrite lookup_insert_ne by done. rewrite decide_False by tauto.
      by destruct (PlainRouter.routes r !! m).
  - rewrite lookup_insert_ne by done. by rewrite decide_False by tauto.
Qed.

Lemma plain_dispatch (r : PlainRouter.Router W) req :
  PlainRouter.HandleRequest r req
  = match plain_lookup r (SplitParser.Method req) (SplitParser.Path req) with
    | Some h => h req
    | None => ret Resp.NotFoundResponse
    end.
Proof.
  destruct (plain_lookup r _ _) as [h|] eqn:E.
  - by apply plain_hit.
  - by apply plain_miss.
Qed.

Lemma tls_lookup_AddRoute_any (r : TLSRouter.Router W) m p h m' p' :
  tls_lookup (TLSRouter.AddRoute m p h r) m' p'
  = if decide (m' = m ∧ p' = p) then Some h else tls_lookup r m' p'.
Proof.
  unfold tls_lookup, TLSRouter.AddRoute. simpl.
  destruct (decide (m' = m)) as [->|Hm].
  - rewrite lookup_insert_eq. simpl.
    destruct (decide (p' = p)) as [->|Hp].
    + rewrite lookup_insert_eq. by rewrite decide_True.
    + rewrite lookup_insert_ne by done. rewrite decide_False by tauto.
      by destruct (TLSRouter.routes r !! m).
  - rewrite lookup_insert_ne by done. by rewrite decide_False by tauto.
Qed.

Lemma mw_lookup_AddRoute (r : MwRouter.Router W) m p h m' p' :
  MwRouter.lookup (MwRouter.AddRoute m p h r) m' p'
  = if decide (m' = m ∧ p' = p) then Some h else MwRouter.lookup r m' p'.
Proof.
  unfold MwRouter.lookup, MwRouter.AddRoute. simpl.
  destruct (decide (m' = m)) as [->|Hm].
  - rewrite lookup_insert_eq. simpl.
    destruct (decide (p' = p)) as [->|Hp].
    + rewrite lookup_insert_eq. by rewrite decide_True.
    + rewrite lookup_insert_ne by done. rewrite decide_False by tauto.
      by destruct (MwRouter.routes r !! m).
  - rewrite lookup_insert_ne by done. by rewrite decide_False by tauto.
Qed.

Lemma mw_dispatch (r : MwRouter.Router W) req :
  MwRouter.HandleRequest r req
  = match MwRouter.lookup r (SplitParser.Method req) (SplitParser.Path req)
    with
    | Some h => foldr (λ mw h, mw h) h (MwRouter.middleware r) req
    | None => ret Resp.NotFoundResponse
    end.
Proof.
  unfold MwRouter.HandleRequest, MwRouter.lookup.
  destruct (MwRouter.routes r !! _) as [handlers|]; simpl; [|done].
  destruct (handlers !! _) as [h|]; [|done].
  exact (f_equal (λ f, f req) (wrapFrom_all (MwRouter.middleware r) h)).
Qed.

End registration.

(** X4: in the router of src/pkg/http/router.go, [AddRoute method path h]
    makes [h] the handler of exactly that method and path: a request with
    that method and that path is answered by [h], an earlier handler of
    the pair being replaced, and every other request is answered as
    before. *)
Theorem X4_AddRoute_registers_one_pair {W : Type}
    (r : PlainRouter.Router W) (method path : string)
    (h : PlainRouter.HandlerFunc W) (req : SplitParser.Request) :
  PlainRouter.HandleRequest (PlainRouter.AddRoute method path h r) req
  = if decide (SplitParser.Method req = method ∧ SplitParser.Path req = path)
    then h req
    else PlainRouter.HandleRequest r req.
Proof.
  rewrite !plain_dispatch, plain_lookup_AddRoute.
  by destruct (decide _).
Qed.

(** X5: in the router of src/unnamed/part_006 routes and middleware are
    registered independently.  For a request that passes the HTTPS gate
    and has the method and path of a route registered with [AddRoute],
    dispatch runs that route's handler, the last one registered for the
    pair, wrapped in all the middleware registered so far, whether a
    middleware was registered before the route or after it. *)
Theorem X5_route_and_middleware_registration {W : Type}
    (r : TLSRouter.Router W) (h0 h : TLSRouter.HandlerFunc W)
    (mw : TLSRouter.MiddlewareFunc W) (req : LineParser.Request) :
  passes_gate req →
  TLSRouter.HandleRequest
    (TLSRouter.Use mw
       (TLSRouter.AddRoute (LineParser.Method req) (LineParser.Path req) h
          (TLSRouter.AddRoute (LineParser.Method req) (LineParser.Path req)
             h0 r))) req
  = foldr (λ mw h, mw h) h (TLSRouter.middleware r ++ [mw]) req
  ∧ TLSRouter.HandleRequest
      (TLSRouter.AddRoute (LineParser.Method req) (LineParser.Path req) h
         (TLSRouter.Use mw r)) req
    = foldr (λ mw h, mw h) h (TLSRouter.middleware r ++ [mw]) req.
Proof.
  intros Hg. split.
  - apply tls_hit; [done|].
    by rewrite tls_lookup_Use, tls_lookup_AddRoute.
  - apply tls_hit; [done|]. by rewrite tls_lookup_AddRoute.
Qed.

Lemma X5_registration_witness :
  (TLSRouter.HandleRequest
     (TLSRouter.AddRoute "GET" "/hello" Sample.helloHandler
        (TLSRouter.Use Sample.mwA TLSRouter.NewRouter))
     (Sample.hello (Some Sample.tlsState)) []).2
  = ["A-before"; "H"; "A-after"].
Proof.
  destruct (X5_route_and_middleware_registration TLSRouter.NewRouter
              Sample.helloHandler Sample.helloHandler Sample.mwA
              (Sample.hello (Some Sample.tlsState))) as [_ H];
    [left; discriminate|].
  simpl in H. rewrite H. reflexivity.
Defined.


(** X7: [ParseRequest] of src/pkg/http/request.go stores the TLS state it
    is given, and with it decides what the router of src/unnamed/part_006
    does: a request parsed with no TLS state and a path outside [/static/]
    is answered by the redirect to ["https://"], its Host header and its
    path, and no handler runs; a request parsed with a TLS state is never
    redirected. *)
Theorem X7_parse_then_dispatch {W : Type} (r : TLSRouter.Router W)
    (data : string) (tlsConn : option LineParser.ConnectionState)
    (req : LineParser.Request) (w : W) :
  LineParser.ParseRequest data tlsConn = Ok req →
  LineParser.TLS req = tlsConn
  ∧ (tlsConn = None →
     HasPrefix (LineParser.Path req) "/static/" = false →
     TLSRouter.HandleRequest r req w
     = (Resp.SetHeader "Location"
          ("https://" +:+ LineParser.header (LineParser.Headers req) "Host"
           +:+ LineParser.Path req)
          {| Resp.Version := "HTTP/1.1"; Resp.StatusCode := 301;
             Resp.StatusText := "Moved Permanently"; Resp.Headers := ∅;
             Resp.Body := "" |}, w))
  ∧ (tlsConn ≠ None →
     TLSRouter.HandleRequest r req w
     = match tls_lookup r (LineParser.Method req) (LineParser.Path req) with
       | Some H => foldr (λ mw h, mw h) H (TLSRouter.middleware r) req w
       | None => (Resp.NotFoundResponse, w)
       end).
Proof.
  intros Hok.
  assert (Htls : LineParser.TLS req = tlsConn).
  { apply line_parse_ok in Hok as (r0 & H0 & _ & _ & _ & _ & <- & _).
    by apply ParseRequestFrom_inv in H0 as (? & ? & ? & _ & _ & _ & ? & _). }
  split; [done|]. split.
  - intros -> Hp. by rewrite tls_redirect.
  - intros Hne. assert (Hg : passes_gate req) by (left; congruence).
    destruct (tls_lookup r _ _) as [H|] eqn:E.
    + by rewrite (tls_hit r req H Hg E).
    + by rewrite (tls_miss r req Hg E).
Qed.

Lemma X7_parse_then_dispatch_witness :
  Resp.StatusCode
    (TLSRouter.HandleRequest Sample.router (Sample.missing None) []).1
  = 301%Z.
Proof.
  destruct (X7_parse_then_dispatch Sample.router
              ("GET /missing HTTP/1.1" +:+ CRLFCRLF) None
              (Sample.missing None) []) as (_ & H & _);
    [vm_compute; reflexivity|].
  rewrite (H eq_refl eq_refl). reflexivity.
Defined.

(** ** What goes on the wire *)

Section wire.
Import Resp.

Lemma iteration_singleton (m : gmap string string) k v order :
  m = {[ k := v ]} → iteration m order ↔ order = [(k, v)].
Proof.
  intros ->. unfold iteration. rewrite map_to_list_singleton.
  split; [apply Permutation_singleton_r|by intros ->].
Qed.

Lemma headerLines_singleton k v :
  headerLines [(k, v)] = k +:+ ": " +:+ v +:+ CRLF.
Proof. unfold headerLines, headerLine. simpl. apply append_nil_r. Qed.

Lemma FormatResponse_one_header r k v out :
  Headers r = {[ k := v ]} →
  FormatResponse r out
  ↔ out = statusLine (Version r) (StatusCode r) (StatusText r)
          +:+ (k +:+ ": " +:+ v +:+ CRLF) +:+ CRLF +:+ Body r.
Proof.
  intros Hh. unfold FormatResponse. split.
  - intros (order & Hit & ->).
    apply (iteration_singleton _ k v) in Hit as ->; [|done].
    by rewrite FormatResponseIn_eq, headerLines_singleton.
  - intros ->. exists [(k, v)]. split.
    + by apply (iteration_singleton _ k v).
    + by rewrite FormatResponseIn_eq, headerLines_singleton.
Qed.

Lemma handleHTTPError_bytes code message out :
  FormatResponse (Server.handleHTTPError (Server.NewHTTPError code message))
    out
  ↔ out = "HTTP/1.1 " +:+ Itoa code +:+ " " +:+ Status.Text code +:+ CRLF
          +:+ "Content-Length: " +:+ Itoa (len message) +:+ CRLFCRLF
          +:+ message.
Proof.
  rewrite (FormatResponse_one_header _ "Content-Length" (Itoa (len message)))
    by apply insert_empty.
  match goal with |- out = ?x ↔ out = ?y => replace x with y; [done|] end.
  simpl. unfold statusLine, StatusTextOf. simpl.
  repeat (rewrite append_assoc; simpl). reflexivity.
Qed.

Lemma transparent_foldr {W} (mws : list (MwRouter.MiddlewareFunc W)) h req w :
  Forall Middleware.transparent mws →
  ∃ w1 w2, foldr (λ mw h, mw h) h mws req w = ((h req w1).1, w2).
Proof.
  intros Hall. revert w. induction Hall as [|mw mws Hmw _ IH]; intros w.
  - exists w, (h req w).2. simpl. by destruct (h req w).
  - simpl. destruct (Hmw (foldr (λ mw h, mw h) h mws) req w)
      as (w1 & w2 & ->).
    destruct (IH w1) as (w3 & w4 & ->). by exists w3, w2.
Qed.

End wire.

(** X8: [Write] never reads the field StatusText: what it writes for a
    response is what [FormatResponse] writes for the same response with
    the reason phrase of the registry (src/pkg/http/status/status.go) in
    that field; so the two agree on every response whose StatusText is
    the text of its StatusCode, whether its body is empty or not. *)
Theorem X8_Write_is_FormatResponse_with_the_registry_text
    (r : Resp.Response) (out : string) :
  Resp.Write r out
  ↔ Resp.FormatResponse
      {| Resp.Version := Resp.Version r; Resp.StatusCode := Resp.StatusCode r;
         Resp.StatusText := Status.Text (Resp.StatusCode r);
         Resp.Headers := Resp.Headers r; Resp.Body := Resp.Body r |} out.
Proof.
  unfold Resp.Write, Resp.FormatResponse.
  split; intros (order & Hit & ->); exists order; (split; [done|]);
    by rewrite FormatResponseIn_eq.
Qed.

(** X9: the error response of src/cmd/server/main.go has one serialization.
    For every code and message, the bytes [handleHTTPError] gives to
    [conn.Write] are the status line with the code and its registry text
    (empty for a code the registry does not have), the one header
    Content-Length with the length of the message, a blank line and the
    message. *)
Theorem X9_error_response_bytes (code : Z) (message out : string) :
  Resp.FormatResponse
    (Server.handleHTTPError (Server.NewHTTPError code message)) out
  ↔ out = "HTTP/1.1 " +:+ Itoa code +:+ " " +:+ Status.Text code +:+ CRLF
          +:+ "Content-Length: " +:+ Itoa (len message) +:+ CRLFCRLF
          +:+ message.
Proof. apply handleHTTPError_bytes. Qed.

(** X10: what [handleConnection] of src/cmd/server/main.go answers when
    no request can be handled.  Bytes that do not parse get exactly the
    400 response with the body ["Invalid request"], and no handler runs; a
    read that timed out gets exactly the 408 response with the body
    ["Request timeout"]; after any other read error nothing is written.
    When the bytes parse, what is written is a serialization of the
    response the router gives.  In all four cases the connection is put
    into the pool once. *)
Theorem X10_handleConnection_answers {W Request E : Type}
    (ParseRequest : string → result Request E)
    (HandleRequest : Request → M W Resp.Response)
    (conn : Pool.Conn) (w : W) (connPool : Pool.ConnPool) :
  (∀ data e,
     ParseRequest data = Err e →
     let outcome :=
       Server.handleConnection ParseRequest HandleRequest conn
         (Server.ReadBytes data) w connPool in
     outcome.1.2 = w ∧ outcome.2 = Pool.Put conn connPool
     ∧ ∀ bytes,
         Server.written outcome bytes
         ↔ bytes = "HTTP/1.1 400 Bad Request" +:+ CRLF
                   +:+ "Content-Length: 15" +:+ CRLFCRLF
                   +:+ "Invalid request")
  ∧ (let outcome :=
       Server.handleConnection ParseRequest HandleRequest conn
         Server.ReadTimeout w connPool in
     outcome.1.2 = w ∧ outcome.2 = Pool.Put conn connPool
     ∧ ∀ bytes,
         Server.written outcome bytes
         ↔ bytes = "HTTP/1.1 408 Request Timeout" +:+ CRLF
                   +:+ "Content-Length: 15" +:+ CRLFCRLF
                   +:+ "Request timeout")
  ∧ (let outcome :=
       Server.handleConnection ParseRequest HandleRequest conn
         Server.ReadError w connPool in
     outcome.1.2 = w ∧ outcome.2 = Pool.Put conn connPool
     ∧ ∀ bytes, ¬ Server.written outcome bytes)
  ∧ (∀ data request,
       ParseRequest data = Ok request →
       let outcome :=
         Server.handleConnection ParseRequest HandleRequest conn
           (Server.ReadBytes data) w connPool in
       outcome.1.2 = (HandleRequest request w).2
       ∧ outcome.2 = Pool.Put conn connPool
       ∧ ∀ bytes,
           Server.written outcome bytes
           ↔ Resp.FormatResponse (HandleRequest request w).1 bytes).
Proof.
  split; [|split; [|split]].
  - intros data e He. unfold Server.handleConnection, Server.written.
    rewrite He. simpl. repeat split; try done.
    + intros H. by apply handleHTTPError_bytes in H.
    + intros ->. by apply handleHTTPError_bytes.
  - unfold Server.handleConnection, Server.written. simpl.
    repeat split; try done.
    + intros H. by apply handleHTTPError_bytes in H.
    + intros ->. by apply handleHTTPError_bytes.
  - unfold Server.handleConnection, Server.written. simpl.
    repeat split; try done. by intros bytes [].
  - intros data request Hok. unfold Server.handleConnection, Server.written.
    rewrite Hok. destruct (HandleRequest request w) as [resp w']. simpl.
    by repeat split.
Qed.

Lemma X10_bad_request_witness :
  Server.written
    (Server.handleConnection SplitParser.ParseRequest
       (PlainRouter.HandleRequest Sample.plainRouter) 1
       (Server.ReadBytes "garbage") []
       {| Pool.conns := []; Pool.maxConns := 100; Pool.closed := [] |})
    ("HTTP/1.1 400 Bad Request" +:+ CRLF +:+ "Content-Length: 15"
     +:+ CRLFCRLF +:+ "Invalid request").
Proof.
  destruct (X10_handleConnection_answers SplitParser.ParseRequest
              (PlainRouter.HandleRequest Sample.plainRouter) 1 []
              {| Pool.conns := []; Pool.maxConns := 100; Pool.closed := [] |})
    as (H & _).
  destruct (H "garbage" SplitParser.NoBodySeparator) as (_ & _ & Hw);
    [vm_compute; reflexivity|].
  by apply Hw.
Defined.

(** X11: the echo route end to end (src/cmd/server/main.go with the parser
    of src/unnamed/part_005 and the router of src/unnamed/part_007).  When
    [POST /echo] is routed to [handleEcho] and every registered middleware
    hands on the response of the handler it wraps, as LoggingMiddleware
    does, a buffer that parses as a POST to /echo is answered with
    200 OK, the headers Content-Type: text/plain and Content-Length: the
    length of what follows the first CR LF CR LF in the buffer, in either
    order, and exactly those bytes as the body. *)
Theorem X11_echo_returns_the_request_body {W : Type}
    (r : MwRouter.Router W) (data a b : string) (req : SplitParser.Request)
    (conn : Pool.Conn) (w : W) (connPool : Pool.ConnPool) (bytes : string) :
  MwRouter.lookup r "POST" "/echo" = Some Server.handleEcho →
  Forall Middleware.transparent (MwRouter.middleware r) →
  data = a +:+ CRLFCRLF +:+ b →
  (∀ a' b', data = a' +:+ CRLFCRLF +:+ b' →
            String.length a ≤ String.length a') →
  SplitParser.ParseRequest data = Ok req →
  SplitParser.Method req = "POST" → SplitParser.Path req = "/echo" →
  Server.written
    (Server.handleConnection SplitParser.ParseRequest
       (MwRouter.HandleRequest r) conn (Server.ReadBytes data) w connPool)
    bytes →
  ∃ order,
    order ≡ₚ [("Content-Type", "text/plain");
              ("Content-Length", Itoa (len b))]
    ∧ bytes = "HTTP/1.1 200 OK" +:+ CRLF +:+ Resp.headerLines order +:+ CRLF
              +:+ b.
Proof.
  intros Hroute Hmws Hdata Hfirst Hok Hm Hp.
  pose proof (split_parse_body data a b req Hdata Hfirst Hok) as Hbody.
  unfold Server.written, Server.handleConnection. rewrite Hok.
  rewrite mw_dispatch, Hm, Hp, Hroute.
  destruct (transparent_foldr (MwRouter.middleware r) Server.handleEcho req w
              Hmws) as (w1 & w2 & ->).
  intros Hw. simpl in Hw. destruct Hw as (order & Hit & ->).
  exists order. split.
  - unfold Resp.iteration in Hit. simpl in Hit. rewrite Hit, Hbody.
    rewrite insert_empty.
    rewrite map_to_list_insert by (by rewrite lookup_singleton_ne).
    rewrite map_to_list_singleton. apply Permutation_swap.
  - rewrite FormatResponseIn_eq.
    cbn [Resp.Version Resp.StatusCode Resp.StatusText Resp.Body].
    rewrite Hbody. reflexivity.
Qed.

(** ** Static files *)

Section static.
#[local] Arguments String.prefix : simpl never.
#[local] Arguments Cut : simpl never.
Import Static.

Lemma Cut_char_cons c d s :
  Cut (String c "") (String d s)
  = if bool_decide (c = d) then Some ("", s)
    else match Cut (String c "") s with
         | Some (a, b) => Some (String d a, b)
         | None => None
         end.
Proof. rewrite Cut_cons, prefix_char. by destruct (bool_decide (c = d)). Qed.

Lemma Cut_char_cons_None c d s :
  Cut (String c "") (String d s) = None ↔ c ≠ d ∧ Cut (String c "") s = None.
Proof.
  rewrite Cut_char_cons. destruct (bool_decide_reflect (c = d)) as [->|Hne].
  - split; [discriminate|by intros [? _]].
  - destruct (Cut (String c "") s) as [[a b]|].
    + split; [discriminate|by intros [_ ?]].
    + by split.
Qed.

Lemma Cut_char_rev c s :
  Cut (String c "") s = None → Cut (String c "") (String.rev s) = None.
Proof.
  induction s as [|d s IH]; [done|].
  intros [Hne Hs]%Cut_char_cons_None.
  rewrite rev_cons, (Cut_char_append _ _ _ (IH Hs)), Cut_char_cons.
  rewrite bool_decide_false by done. reflexivity.
Qed.

Lemma extScan_dot x : ∀ seen rest,
  Cut "." x = None → Cut "/" x = None →
  extScan (x +:+ String "." rest) seen = String "." (String.rev_app x seen).
Proof.
  induction x as [|d x IH]; intros seen rest Hdot Hsl; simpl.
  - reflexivity.
  - apply Cut_char_cons_None in Hdot as [Hd Hdot].
    apply Cut_char_cons_None in Hsl as [Hs Hsl].
    replace (Ascii.eqb d "/") with false
      by (symmetry; apply Ascii.eqb_neq; congruence).
    replace (Ascii.eqb d ".") with false
      by (symmetry; apply Ascii.eqb_neq; congruence).
    by apply IH.
Qed.

Lemma Ext_of_extension stem e :
  Cut "." e = None → Cut "/" e = None →
  Ext (stem +:+ "." +:+ e) = "." +:+ e.
Proof.
  intros Hdot Hsl. unfold Ext.
  rewrite rev_append, rev_append, append_assoc.
  change (String.rev ".") with ".".
  change ("." +:+ String.rev stem) with (String "." (String.rev stem)).
  rewrite (extScan_dot (String.rev e)) by (by apply Cut_char_rev).
  rewrite rev_app_eq, rev_involutive, append_nil_r. reflexivity.
Qed.

Lemma Contains_after_static t :
  Contains ("/static" +:+ t) ".." = Contains t "..".
Proof.
  unfold Contains. simpl.
  do 7 (rewrite Cut_cons, prefix_cons;
        match goal with |- context [ascii_dec ?a ?b] =>
          destruct (ascii_dec a b) as [?|_]; [discriminate|]
        end).
  repeat match goal with
         | |- context [match Cut ".." t with _ => _ end] =>
             destruct (Cut ".." t) as [[? ?]|]
         end; reflexivity.
Qed.

Lemma filePathOf_dots req :
  Contains (SplitParser.Path req) ".." = true →
  Contains (filePathOf req) ".." = true.
Proof.
  intros Hc. unfold filePathOf, TrimPrefix, HasPrefix.
  destruct (String.prefix "/static" (SplitParser.Path req)) eqn:Hp.
  - apply prefix_inv in Hp as [t Ht]. rewrite Ht in *.
    rewrite Contains_after_static in Hc.
    change (String.length "/static") with (String.length "/static").
    rewrite sliceFrom_append.
    destruct t as [|c [|d t]]; try discriminate.
    + destruct (String.eqb (String c "") "/") eqn:E; [|done].
      apply String.eqb_eq in E. by injection E as ->.
    + simpl. by destruct (Ascii.eqb c "/").
  - destruct (SplitParser.Path req) as [|c [|d t]]; try discriminate.
    + destruct (String.eqb (String c "") "/") eqn:E; [|done].
      apply String.eqb_eq in E. by injection E as ->.
    + simpl. by destruct (Ascii.eqb c "/").
Qed.

End static.

(** X12: the static file handler of src/unnamed/part_003 answers every
    request whose path has two dots in a row with the 404 response,
    whatever is on the disk: no file is opened and nothing is printed. *)
Theorem X12_static_handler_refuses_dot_dot
    (TypeByExtension : string → string) (Join : string → string → string)
    (files : string → Static.FileResult) (basePath : string)
    (req : SplitParser.Request) (out : list string) :
  Contains (SplitParser.Path req) ".." = true →
  Static.StaticFileHandler TypeByExtension Join files basePath req out
  = (Resp.NotFoundResponse, out).
Proof.
  intros Hc. unfold Static.StaticFileHandler.
  by rewrite (filePathOf_dots req Hc).
Qed.

Lemma X12_dot_dot_witness :
  Static.StaticFileHandler (λ _, "") (λ base file, base +:+ file)
    (λ _, Static.Content "secret") "/srv/public"
    {| SplitParser.Method := "GET";
       SplitParser.Path := "/static/../../etc/passwd";
       SplitParser.Version := "HTTP/1.1"; SplitParser.Headers := ∅;
       SplitParser.Body := "" |} []
  = (Resp.NotFoundResponse, []).
Proof.
  apply X12_static_handler_refuses_dot_dot. vm_compute. reflexivity.
Defined.

(** X13: what the static file handler of src/unnamed/part_003 declares
    about the body.  Every answer but the 500 one has the header
    Content-Length with the decimal length of its body: the 404 answers,
    and the 200 answer, whose body is the content of the file at
    [Join basePath filePath] and whose Content-Type is [getContentType] of
    that path.  The 500 answer has a body of 25 bytes and no
    Content-Length header. *)
Theorem X13_static_handler_declares_the_body_length
    (TypeByExtension : string → string) (Join : string → string → string)
    (files : string → Static.FileResult) (basePath : string)
    (req : SplitParser.Request) (out : list string) :
  let resp :=
    (Static.StaticFileHandler TypeByExtension Join files basePath req out).1
  in
  (Resp.Headers resp !! "Content-Length"
   = Some (Itoa (len (Resp.Body resp)))
   ∨ (resp = Static.InternalServerErrorResponse
      ∧ Resp.Headers resp !! "Content-Length" = None
      ∧ len (Resp.Body resp) = 25%Z))
  ∧ (∀ content,
       Contains (Static.filePathOf req) ".." = false →
       files (Join basePath (Static.filePathOf req))
       = Static.Content content →
       Resp.StatusCode resp = 200%Z ∧ Resp.StatusText resp = "OK"
       ∧ Resp.Body resp = content
       ∧ Resp.Headers resp
         = {[ "Content-Type" :=
                Static.getContentType TypeByExtension
                  (Join basePath (Static.filePathOf req));
              "Content-Length" := Itoa (len content) ]}).
Proof.
  intros resp. subst resp. unfold Static.StaticFileHandler. split.
  - destruct (Contains _ ".."); [by left|].
    destruct (files _); simpl; try (by left); by right.
  - intros content Hc Hf. rewrite Hc, Hf. simpl. by repeat split.
Qed.

(** X14: [getContentType] of src/unnamed/part_003 never gives the empty
    string, whatever the tables of the machine say, and it depends on the
    extension alone: for a path that ends in a dot and an extension with
    no dot and no slash, the type is that of the extension by itself, the
    type of the machine's table if it has one and the type of the
    function's own list otherwise. *)
Theorem X14_getContentType_is_total_on_extensions
    (TypeByExtension : string → string) (path : string) :
  Static.getContentType TypeByExtension path ≠ ""
  ∧ (∀ stem e,
       Contains e "." = false → Contains e "/" = false →
       Static.Ext (stem +:+ "." +:+ e) = "." +:+ e
       ∧ Static.getContentType TypeByExtension (stem +:+ "." +:+ e)
         = Static.getContentType TypeByExtension ("." +:+ e)).
Proof.
  split.
  - unfold Static.getContentType.
    destruct (String.eqb (TypeByExtension (Static.Ext path)) "") eqn:E;
      simpl.
    + repeat match goal with
             | |- context [if ?b then _ else _] => destruct b
             end; discriminate.
    + by apply String.eqb_neq in E.
  - intros stem e He1 He2. apply Contains_false in He1, He2.
    pose proof (Ext_of_extension stem e He1 He2) as H1.
    pose proof (Ext_of_extension "" e He1 He2) as H2.
    change ("" +:+ "." +:+ e) with ("." +:+ e) in H2.
    split; [done|]. unfold Static.getContentType. by rewrite H1, H2.
Qed.

Lemma X14_content_type_witness :
  Static.getContentType (λ _, "") "/srv/public/css/site.min.css"
  = Static.getContentType (λ _, "") ".css".
Proof.
  exact (proj2 (proj2 (X14_getContentType_is_total_on_extensions (λ _, "") "")
                  "/srv/public/css/site.min" "css" eq_refl eq_refl)).
Defined.

(** ** What the parsers return *)

Section pieces.
#[local] Arguments String.prefix : simpl never.
#[local] Arguments Cut : simpl never.
#[local] Arguments Split : simpl never.

(** The separator does not occur in a part of a string it does not occur
    in. *)
Lemma Cut_None_sub sep a x b :
  Cut sep (a +:+ x +:+ b) = None → Cut sep x = None.
Proof.
  rewrite !Cut_None_iff. intros H a' b' ->. apply (H (a +:+ a') (b' +:+ b)).
  by rewrite !append_assoc.
Qed.

(** No piece of [Split] has the separator in it. *)
Lemma Split_pieces_free sep n : ∀ s,
  sep ≠ "" → String.length s ≤ n →
  Forall (λ p, Cut sep p = None) (Split s sep).
Proof.
  induction n as [|n IH]; intros s Hsep Hn; rewrite Split_unfold by done.
  - destruct s; [|simpl in Hn; lia].
    destruct (Cut sep "") as [[a b]|] eqn:E.
    + apply Cut_sound in E. destruct a, sep; try discriminate. done.
    + by repeat constructor.
  - destruct (Cut sep s) as [[a b]|] eqn:E.
    + constructor; [by eapply Cut_before_free|].
      apply IH; [done|].
      pose proof (Cut_shorter _ _ _ _ Hsep E). lia.
    + by repeat constructor.
Qed.

Lemma Split_three_inv line a b c :
  Split line " " = [a; b; c] → line = a +:+ " " +:+ b +:+ " " +:+ c.
Proof.
  rewrite Split_unfold by discriminate.
  destruct (Cut " " line) as [[x1 r1]|] eqn:E1; [|discriminate].
  rewrite Split_unfold by discriminate.
  destruct (Cut " " r1) as [[x2 r2]|] eqn:E2; [|discriminate].
  rewrite Split_unfold by discriminate.
  destruct (Cut " " r2) as [[x3 r3]|] eqn:E3.
  - rewrite Split_unfold by discriminate.
    destruct (Cut " " r3) as [[? ?]|]; discriminate.
  - intros [= <- <- <-]. apply Cut_sound in E1, E2. by rewrite E1, E2.
Qed.

(** A two-byte separator of two different bytes cannot begin in a string
    and end after it. *)
Lemma Cut2_snoc c1 c2 a :
  c1 ≠ c2 →
  Cut (String c1 (String c2 "")) a = None →
  Cut (String c1 (String c2 "")) (a +:+ String c1 "") = None.
Proof.
  intros Hne. induction a as [|d a IH]; intros Ha.
  - simpl. rewrite Cut_cons, prefix_cons.
    destruct (ascii_dec c1 c1); [|done].
    rewrite Cut_nil. reflexivity.
  - rewrite Cut_cons in Ha.
    destruct (String.prefix _ (String d a)) eqn:Hp; [discriminate|].
    destruct (Cut _ a) as [[? ?]|] eqn:Hc; [discriminate|].
    simpl. rewrite Cut_cons, (IH eq_refl).
    replace (String.prefix (String c1 (String c2 ""))
               (String d (a +:+ String c1 ""))) with false; [done|].
    symmetry. rewrite prefix_cons in *.
    destruct (ascii_dec c1 d) as [->|]; [|done].
    destruct a as [|e a]; simpl.
    + rewrite prefix_cons. destruct (ascii_dec c2 d); [congruence|done].
    + rewrite prefix_cons in *. destruct (ascii_dec c2 e); [|done].
      by rewrite prefix_nil in Hp.
Qed.

Lemma Cut2_here c1 c2 a b :
  c1 ≠ c2 →
  Cut (String c1 (String c2 "")) a = None →
  Cut (String c1 (String c2 "")) (a +:+ String c1 (String c2 "") +:+ b)
  = Some (a, b).
Proof.
  intros Hne Ha.
  apply (Cut_here (String c1 "") c2 a b). by apply Cut2_snoc.
Qed.

Lemma Split_app_CRLF n : ∀ a b,
  String.length a ≤ n →
  Split (a +:+ CRLF +:+ b) CRLF = Split a CRLF ++ Split b CRLF.
Proof.
  induction n as [|n IH]; intros a b Hn;
    rewrite (Split_unfold (a +:+ _)), (Split_unfold a) by discriminate.
  - destruct a; [|simpl in Hn; lia].
    change ("" +:+ CRLF +:+ b) with (CRLF +:+ b). by rewrite Cut_prefix.
  - destruct (Cut CRLF a) as [[x y]|] eqn:E.
    + rewrite (Cut_append _ _ _ _ _ E). simpl. f_equal. apply IH.
      assert (CRLF ≠ "") as Hsep by discriminate.
      pose proof (Cut_shorter _ _ _ _ Hsep E). lia.
    + unfold CRLF at 1 2. by rewrite Cut2_here.
Qed.

End pieces.

Section split_result.
#[local] Arguments String.prefix : simpl never.
#[local] Arguments Cut : simpl never.
#[local] Arguments Split : simpl never.
Import SplitParser.

Lemma header_from_line lines : ∀ (m : gmap string string) k v,
  foldl (λ m l, match Cut ": " l with
                | Some (n, v) => <[n := v]> m
                | None => m
                end) m lines !! k = Some v →
  m !! k = Some v ∨ ∃ l, l ∈ lines ∧ Cut ": " l = Some (k, v).
Proof.
  induction lines as [|l lines IH]; intros m k v; simpl; [by left|].
  intros H. apply IH in H as [H|(l' & Hin & Hc)].
  - destruct (Cut ": " l) as [[n v']|] eqn:E; [|by left].
    destruct (decide (n = k)) as [->|Hne].
    + rewrite lookup_insert_eq in H. injection H as ->.
      right. exists l. split; [left|done].
    + rewrite lookup_insert_ne in H by done. by left.
  - right. exists l'. split; [by right|done].
Qed.

Lemma lines_parseHeaders_agree lines : ∀ hs hs' rest,
  parseHeaders lines hs = Ok hs' →
  LinesParser.parseHeaders (lines ++ "" :: rest) hs = Ok hs'.
Proof.
  induction lines as [|l lines IH]; intros hs hs' rest; simpl.
  - by intros [= <-].
  - destruct (Cut ": " l) as [[n v]|] eqn:E; [|discriminate].
    destruct l as [|c l]; [by rewrite Cut_nil in E|].
    simpl. apply IH.
Qed.

Lemma lines_parseHeaders_stop lines : ∀ hs rest rest',
  LinesParser.parseHeaders (lines ++ "" :: rest) hs
  = LinesParser.parseHeaders (lines ++ "" :: rest') hs.
Proof.
  induction lines as [|l lines IH]; intros hs rest rest'; simpl; [done|].
  destruct (String.eqb l ""); [done|].
  destruct (Cut ": " l) as [[n v]|]; [|done]. apply IH.
Qed.

Lemma lines_parseHeaders_error lines : ∀ hs,
  LinesParser.parseHeaders lines hs ≠ Err LinesParser.TooFewLines.
Proof.
  induction lines as [|l lines IH]; intros hs; simpl; [done|].
  destruct (String.eqb l ""); [done|].
  destruct (Cut ": " l) as [[n v]|]; [apply IH|done].
Qed.

Lemma Split_cons s sep :
  sep ≠ "" → ∃ piece pieces, Split s sep = piece :: pieces.
Proof.
  intros Hsep. rewrite Split_unfold by done.
  destruct (Cut sep s) as [[a b]|]; by eexists _, _.
Qed.

Lemma Split_blank_line head tail :
  ∃ line0 lines,
    Split head CRLF = line0 :: lines
    ∧ Split (head +:+ CRLFCRLF +:+ tail) CRLF
      = line0 :: lines ++ "" :: Split tail CRLF.
Proof.
  replace (head +:+ CRLFCRLF +:+ tail) with (head +:+ CRLF +:+ CRLF +:+ tail)
    by (unfold CRLFCRLF; by rewrite !append_assoc).
  rewrite (Split_app_CRLF (String.length head)) by done.
  rewrite (Split_unfold (CRLF +:+ tail)), Cut_prefix by discriminate.
  rewrite (Split_unfold head) by discriminate.
  destruct (Cut CRLF head) as [[a b]|]; by eexists _, _.
Qed.

End split_result.

(** X15: what the parser of src/unnamed/part_005 returns can be written
    back without ambiguity: method, path and version have no space and no
    CR LF in them, a header name has no colon-space and no CR LF, a header
    value has no CR LF, and the buffer is the header block, CR LF CR LF
    and the body, where the header block has no CR LF CR LF. *)
Theorem X15_split_parser_result_is_clean (data : string)
    (r : SplitParser.Request) :
  SplitParser.ParseRequest data = Ok r →
  (Contains (SplitParser.Method r) " " = false
   ∧ Contains (SplitParser.Path r) " " = false
   ∧ Contains (SplitParser.Version r) " " = false)
  ∧ (Contains (SplitParser.Method r) CRLF = false
     ∧ Contains (SplitParser.Path r) CRLF = false
     ∧ Contains (SplitParser.Version r) CRLF = false)
  ∧ (∀ k v, SplitParser.Headers r !! k = Some v →
            Contains k ": " = false ∧ Contains k CRLF = false
            ∧ Contains v CRLF = false)
  ∧ ∃ head, data = head +:+ CRLFCRLF +:+ SplitParser.Body r
            ∧ Contains head CRLFCRLF = false.
Proof.
  intros Hok.
  apply split_parse_inv in Hok as (head & line0 & lines & Hc & Hs & H3 & Hh).
  apply split_parseHeaders_inv in Hh as [_ Hm].
  assert (Hfree : ∀ sep s, Cut sep s = None → Contains s sep = false).
  { intros sep s H. unfold Contains. by rewrite H. }
  pose proof (Split_pieces_free CRLF _ head ltac:(discriminate) (le_n _))
    as Hlines.
  rewrite Hs in Hlines. apply Forall_cons in Hlines as [Hl0 Hlines].
  pose proof (Split_pieces_free " " _ line0 ltac:(discriminate) (le_n _))
    as Hparts.
  rewrite H3 in Hparts.
  apply Forall_cons in Hparts as [Hp1 Hparts].
  apply Forall_cons in Hparts as [Hp2 Hparts].
  apply Forall_cons in Hparts as [Hp3 _].
  pose proof (Split_three_inv _ _ _ _ H3) as Hline0.
  split; [by auto|]. split.
  - rewrite Hline0 in Hl0. repeat split; apply Hfree.
    + apply (Cut_None_sub CRLF "" (SplitParser.Method r)
               (" " +:+ SplitParser.Path r +:+ " " +:+ SplitParser.Version r)).
      exact Hl0.
    + apply (Cut_None_sub CRLF (SplitParser.Method r +:+ " ")
               (SplitParser.Path r) (" " +:+ SplitParser.Version r)).
      by rewrite !append_assoc.
    + apply (Cut_None_sub CRLF
               (SplitParser.Method r +:+ " " +:+ SplitParser.Path r +:+ " ")
               (SplitParser.Version r) "").
      by rewrite !append_assoc, append_nil_r.
  - split.
    + intros k v Hkv. rewrite Hm in Hkv.
      apply header_from_line in Hkv as [Hkv|(l & Hin & Hl)];
        [by rewrite lookup_empty in Hkv|].
      pose proof (proj1 (Forall_forall _ _) Hlines l Hin) as Hlfree.
      pose proof (Cut_sound _ _ _ _ Hl) as Hleq. simpl in Hlfree.
      rewrite Hleq in Hlfree. repeat split; apply Hfree.
      * by apply (Cut_before_free ": " l k v).
      * apply (Cut_None_sub CRLF "" k (": " +:+ v)). exact Hlfree.
      * apply (Cut_None_sub CRLF (k +:+ ": ") v "").
        by rewrite !append_assoc, append_nil_r.
    + exists head. split; [by apply Cut_sound|].
      apply Hfree. by apply (Cut_before_free CRLFCRLF data head
                               (SplitParser.Body r)).
Qed.

Lemma X15_clean_result_witness :
  Contains "/submit" " " = false
  ∧ ∀ k v,
      ({[ "Host" := "a" ]} : gmap string string) !! k = Some v →
      Contains k ": " = false ∧ Contains k CRLF = false
      ∧ Contains v CRLF = false.
Proof.
  destruct (X15_split_parser_result_is_clean
              ("POST /submit HTTP/1.1" +:+ CRLF +:+ "Host: a" +:+ CRLFCRLF
               +:+ "hello")
              {| SplitParser.Method := "POST"; SplitParser.Path := "/submit";
                 SplitParser.Version := "HTTP/1.1";
                 SplitParser.Headers := {[ "Host" := "a" ]};
                 SplitParser.Body := "hello" |})
    as ((_ & H1 & _) & _ & H2 & _); [vm_compute; reflexivity|].
  split; [exact H1|exact H2].
Defined.

(** X16: the parser of src/unnamed/part_005 accepts no more than the
    first parser (src/unnamed/part_004): every buffer it returns a request
    for, the first parser returns a request for as well, with the same
    method, path, version and headers, and with an empty body. *)
Theorem X16_first_parser_accepts_what_the_second_accepts (data : string)
    (r : SplitParser.Request) :
  SplitParser.ParseRequest data = Ok r →
  LinesParser.ParseRequest data
  = Ok {| SplitParser.Method := SplitParser.Method r;
          SplitParser.Path := SplitParser.Path r;
          SplitParser.Version := SplitParser.Version r;
          SplitParser.Headers := SplitParser.Headers r;
          SplitParser.Body := "" |}.
Proof.
  intros Hok.
  apply split_parse_inv in Hok as (head & line0 & lines & Hc & Hs & H3 & Hh).
  apply Cut_sound in Hc.
  destruct (Split_blank_line head (SplitParser.Body r))
    as (l0 & ls & Hs' & Hall).
  rewrite Hs in Hs'. injection Hs' as <- <-.
  unfold LinesParser.ParseRequest. rewrite Hc, Hall. simpl length.
  rewrite length_app. simpl length.
  replace (S (length lines + S _) <? 2) with false
    by (symmetry; apply Nat.ltb_ge; lia).
  rewrite H3. simpl SplitParser.Headers.
  by rewrite (lines_parseHeaders_agree lines ∅ _ _ Hh).
Qed.

Lemma X16_first_parser_witness :
  LinesParser.ParseRequest
    ("POST /submit HTTP/1.1" +:+ CRLF +:+ "Host: a" +:+ CRLFCRLF +:+ "hello")
  = Ok {| SplitParser.Method := "POST"; SplitParser.Path := "/submit";
          SplitParser.Version := "HTTP/1.1";
          SplitParser.Headers := {[ "Host" := "a" ]};
          SplitParser.Body := "" |}.
Proof.
  assert (H : SplitParser.ParseRequest
                ("POST /submit HTTP/1.1" +:+ CRLF +:+ "Host: a" +:+ CRLFCRLF
                 +:+ "hello")
              = Ok {| SplitParser.Method := "POST";
                      SplitParser.Path := "/submit";
                      SplitParser.Version := "HTTP/1.1";
                      SplitParser.Headers := {[ "Host" := "a" ]};
                      SplitParser.Body := "hello" |})
    by (vm_compute; reflexivity).
  exact (X16_first_parser_accepts_what_the_second_accepts _ _ H).
Defined.

(** X17: the first parser (src/unnamed/part_004) on the edges of its
    input.  A buffer with no CR LF, the empty buffer among them, fails
    with the too-few-lines error, and no other buffer does; a request it
    returns has an empty body; and what follows the first CR LF CR LF
    changes nothing: neither the request returned nor the error. *)
Theorem X17_first_parser_edges (data : string) :
  (Contains data CRLF = false
   ↔ LinesParser.ParseRequest data = Err LinesParser.TooFewLines)
  ∧ (∀ r, LinesParser.ParseRequest data = Ok r → SplitParser.Body r = "")
  ∧ (∀ head tail tail',
       LinesParser.ParseRequest (head +:+ CRLFCRLF +:+ tail)
       = LinesParser.ParseRequest (head +:+ CRLFCRLF +:+ tail')).
Proof.
  split; [|split].
  - unfold Contains, LinesParser.ParseRequest.
    rewrite Split_unfold by discriminate.
    destruct (Cut CRLF data) as [[a b]|] eqn:E; [|by split].
    split; [discriminate|].
    destruct (Split_cons b CRLF) as (x & l & ->); [discriminate|].
    change (length (a :: x :: l) <? 2) with false. cbv beta iota.
    destruct (Split a " ") as [|? [|? [|? [|? ?]]]]; try discriminate.
    pose proof (lines_parseHeaders_error (x :: l)
                  (SplitParser.Headers SplitParser.NewRequest)) as Hne.
    destruct (LinesParser.parseHeaders (x :: l) _); [discriminate|].
    intros [= ->]. done.
  - intros r. unfold LinesParser.ParseRequest.
    destruct (_ <? 2); [discriminate|].
    destruct (Split data CRLF) as [|line0 rest]; [discriminate|].
    destruct (Split line0 " ") as [|? [|? [|? [|? ?]]]]; try discriminate.
    destruct (LinesParser.parseHeaders _ _); [|discriminate].
    by intros [= <-].
  - intros head tail tail'.
    destruct (Split_blank_line head tail) as (l0 & ls & Hs & Hall).
    destruct (Split_blank_line head tail') as (l0' & ls' & Hs' & Hall').
    rewrite Hs in Hs'. injection Hs' as <- <-.
    unfold LinesParser.ParseRequest. rewrite Hall, Hall'.
    simpl length. rewrite !length_app. simpl length.
    replace (S (length ls + S _) <? 2) with false
      by (symmetry; apply Nat.ltb_ge; lia).
    replace (S (length ls + S _) <? 2) with false
      by (symmetry; apply Nat.ltb_ge; lia).
    destruct (Split l0 " ") as [|? [|? [|? [|? ?]]]]; try done.
    by rewrite (lines_parseHeaders_stop ls _ _ (Split tail' CRLF)).
Qed.

(** ** The server and its pool *)

Section serving.
Import Pool.

Lemma LoggingMiddleware_response {W T} (clock : W → T) print next req w :
  (Middleware.LoggingMiddleware clock print next req w).1 = (next req w).1.
Proof.
  unfold Middleware.LoggingMiddleware. by destruct (next req w).
Qed.

Lemma LoggingMiddleware_transparent {W T} (clock : W → T) print :
  Middleware.transparent (Middleware.LoggingMiddleware clock print).
Proof.
  intros next req w. unfold Middleware.LoggingMiddleware.
  destruct (next req w) as [resp w'] eqn:E.
  exists w. eexists. rewrite E. reflexivity.
Qed.

Lemma puts_fill cs : ∀ p,
  (0 ≤ maxConns p)%Z →
  (Z.of_nat (length (conns p)) ≤ maxConns p)%Z →
  run (OpPut <$> cs) p
  = {| conns :=
         conns p ++ take (Z.to_nat (maxConns p) - length (conns p)) cs;
       maxConns := maxConns p;
       closed :=
         closed p ++ drop (Z.to_nat (maxConns p) - length (conns p)) cs |}.
Proof.
  induction cs as [|c cs IH]; intros p H0 Hle.
  - simpl. rewrite take_nil, drop_nil, !app_nil_r. by destruct p.
  - change (run (OpPut <$> c :: cs) p) with (run (OpPut <$> cs) (Put c p)).
    unfold Put.
    destruct (Z.ltb_spec (Z.of_nat (length (conns p))) (maxConns p)).
    + rewrite IH; simpl; [|done|rewrite length_app; simpl; lia].
      rewrite length_app. simpl.
      replace (Z.to_nat (maxConns p) - length (conns p))
        with (S (Z.to_nat (maxConns p) - (length (conns p) + 1))) by lia.
      simpl. by rewrite <- app_assoc.
    + rewrite IH; simpl; [|done|lia].
      replace (Z.to_nat (maxConns p) - length (conns p)) with 0 by lia.
      simpl. by rewrite <- app_assoc.
Qed.

Lemma serveAll_pool {W Request E} (ParseRequest : string → result Request E)
    (HandleRequest : Request → M W Resp.Response) accepted : ∀ w p,
  (Serving.serveAll ParseRequest HandleRequest accepted w p).2
  = run (OpPut <$> accepted.*1) p.
Proof.
  induction accepted as [|[conn read] rest IH]; intros w p; [done|].
  simpl.
  destruct (Server.handleConnection _ _ conn read w p) as [[wr w'] p'] eqn:Eh.
  rewrite IH. f_equal.
  unfold Server.handleConnection in Eh.
  destruct read; simpl in Eh.
  - destruct (ParseRequest data); [destruct (HandleRequest a w)|];
      by injection Eh as _ _ <-.
  - by injection Eh as _ _ <-.
  - by injection Eh as _ _ <-.
Qed.

Lemma split_parseHeaders_error lines hs e :
  SplitParser.parseHeaders lines hs = Err e →
  ∃ lines1 line lines2,
    lines = lines1 ++ line :: lines2
    ∧ Forall (λ l, is_Some (Cut ": " l)) lines1
    ∧ Cut ": " line = None
    ∧ e = SplitParser.InvalidHeader line.
Proof.
  intros He. destruct (first_bad_line lines)
    as [Hall|(lines1 & line & lines2 & -> & Hgood & Hbad)].
  - pose proof (split_parseHeaders_ok lines hs Hall) as Hok.
    by rewrite He in Hok.
  - rewrite (split_parseHeaders_bad _ _ _ hs Hgood Hbad) in He.
    injection He as <-. by exists lines1, line, lines2.
Qed.

End serving.

(** X18: LoggingMiddleware of src/pkg/http/middleware.go hands the
    request on as it is and returns what the handler answers: with any
    number of registrations of it and nothing else, the router of
    src/unnamed/part_007 answers a routed request with exactly the
    response the route's handler gives in the world the request arrived
    in. *)
Theorem X18_logging_leaves_the_response_alone {W T : Type}
    (r : MwRouter.Router W) (H : MwRouter.HandlerFunc W)
    (req : SplitParser.Request) (w : W) :
  MwRouter.lookup r (SplitParser.Method req) (SplitParser.Path req) = Some H →
  Forall (λ mw, ∃ (clock : W → T) print,
                  mw = Middleware.LoggingMiddleware clock print)
    (MwRouter.middleware r) →
  (MwRouter.HandleRequest r req w).1 = (H req w).1.
Proof.
  intros Hl Hall. rewrite mw_dispatch, Hl. revert w.
  induction Hall as [|mw mws (clock & print & ->) _ IH]; intros w; [done|].
  simpl. by rewrite LoggingMiddleware_response.
Qed.

Lemma X18_logging_witness :
  (MwRouter.HandleRequest SampleServer.router
     {| SplitParser.Method := "POST"; SplitParser.Path := "/echo";
        SplitParser.Version := "HTTP/1.1"; SplitParser.Headers := ∅;
        SplitParser.Body := "hello" |} []).1
  = (Server.handleEcho
       {| SplitParser.Method := "POST"; SplitParser.Path := "/echo";
          SplitParser.Version := "HTTP/1.1"; SplitParser.Headers := ∅;
          SplitParser.Body := "hello" |} ([] : list string)).1.
Proof.
  apply (X18_logging_leaves_the_response_alone (T := nat) SampleServer.router
           Server.handleEcho); [reflexivity|].
  repeat constructor. by exists SampleServer.clock, SampleServer.print.
Defined.

(** X19: which error the parser of src/unnamed/part_005 gives.  The
    missing-separator error comes exactly for the buffers with no
    CR LF CR LF; the empty-request error never comes; the malformed
    request line error carries the first line of the header block, which
    does not split at spaces into three pieces; the malformed header error
    carries the first line after the request line that has no
    colon-space. *)
Theorem X19_split_parser_errors (data : string) :
  (SplitParser.ParseRequest data = Err SplitParser.NoBodySeparator
   ↔ Contains data CRLFCRLF = false)
  ∧ SplitParser.ParseRequest data ≠ Err SplitParser.EmptyRequest
  ∧ (∀ line,
       SplitParser.ParseRequest data
       = Err (SplitParser.InvalidRequestLine line) →
       ∃ head body lines,
         Cut CRLFCRLF data = Some (head, body)
         ∧ Split head CRLF = line :: lines
         ∧ length (Split line " ") ≠ 3)
  ∧ (∀ line,
       SplitParser.ParseRequest data = Err (SplitParser.InvalidHeader line) →
       ∃ head body line0 lines1 lines2,
         Cut CRLFCRLF data = Some (head, body)
         ∧ Split head CRLF = line0 :: lines1 ++ line :: lines2
         ∧ Forall (λ l, is_Some (Cut ": " l)) lines1
         ∧ Cut ": " line = None).
Proof.
  rewrite split_ParseRequest_unfold. unfold Contains.
  destruct (Cut CRLFCRLF data) as [[head body]|] eqn:Hc.
  2:{ repeat split; try done; discriminate. }
  destruct (Split_cons head CRLF) as (line0 & lines & Hs); [discriminate|].
  rewrite Hs.
  destruct (Split line0 " ") as [|m [|p [|v [|x xs]]]] eqn:H3.
  5:{ split; [split; discriminate|]. split; [discriminate|]. split.
      - intros line [= <-]. exists head, body, lines.
        by rewrite H3.
      - discriminate. }
  4:{ destruct (SplitParser.parseHeaders lines ∅) as [hs|e] eqn:Hh.
      - repeat split; discriminate.
      - apply split_parseHeaders_error
          in Hh as (lines1 & bad & lines2 & -> & Hgood & Hbad & ->).
        split; [split; discriminate|]. split; [discriminate|].
        split; [discriminate|].
        intros line [= <-]. by exists head, body, line0, lines1, lines2. }
  all: split; [split; discriminate|]; split; [discriminate|]; split;
    [|discriminate]; intros line [= <-]; exists head, body, lines;
    by rewrite H3.
Qed.

(** X20: the server of src/cmd/server/main.go puts every connection it
    has handled into the pool and never takes one out.  With a new pool of
    capacity [C], after any connections were handled, whatever was read
    from them, the first [C] of them are stored in the pool, still open,
    and every later one was closed by the pool. *)
Theorem X20_server_keeps_the_first_connections {W Request E : Type}
    (ParseRequest : string → result Request E)
    (HandleRequest : Request → M W Resp.Response) (C : Z)
    (p0 : Pool.ConnPool) (accepted : list (Pool.Conn * Server.ReadResult))
    (w : W) :
  Pool.NewConnPool C = Some p0 →
  Pool.conns (Serving.serveAll ParseRequest HandleRequest accepted w p0).2
  = take (Z.to_nat C) accepted.*1
  ∧ Pool.closed (Serving.serveAll ParseRequest HandleRequest accepted w p0).2
    = drop (Z.to_nat C) accepted.*1.
Proof.
  intros Hnew. apply NewConnPool_eq in Hnew as [-> H0].
  rewrite serveAll_pool, puts_fill by (simpl; lia). simpl.
  by rewrite Nat.sub_0_r.
Qed.

Lemma X20_server_pool_witness :
  Pool.conns
    (Serving.serveAll SplitParser.ParseRequest
       (MwRouter.HandleRequest SampleServer.router)
       [(1, Server.ReadBytes SampleServer.echoRequest);
        (2, Server.ReadTimeout); (3, Server.ReadBytes "garbage")]
       [] SampleServer.pool).2
  = [1; 2]
  ∧ Pool.closed
      (Serving.serveAll SplitParser.ParseRequest
         (MwRouter.HandleRequest SampleServer.router)
         [(1, Server.ReadBytes SampleServer.echoRequest);
          (2, Server.ReadTimeout); (3, Server.ReadBytes "garbage")]
         [] SampleServer.pool).2
    = [3].
Proof.
  exact (X20_server_keeps_the_first_connections SplitParser.ParseRequest
           (MwRouter.HandleRequest SampleServer.router) 2 SampleServer.pool
           [(1, Server.ReadBytes SampleServer.echoRequest);
            (2, Server.ReadTimeout); (3, Server.ReadBytes "garbage")]
           [] eq_refl).
Defined.

(** The echo route on an instance of the server: middleware registered,
    the request read from the connection, the bytes written. *)
Lemma X11_echo_witness :
  ∃ order,
    order ≡ₚ [("Content-Type", "text/plain"); ("Content-Length", Itoa 5)]
    ∧ Resp.FormatResponseIn
        [("Content-Length", "5"); ("Content-Type", "text/plain")]
        (Server.handleEcho
           {| SplitParser.Method := "POST"; SplitParser.Path := "/echo";
              SplitParser.Version := "HTTP/1.1";
              SplitParser.Headers := {[ "Content-Length" := "5" ]};
              SplitParser.Body := "hello" |} ([] : list string)).1
      = "HTTP/1.1 200 OK" +:+ CRLF +:+ Resp.headerLines order +:+ CRLF
        +:+ "hello".
Proof.
  apply (X11_echo_returns_the_request_body SampleServer.router
           SampleServer.echoRequest
           ("POST /echo HTTP/1.1" +:+ CRLF +:+ "Content-Length: 5") "hello"
           {| SplitParser.Method := "POST"; SplitParser.Path := "/echo";
              SplitParser.Version := "HTTP/1.1";
              SplitParser.Headers := {[ "Content-Length" := "5" ]};
              SplitParser.Body := "hello" |}
           1 [] SampleServer.pool).
  - reflexivity.
  - repeat constructor. apply LoggingMiddleware_transparent.
  - reflexivity.
  - intros a' b' Hd.
    refine (Cut_first CRLFCRLF _ _ _ a' b' _ Hd). vm_compute. reflexivity.
  - vm_compute. reflexivity.
  - reflexivity.
  - reflexivity.
  - exists [("Content-Length", "5"); ("Content-Type", "text/plain")].
    split; [|vm_compute; reflexivity].
    unfold Resp.iteration. vm_compute. reflexivity.
Defined.
